(** * Falcon host search and sensor download: a model of the Python sources

    Two scripts are embedded here.

    - [HostSearch]: [falcon_host_search_site.py], the Flask page that parses a
      pasted list of names, looks every name up through a thread pool and
      fetches the details of the matches.
    - [SensorDownload] and [SensorScript]: [sensor_download.py], that is
      [get_version_map], [create_constants] and the body of the script, which
      lists the installers or downloads them into directories it makes.

    Text is a [string] of 8-bit characters, each read as the Unicode code point
    of the same number (U+0000 to U+00FF).  Python integers are [Z].  A Python
    exception is a constructor of [exn]; code that can raise lives in the
    monad [M], which also records the calls made to the Falcon API, or in
    the monad [IO], which records what the script does to the outside. *)

From Stdlib Require Import List String Ascii ZArith NArith Lia Bool.
From Stdlib Require Import Permutation DecimalString DecimalPos DecimalZ.
Import ListNotations.

#[local] Open Scope string_scope.
#[local] Open Scope Z_scope.
#[local] Open Scope list_scope.

(** ** Python values and primitives *)

Module Py.

Inductive exn : Type :=
| TypeError
| AttributeError
| KeyError
| FileNotFoundError.

Inductive outcome (A : Type) : Type :=
| Returned (value : A)
| Raised (e : exn).

Arguments Returned {A} value.
Arguments Raised {A} e.

(** [len] of a list, as a Python [int]. *)
Definition len {A : Type} (l : list A) : Z := Z.of_nat (List.length l).

(** [str(n)] for an [int]. *)
Definition str_of_int (n : Z) : string := NilZero.string_of_int (Z.to_int n).

Definition newline : ascii := "010"%char.

(** [c.isspace()] on U+0000..U+00FF: TAB..CR, FS..US, space, NEL and NBSP. *)
Definition isspace (c : ascii) : bool :=
  let n := N_of_ascii c in
  ((9 <=? n) && (n <=? 13) || (28 <=? n) && (n <=? 32)
   || (n =? 133) || (n =? 160))%N.

(** The class [\w] of [re] for a [str] pattern on U+0000..U+00FF:
    alphanumeric (alphabetic, decimal, digit or numeric) or underscore. *)
Definition is_word (c : ascii) : bool :=
  let n := N_of_ascii c in
  let within lo hi := ((lo <=? n) && (n <=? hi))%N in
  (within 48 57 || within 65 90 || within 95 95 || within 97 122
   || within 170 170 || within 178 179 || within 181 181 || within 185 186
   || within 188 190 || within 192 214 || within 216 246
   || within 248 255)%N.

(** [s.split("\n")]: always at least one piece. *)
Fixpoint split_newline (s : string) : list string :=
  match s with
  | EmptyString => [EmptyString]
  | String c rest =>
      if Ascii.eqb c newline then EmptyString :: split_newline rest
      else match split_newline rest with
           | piece :: pieces => String c piece :: pieces
           | [] => [String c EmptyString]
           end
  end.

Fixpoint lstrip (s : string) : string :=
  match s with
  | EmptyString => EmptyString
  | String c rest => if isspace c then lstrip rest else s
  end.

Fixpoint rstrip (s : string) : string :=
  match s with
  | EmptyString => EmptyString
  | String c rest =>
      match rstrip rest with
      | EmptyString => if isspace c then EmptyString else String c EmptyString
      | kept => String c kept
      end
  end.

(** [s.strip()]. *)
Definition strip (s : string) : string := lstrip (rstrip s).

Definition is_empty (s : string) : bool :=
  match s with EmptyString => true | String _ _ => false end.

(** [while "" in l: l.remove("")]: every empty string goes, the rest keep
    their order. *)
Definition remove_all_empty (l : list string) : list string :=
  filter (fun s => negb (is_empty s)) l.

(** [sep.join(items)]. *)
Definition join (sep : string) (items : list string) : string :=
  String.concat sep items.

(** A value that is either [False] or a list of strings: what
    [file_parse] hands back in each position of its pair. *)
Inductive pyvalue : Type :=
| PyFalse
| PyList (items : list string).

(** Truth value of a [pyvalue] in an [if] or under [and]. *)
Definition truthy (v : pyvalue) : bool :=
  match v with
  | PyFalse => false
  | PyList [] => false
  | PyList (_ :: _) => true
  end.

(** [v == False]: a list never equals [False]. *)
Definition eq_False (v : pyvalue) : bool :=
  match v with
  | PyFalse => true
  | PyList _ => false
  end.

End Py.

(** ** Regular expressions of [file_parse] *)

Module Re.
Import Py.

(** [re.sub(r"\..*", "", s)]: from each ['.'] delete up to, not including,
    the next newline ([.] matches anything but a newline).  [in_match] says
    that the scan is inside a match. *)
Fixpoint sub_dot_rest_from (in_match : bool) (s : string) : string :=
  match s with
  | EmptyString => EmptyString
  | String c rest =>
      if in_match then
        if Ascii.eqb c newline then String c (sub_dot_rest_from false rest)
        else sub_dot_rest_from true rest
      else
        if Ascii.eqb c "."%char then sub_dot_rest_from true rest
        else String c (sub_dot_rest_from false rest)
  end.

Definition sub_dot_rest (s : string) : string := sub_dot_rest_from false s.

(** [.*$] at the current position: no newline before the end, except one
    that is the last character. *)
Fixpoint dot_star_dollar (s : string) : bool :=
  match s with
  | EmptyString => true
  | String c rest =>
      if Ascii.eqb c newline then is_empty rest else dot_star_dollar rest
  end.

(** [re.match(r"^i-\b.*$", s)] as a truth value.  After ['-'], which is not
    a word character, [\b] holds exactly when a word character follows. *)
Definition match_i_dash (s : string) : bool :=
  match s with
  | String "i" (String "-" (String c rest)) =>
      is_word c && dot_star_dollar (String c rest)
  | _ => false
  end.

End Re.

(** ** [falcon_host_search_site.py] *)

Module HostSearch.
Import Py.

(** *** The Falcon API as the script sees it *)

(** What [query_devices_by_filter_scroll] answers: ["status_code"] and
    ["body"]["resources"], a list of agent ids. *)
Record search_reply : Type := {
  status_code : Z;
  resources : list string
}.

(** One element of ["body"]["resources"] of [get_device_details]: a
    dictionary, of which the script reads eight keys.  A field is [None]
    when the dictionary has no such key. *)
Record detail : Type := {
  hostname : option string;
  device_id : option string;
  agent_version : option string;
  last_seen : option string;
  first_seen : option string;
  instance_id : option string;
  tags : option (list string);
  cid : option string
}.

(** An element of the list bound to [aid_list] after line 143: an agent id
    taken out of a sub-list by the flattening, or a whole sub-list appended
    by a worker afterwards. *)
Inductive aid_item : Type :=
| Aid (aid : string)
| SubList (aids : list string).

Inductive call : Type :=
| QueryDevicesByFilterScroll (limit : Z) (sort filter : string)
| GetDeviceDetails (ids : list aid_item).

(** The [Hosts] service object: how the remote side answers.
    [get_device_details] gives the list found under ["body"]["resources"] of
    the answer. *)
Record Hosts : Type := {
  query_devices_by_filter_scroll : Z -> string -> string -> search_reply;
  get_device_details : list aid_item -> list detail
}.

(** *** Computations that may raise, with the log of remote calls *)

Definition M (A : Type) : Type := list call -> outcome A * list call.

Definition ret {A : Type} (a : A) : M A := fun log => (Returned a, log).

Definition raise {A : Type} (e : exn) : M A := fun log => (Raised e, log).

Definition bind {A B : Type} (m : M A) (k : A -> M B) : M B :=
  fun log =>
    match m log with
    | (Returned a, log') => k a log'
    | (Raised e, log') => (Raised e, log')
    end.

Definition remote {A : Type} (c : call) (answer : A) : M A :=
  fun log => (Returned answer, log ++ [c]).

Notation "x <- m ;; k" := (bind m (fun x => k))
  (at level 61, m at next level, right associativity).
Notation "' pat <- m ;; k" := (bind m (fun x => match x with pat => k end))
  (at level 61, pat pattern, m at next level, right associativity).

(** *** [file_parse] *)

(** Lines 52 to 55: split, strip, drop the empty strings. *)
Definition clean_list (submitted_list : string) : list string :=
  let host_items_split := split_newline submitted_list in
  let host_list := map strip host_items_split in
  remove_all_empty host_list.

(** Body of the loop of lines 68 to 74, on the pair of lists it appends
    to. *)
Definition classify (lists : list string * list string)
    (host_or_id : string) : list string * list string :=
  let '(iname_list, hname_list) := lists in
  let host_or_id := Re.sub_dot_rest host_or_id in
  if Re.match_i_dash host_or_id then (iname_list ++ [host_or_id], hname_list)
  else (iname_list, hname_list ++ [host_or_id]).

Definition file_parse (submitted_list : string) : pyvalue * pyvalue :=
  let host_list := clean_list submitted_list in
  if 5000 <? len host_list then (PyFalse, PyFalse)
  else
    let '(iname_list, hname_list) := fold_left classify host_list ([], []) in
    (PyList iname_list, PyList hname_list).

(** *** [cs_query_devices] *)

(** The objects the main thread and the workers share.  [first_aid_list] is
    the list made at line 83.  [new_aid_list] is [None] until line 143 has
    bound [aid_list] to the flattened list, and that list afterwards: the
    workers read the variable [aid_list] of the enclosing function each time
    they run, so they append to whichever list it is bound to then. *)
Record shared : Type := {
  first_aid_list : list (list string);
  new_aid_list : option (list aid_item);
  host_info_list : list string;
  api_calls : list call
}.

Definition log_call (c : call) (st : shared) : shared :=
  {| first_aid_list := first_aid_list st;
     new_aid_list := new_aid_list st;
     host_info_list := host_info_list st;
     api_calls := api_calls st ++ [c] |}.

(** [host_info_list.append(row)]. *)
Definition append_row (row : string) (st : shared) : shared :=
  {| first_aid_list := first_aid_list st;
     new_aid_list := new_aid_list st;
     host_info_list := host_info_list st ++ [row];
     api_calls := api_calls st |}.

(** [aid_list.append(aid)] in a worker.  [stale] marks a worker that read
    the variable before line 143 rebound it and appends only afterwards: its
    sub-list lands in the first list, which nothing reads any more. *)
Definition append_aid (stale : bool) (aid : list string) (st : shared)
    : shared :=
  match new_aid_list st, stale with
  | Some flattened, false =>
      {| first_aid_list := first_aid_list st;
         new_aid_list := Some (flattened ++ [SubList aid]);
         host_info_list := host_info_list st;
         api_calls := api_calls st |}
  | _, _ =>
      {| first_aid_list := first_aid_list st ++ [aid];
         new_aid_list := new_aid_list st;
         host_info_list := host_info_list st;
         api_calls := api_calls st |}
  end.

Definition iname_filter (iname : string) : string :=
  ("instance_id:*'*" ++ iname ++ "*'")%string.

Definition hname_filter (hname : string) : string :=
  ("hostname:*'" ++ hname ++ "*'")%string.

Definition not_found_row (name : string) : string :=
  (name ++ ",False")%string.

Definition iname_error_row (iname : string) : string :=
  (iname ++ ", Search experienced an error. "
         ++ "Please try this name again in a smaller search list.")%string.

Definition hname_error_row (hname : string) : string :=
  (hname ++ ", Search experienced a transient error. "
         ++ "Please try this name again in a smaller search list.")%string.

Definition search_inames (falcon : Hosts) (stale : bool) (iname : string)
    (st : shared) : shared :=
  let iname_search :=
    query_devices_by_filter_scroll falcon 50 "last_seen.desc"
      (iname_filter iname) in
  let st :=
    log_call (QueryDevicesByFilterScroll 50 "last_seen.desc"
                (iname_filter iname)) st in
  if status_code iname_search =? 200 then
    let aid := resources iname_search in
    match aid with
    | _ :: _ => append_aid stale aid st
    | [] => append_row (not_found_row iname) st
    end
  else append_row (iname_error_row iname) st.

Definition search_hnames (falcon : Hosts) (stale : bool) (hname : string)
    (st : shared) : shared :=
  let hname_search :=
    query_devices_by_filter_scroll falcon 50 "last_seen.desc"
      (hname_filter hname) in
  let st :=
    log_call (QueryDevicesByFilterScroll 50 "last_seen.desc"
                (hname_filter hname)) st in
  if status_code hname_search =? 200 then
    let aid := resources hname_search in
    match aid with
    | _ :: _ => append_aid stale aid st
    | [] => append_row (not_found_row hname) st
    end
  else append_row (hname_error_row hname) st.

(** What [executor.map] submits: one call of a worker per name. *)
Inductive task : Type :=
| InameTask (iname : string)
| HnameTask (hname : string).

Definition run_task (falcon : Hosts) (stale : bool) (t : task)
    (st : shared) : shared :=
  match t with
  | InameTask iname => search_inames falcon stale iname st
  | HnameTask hname => search_hnames falcon stale hname st
  end.

(** How one run of the thread pool went.  [picks] gives, one after the
    other, the position among the still pending tasks of the task that
    finishes next (tasks left when [picks] runs out finish in submission
    order).  [flatten_after] is the number of tasks that have finished when
    the main thread, which does not wait for them inside the [with] block,
    runs line 143.  [stale] flags, in order, the tasks finishing after
    that. *)
Record schedule : Type := {
  picks : list nat;
  flatten_after : nat;
  stale : list bool
}.

Fixpoint completion_order (picks : list nat) (pending : list task)
    : list task :=
  match picks with
  | [] => pending
  | i :: picks' =>
      match nth_error pending i with
      | Some t =>
          t :: completion_order picks'
                 (firstn i pending ++ skipn (S i) pending)
      | None => completion_order picks' pending
      end
  end.

Fixpoint run_tasks (falcon : Hosts) (stale : list bool) (ts : list task)
    (st : shared) : shared :=
  match ts with
  | [] => st
  | t :: ts' =>
      run_tasks falcon (tl stale) ts' (run_task falcon (hd false stale) t st)
  end.

(** Line 143: [aid_list = [i for sub_list in aid_list for i in sub_list]]. *)
Definition flatten (st : shared) : shared :=
  {| first_aid_list := first_aid_list st;
     new_aid_list := Some (map Aid (List.concat (first_aid_list st)));
     host_info_list := host_info_list st;
     api_calls := api_calls st |}.

Definition aid_list_of (st : shared) : list aid_item :=
  match new_aid_list st with
  | Some l => l
  | None => []
  end.

Definition submitted (inames hnames : list string) : list task :=
  map InameTask inames ++ map HnameTask hnames.

(** [executor.map(f, False)] raises [TypeError] when it zips its argument.
    The [return] of line 147 sits inside the [with] block: its pair is
    built, then leaving the block waits for every task, then the caller gets
    the pair, whose lists the late tasks have appended to meanwhile. *)
Definition cs_query_devices (falcon : Hosts) (sched : schedule)
    (iname_list hname_list : pyvalue) : M (list aid_item * list string) :=
  fun log =>
    let st0 := {| first_aid_list := []; new_aid_list := None;
                  host_info_list := []; api_calls := log |} in
    match iname_list, hname_list with
    | PyFalse, _ => (Raised TypeError, log)
    | PyList inames, PyFalse =>
        let order := completion_order (picks sched) (map InameTask inames) in
        (Raised TypeError, api_calls (run_tasks falcon [] order st0))
    | PyList inames, PyList hnames =>
        let order :=
          completion_order (picks sched) (submitted inames hnames) in
        let early := firstn (flatten_after sched) order in
        let late := skipn (flatten_after sched) order in
        let st := run_tasks falcon [] early st0 in
        let st := flatten st in
        let st := run_tasks falcon (stale sched) late st in
        (Returned (aid_list_of st, host_info_list st), api_calls st)
    end.

(** *** [cs_detail_search] *)

Definition cid_dict : list (string * string) :=
  [ ("1234567890qwertyuiopasdfghjkl", "Company Name");
    ("0987654321poiuytrewqlkjhgfdsa", "Business Segment");
    ("67890-54321trewyuiopgfdshjkla", "Sister Company");
    ("09876123456mnbvzxcvbasdftygwk", "Acronyms R Us") ].

(** [d.get(key, default)] on a dictionary of strings. *)
Fixpoint dict_get (d : list (string * string)) (key default : string)
    : string :=
  match d with
  | [] => default
  | (k, v) :: d' => if String.eqb k key then v else dict_get d' key default
  end.

(** [detail[key]]: [KeyError] when the dictionary has no such key. *)
Definition subscript {A : Type} (value : option A) : M A :=
  match value with
  | Some v => ret v
  | None => raise KeyError
  end.

(** Lines 164 to 192.  Six keys are indexed as they are; [instance_id] and
    [tags] are indexed under [try]/[except KeyError].  The string literal of
    lines 191 and 192 is continued by a backslash, so the sixteen spaces that
    indent line 192 are part of it. *)
Definition device_details (d : detail) : M string :=
  let is_found := "True" in
  hostname <- subscript (hostname d) ;;
  host_id <- subscript (device_id d) ;;
  agent_version <- subscript (agent_version d) ;;
  last_seen <- subscript (last_seen d) ;;
  first_seen <- subscript (first_seen d) ;;
  let instance_id :=
    match instance_id d with Some i => i | None => "N/A" end in
  let tags :=
    match tags d with Some ts => join ";" ts | None => "N/A" end in
  cid <- subscript (cid d) ;;
  let cid_name := dict_get cid_dict cid "Name not found" in
  let cid := (cid_name ++ " : " ++ cid)%string in
  ret (hostname ++ "," ++ is_found ++ "," ++ agent_version ++ ","
         ++ last_seen ++ "                ," ++ first_seen ++ "," ++ tags
         ++ "," ++ cid ++ "," ++ instance_id ++ "," ++ host_id)%string.

Definition too_many_hosts_row (n : Z) : string :=
  (str_of_int n ++ " hosts found. Please reduce the number of partial "
     ++ "names to stay under 5000 results. Any names above that reported "
     ++ "IsFound as False were confirmed not to be found.")%string.

(** The [for] loop of lines 162 to 193: one [append] per detail, until a
    detail raises. *)
Fixpoint append_details (details : list detail)
    (host_info_list : list string) : M (list string) :=
  match details with
  | [] => ret host_info_list
  | d :: rest =>
      row <- device_details d ;;
      append_details rest (host_info_list ++ [row])
  end.

(** Line 155 looks up the attribute [apppend] of a list, which does not
    exist. *)
Definition cs_detail_search (falcon : Hosts) (aid_list : list aid_item)
    (host_info_list : list string) : M (list string) :=
  if len aid_list =? 0 then raise AttributeError
  else if (0 <? len aid_list) && (len aid_list <=? 5000) then
    details_response <-
      remote (GetDeviceDetails aid_list)
        (get_device_details falcon aid_list) ;;
    append_details details_response host_info_list
  else ret (host_info_list ++ [too_many_hosts_row (len aid_list)]).

(** *** [upload_file] *)

Definition too_many_names_row : string :=
  "Too many names to search. Please try again with fewer than 5000 names.".

(** Lines 210 to 221: the value of the local [host_info_list] when the
    function body ends.  [falcon] is the [Hosts] object made at line 219 and
    [sched] the way the thread pool happens to run. *)
Definition upload_file_rows (falcon : Hosts) (sched : schedule)
    (submitted_list : string) : M (list string) :=
  let '(iname_list, hname_list) := file_parse submitted_list in
  if truthy iname_list && eq_False hname_list then ret [too_many_names_row]
  else
    ' (aid_list, host_info_list) <-
      cs_query_devices falcon sched iname_list hname_list ;;
    cs_detail_search falcon aid_list host_info_list.

(** The function has no [return]: once the body has run it hands back
    Python's [None], here [None]. *)
Definition upload_file (falcon : Hosts) (sched : schedule)
    (submitted_list : string) : M (option (list string)) :=
  _ <- upload_file_rows falcon sched submitted_list ;;
  ret None.

End HostSearch.

(** ** [sensor_download.py] *)

Module SensorDownload.
Import Py.

(** A Python [dict] with string keys, in insertion order. *)
Definition dict (V : Type) : Type := list (string * V).

(** [d.get(key)]: [None] when the key is absent. *)
Fixpoint get {V : Type} (d : dict V) (key : string) : option V :=
  match d with
  | [] => None
  | (k, v) :: d' => if String.eqb k key then Some v else get d' key
  end.

(** [d[key] = v]: replaces the value in place, or adds the key last. *)
Fixpoint set {V : Type} (d : dict V) (key : string) (v : V) : dict V :=
  match d with
  | [] => [(key, v)]
  | (k, x) :: d' =>
      if String.eqb k key then (k, v) :: d' else (k, x) :: set d' key v
  end.

Definition keys {V : Type} (d : dict V) : list string := map fst d.

(** One element of ["body"]["resources"]: the keys [get_version_map] reads
    with [.get(key, None)]. *)
Record installer : Type := {
  version : option string;
  platform : option string;
  os : option string;
  os_version : option string;
  name : option string;
  description : option string;
  sha256 : option string
}.

(** The dictionary stored under ["current"], ["previous"] or ["oldest"]. *)
Record entry : Type := {
  entry_name : option string;
  entry_version : option string;
  entry_description : option string;
  entry_sha256 : option string
}.

(** The dictionary of one platform/OS bucket, by its three possible keys. *)
Record os_detail : Type := {
  current : option entry;
  previous : option entry;
  oldest : option entry
}.

(** The four local flags of the loop body. *)
Record flags : Type := {
  f_tracked : bool;
  f_current : bool;
  f_prev : bool;
  f_eldest : bool
}.

Definition no_flags : flags :=
  {| f_tracked := false; f_current := false; f_prev := false;
     f_eldest := false |}.

Definition none_set (fl : flags) : bool :=
  negb (f_tracked fl) && negb (f_current fl) && negb (f_prev fl)
  && negb (f_eldest fl).

(** Truth value of [None] or a string. *)
Definition truthy_str (v : option string) : bool :=
  match v with
  | Some (String _ _) => true
  | _ => false
  end.

(** How an f-string renders [None] or a string. *)
Definition fmt (v : option string) : string :=
  match v with
  | Some s => s
  | None => "None"
  end.

(** [f"{os_name} {os_ver}".strip()]. *)
Definition bucket_key (os_name os_ver : option string) : string :=
  strip (fmt os_name ++ " " ++ fmt os_ver)%string.

Definition entry_of (v : installer) : entry :=
  {| entry_name := name v; entry_version := version v;
     entry_description := description v; entry_sha256 := sha256 v |}.

(** Truth value of [os_detail.get(slot, {})]: an entry always has its four
    keys, so it is true exactly when the slot is there. *)
Definition filled (slot : option entry) : bool :=
  match slot with
  | Some _ => true
  | None => false
  end.

(** Lines 110 to 137 for one item of [version_map.get(plat, {}).items()]. *)
Definition visit (key : string) (info : entry) (fl : flags)
    (item : string * os_detail) : flags * (string * os_detail) :=
  let '(os_type, d) := item in
  if String.eqb os_type key then
    let '(d, tracked, cur) :=
      if negb (filled (current d)) then
        ({| current := Some info; previous := previous d;
            oldest := oldest d |}, true, f_current fl)
      else (d, f_tracked fl, true) in
    let '(d, tracked, prev) :=
      if cur && negb (filled (previous d)) then
        ({| current := current d; previous := Some info;
            oldest := oldest d |}, true, f_prev fl)
      else if cur && filled (previous d) then (d, tracked, true)
      else (d, tracked, f_prev fl) in
    let '(d, tracked, eld) :=
      if cur && prev && negb (filled (oldest d)) then
        ({| current := current d; previous := previous d;
            oldest := Some info |}, true, f_eldest fl)
      else if cur && prev && filled (oldest d) then (d, tracked, true)
      else (d, tracked, f_eldest fl) in
    ({| f_tracked := tracked; f_current := cur; f_prev := prev;
        f_eldest := eld |}, (os_type, d))
  else (fl, item).

(** The [for] loop of line 109: the flags pass from one item to the next and
    every bucket is updated where it stands. *)
Fixpoint visit_items (key : string) (info : entry) (fl : flags)
    (items : dict os_detail) : flags * dict os_detail :=
  match items with
  | [] => (fl, [])
  | item :: rest =>
      let '(fl, item) := visit key info fl item in
      let '(fl, rest) := visit_items key info fl rest in
      (fl, item :: rest)
  end.

(** Body of the loop of line 96 for one installer.  [version_map[plat]] at
    line 140 raises [KeyError] for a platform that is not a key of the
    map. *)
Definition track (version_map : dict (dict os_detail)) (v : installer)
    : outcome (dict (dict os_detail)) :=
  let plat := platform v in
  let os_name := os v in
  let os_ver := os_version v in
  if truthy_str plat && truthy_str os_name then
    let key := bucket_key os_name os_ver in
    let '(fl, version_map) :=
      match get version_map (fmt plat) with
      | Some buckets =>
          let '(fl, buckets) :=
            visit_items key (entry_of v) no_flags buckets in
          (fl, set version_map (fmt plat) buckets)
      | None => (no_flags, version_map)
      end in
    if none_set fl then
      match get version_map (fmt plat) with
      | Some buckets =>
          Returned
            (set version_map (fmt plat)
               (set buckets key
                  {| current := Some (entry_of v); previous := None;
                     oldest := None |}))
      | None => Raised KeyError
      end
    else Returned version_map
  else Returned version_map.

Fixpoint track_all (version_map : dict (dict os_detail))
    (resources : list installer) : outcome (dict (dict os_detail)) :=
  match resources with
  | [] => Returned version_map
  | v :: rest =>
      match track version_map v with
      | Returned version_map => track_all version_map rest
      | Raised e => Raised e
      end
  end.

(** [sensor_versions] stands for [sensor_versions["body"]["resources"]]. *)
Definition get_version_map (sensor_versions : list installer)
    : outcome (dict (dict os_detail)) :=
  track_all [("windows", []); ("mac", []); ("linux", [])] sensor_versions.

End SensorDownload.

(** ** [sensor_download.py]: the command line and the script body *)

Module SensorScript.
Import Py SensorDownload.

(** *** Strings *)

(** [c.lower()] on U+0000..U+00FF: A..Z and the capital letters of Latin-1
    move up by 32. *)
Definition lower_char (c : ascii) : ascii :=
  let n := N_of_ascii c in
  if ((65 <=? n) && (n <=? 90) || (192 <=? n) && (n <=? 214)
      || (216 <=? n) && (n <=? 222))%N
  then ascii_of_N (n + 32)
  else c.

(** [s.lower()]. *)
Fixpoint lower (s : string) : string :=
  match s with
  | EmptyString => EmptyString
  | String c rest => String (lower_char c) (lower rest)
  end.

(** [s.replace(old, new)] for one-character [old] and [new]. *)
Fixpoint replace_char (old new : ascii) (s : string) : string :=
  match s with
  | EmptyString => EmptyString
  | String c rest =>
      String (if Ascii.eqb c old then new else c) (replace_char old new rest)
  end.

(** [needle in hay] for two strings: [needle] occurs in [hay] as a run of
    consecutive characters. *)
Fixpoint contains (hay needle : string) : bool :=
  String.prefix needle hay
  || match hay with
     | EmptyString => false
     | String _ rest => contains rest needle
     end.

(** [x in l] for a string and a list of strings. *)
Definition str_in (x : string) (l : list string) : bool :=
  existsb (String.eqb x) l.

(** The first [n] characters of [s], all of it when it is shorter. *)
Fixpoint take (n : nat) (s : string) : string :=
  match n, s with
  | S k, String c rest => String c (take k rest)
  | _, _ => EmptyString
  end.

(** [s] without its first [n] characters. *)
Fixpoint drop (n : nat) (s : string) : string :=
  match n, s with
  | S k, String _ rest => drop k rest
  | _, _ => s
  end.

(** The position a slice bound stands for in a string of length [n]: a
    negative bound counts from the end, and the result is clipped to
    [0..n]. *)
Definition slice_index (n : nat) (bound : Z) : nat :=
  Z.to_nat (if bound <? 0 then Z.max (Z.of_nat n + bound) 0
            else Z.min bound (Z.of_nat n)).

(** [s[:stop]]. *)
Definition slice_to (stop : Z) (s : string) : string :=
  take (slice_index (String.length s) stop) s.

(** [s[start:]]. *)
Definition slice_from (start : Z) (s : string) : string :=
  drop (slice_index (String.length s) start) s.

(** *** Dictionaries as the script uses them *)

(** [del d[key]]. *)
Fixpoint remove {V : Type} (d : dict V) (key : string) : dict V :=
  match d with
  | [] => []
  | (k, v) :: d' =>
      if String.eqb k key then d' else (k, v) :: remove d' key
  end.

(** [d[key]]. *)
Definition item {V : Type} (d : dict V) (key : string) : outcome V :=
  match get d key with
  | Some v => Returned v
  | None => Raised KeyError
  end.

(** [d.pop(key)], keeping the dictionary that is left. *)
Definition pop {V : Type} (d : dict V) (key : string) : outcome (dict V) :=
  match get d key with
  | Some _ => Returned (remove d key)
  | None => Raised KeyError
  end.

(** One element of ["body"]["resources"] as the API sends it: a dictionary
    whose values are strings or [None]. *)
Definition sensor : Type := dict (option string).

(** [version.get(key, None)]. *)
Definition get_or_none (s : sensor) (key : string) : option string :=
  match get s key with
  | Some v => v
  | None => None
  end.

(** The seven reads at the top of the loop body of [get_version_map]. *)
Definition installer_of (s : sensor) : installer :=
  {| version := get_or_none s "version";
     platform := get_or_none s "platform";
     os := get_or_none s "os";
     os_version := get_or_none s "os_version";
     name := get_or_none s "name";
     description := get_or_none s "description";
     sha256 := get_or_none s "sha256" |}.

(** *** [create_constants] *)

(** What [consume_arguments] hands back.  [args_nminus] is [None] when
    [args.nminus] is a false value (the default [0], or an empty string) and
    [Some n] when it is a text that [int] reads as [n]. *)
Record arguments : Type := {
  args_key : string;
  args_secret : string;
  args_all : bool;
  args_download : bool;
  args_nminus : option Z;
  args_command : string;
  args_os : string;
  args_osver : string;
  args_filename : string;
  args_table_format : string
}.

(** The nine module-level names bound at line 185. *)
Record constants : Type := {
  CMD : string;
  CLIENTID : string;
  CLIENTSECRET : string;
  OS_FILTER : string;
  FILENAME : string;
  FORMAT : string;
  SHOW_ALL : bool;
  OSVER : string;
  NMINUS : option Z
}.

(** Lines 157 to 175: eight independent [if]s, each overwriting [os_name]. *)
Definition os_name_of (given : string) : string :=
  let os_name := "" in
  if negb (is_empty given) then
    let check_os := lower given in
    let os_name :=
      if str_in check_os ["rhel"; "centos"; "oracle"; "rhel/centos/oracle"]
      then "RHEL/CentOS/Oracle" else os_name in
    let os_name :=
      if str_in check_os ["amzn"; "az"; "amazon"; "amazon linux"]
      then "Amazon Linux" else os_name in
    let os_name :=
      if str_in check_os ["sles"; "suse"] then "SLES" else os_name in
    let os_name :=
      if str_in check_os ["ubuntu"; "kali"; "deb"; "debian"]
      then "Debian" else os_name in
    let os_name :=
      if str_in check_os ["win"; "windows"; "microsoft"]
      then "Windows" else os_name in
    let os_name :=
      if str_in check_os ["mac"; "macos"; "apple"]
      then "macOS" else os_name in
    let os_name :=
      if str_in check_os ["container"; "docker"; "kubernetes"]
      then "Container" else os_name in
    let os_name :=
      if str_in check_os ["idp"; "identity"; "identity protection"]
      then "Identity*" else os_name in
    os_name
  else os_name.

Definition create_constants (args : arguments) : constants :=
  let cmd := args_command args in
  let cmd := if args_download args then "download" else cmd in
  let os_name := os_name_of (args_os args) in
  let os_filter := "" in
  let os_filter :=
    if negb (is_empty os_name) then ("os:'" ++ os_name ++ "'")%string
    else os_filter in
  {| CMD := cmd; CLIENTID := args_key args; CLIENTSECRET := args_secret args;
     OS_FILTER := os_filter; FILENAME := args_filename args;
     FORMAT := args_table_format args; SHOW_ALL := args_all args;
     OSVER := args_osver args; NMINUS := args_nminus args |}.

(** *** What the script does to the outside *)

(** The outside actions of the script, in the order it performs them:
    the two remote calls, what it prints, the directories [os.makedirs]
    creates and the files it writes.  The model follows the run in which the
    remote calls answer. *)
Inductive action : Type :=
| GetCombinedSensorInstallersByQuery (filter sort : string)
| print (text : string)
| print_table (data : list sensor) (headers : dict string) (tablefmt : string)
| makedirs (dir_name : string)
| DownloadSensorInstallerById (id : option string)
| write_file (dir_name fname content : string).

(** Computations that may raise, with the actions performed so far. *)
Definition IO (A : Type) : Type := list action -> outcome A * list action.

Definition io_ret {A : Type} (a : A) : IO A := fun done => (Returned a, done).

Definition io_raise {A : Type} (e : exn) : IO A :=
  fun done => (Raised e, done).

Definition io_bind {A B : Type} (m : IO A) (k : A -> IO B) : IO B :=
  fun done =>
    match m done with
    | (Returned a, done') => k a done'
    | (Raised e, done') => (Raised e, done')
    end.

Definition perform (a : action) : IO unit :=
  fun done => (Returned tt, done ++ [a]).

(** An expression that may raise, evaluated inside [IO]. *)
Definition eval {A : Type} (o : outcome A) : IO A := fun done => (o, done).

Notation "x <- m ;; k" := (io_bind m (fun x => k))
  (at level 61, m at next level, right associativity).
Notation "m ;;; k" := (io_bind m (fun _ => k))
  (at level 61, right associativity).

(** *** The working directory *)

(** [cwd] names the directories that are in the working directory when the
    script starts; [os.makedirs] adds to them.  Names are compared as they
    are written, a directory the script asks for can be created, and a file
    name is not empty and holds no separator, so that [open] fails only for
    want of the directory. *)
Definition makes (dir_name : string) (a : action) : bool :=
  match a with
  | makedirs d => String.eqb d dir_name
  | _ => false
  end.

(** [os.path.exists(dir_name)] after the actions [done]. *)
Definition path_exists (cwd : list string) (done : list action)
    (dir_name : string) : bool :=
  str_in dir_name cwd || existsb (makes dir_name) done.

(** Lines 255 and 256: [if not os.path.exists(dir_name):
    os.makedirs(dir_name)]. *)
Definition makedirs_if_missing (cwd : list string) (dir_name : string)
    : IO unit :=
  fun done =>
    if negb (path_exists cwd done dir_name) then
      (Returned tt, done ++ [makedirs dir_name])
    else (Returned tt, done).

(** Lines 271 and 272: [open(os.path.join(dir_name, fname), "wb")] raises
    [FileNotFoundError] when the directory is not there; otherwise the
    content is written. *)
Definition save_file (cwd : list string) (dir_name fname content : string)
    : IO unit :=
  fun done =>
    if path_exists cwd done dir_name then
      (Returned tt, done ++ [write_file dir_name fname content])
    else (Raised FileNotFoundError, done).

(** The remote side: the installers a filter selects, in the order
    [release_date.desc], and the content behind an installer id. *)
Record Falcon : Type := {
  installers : string -> list sensor;
  installer_file : option string -> string
}.

(** *** The [list] command, lines 194 to 228 *)

Definition all_headers : dict string :=
  [ ("name", "Name"); ("description", "Description");
    ("platform", "Platform"); ("os", "OS"); ("os_version", "OS Version");
    ("sha256", "File Hash"); ("release_date", "Release Date");
    ("version", "Version"); ("file_size", "File Size");
    ("file_type", "File Type") ].

Definition hidden_columns : list string :=
  ["description"; "platform"; "sha256"; "file_size"; "file_type"].

(** The five [pop]s of lines 210 to 214 and of lines 218 to 222, in order. *)
Fixpoint pop_each {V : Type} (d : dict V) (columns : list string)
    : outcome (dict V) :=
  match columns with
  | [] => Returned d
  | k :: rest =>
      match pop d k with
      | Returned d' => pop_each d' rest
      | Raised e => Raised e
      end
  end.

(** [value in l] for a value that is a string or [None] and a list of
    strings. *)
Definition value_in (value : option string) (l : list string) : bool :=
  match value with
  | Some v => str_in v l
  | None => false
  end.

(** [OSVER in [value, ""]]. *)
Definition version_selected (osver : string) (value : option string) : bool :=
  match value with
  | Some v => String.eqb osver v || String.eqb osver ""
  | None => String.eqb osver ""
  end.

(** Lines 215 to 223: the rows to show, given those collected so far. *)
Fixpoint collect_rows (c : constants) (resources : list sensor)
    (data : list sensor) : outcome (list sensor) :=
  match resources with
  | [] => Returned data
  | s :: rest =>
      match item s "os_version" with
      | Raised e => Raised e
      | Returned value =>
          if version_selected (OSVER c) value then
            if negb (SHOW_ALL c) then
              match pop_each s hidden_columns with
              | Returned s' => collect_rows c rest (data ++ [s'])
              | Raised e => Raised e
              end
            else collect_rows c rest (data ++ [s])
          else collect_rows c rest data
      end
  end.

Definition list_command (c : constants) (resources : list sensor) : IO unit :=
  headers <-
    eval (if negb (SHOW_ALL c) then pop_each all_headers hidden_columns
          else Returned all_headers) ;;
  data <- eval (collect_rows c resources []) ;;
  if len data =? 0 then
    perform (print "No results, check your filter and try your query again.")
  else perform (print_table data headers (FORMAT c)).

(** *** The [download] command, lines 229 to 275 *)

(** Lines 230 and 234 to 238. *)
Definition NMVER_of (nminus : option Z) : string :=
  let NMVER := "current" in
  match nminus with
  | Some n =>
      if n =? 1 then "previous" else if n =? 2 then "oldest" else NMVER
  | None => NMVER
  end.

(** [os_detail[NMVER]], [None] standing for a [KeyError]. *)
Definition slot (d : os_detail) (NMVER : string) : option entry :=
  if String.eqb NMVER "current" then current d
  else if String.eqb NMVER "previous" then previous d
  else if String.eqb NMVER "oldest" then oldest d
  else None.

(** [version_detail[plat_spec][full_name][NMVER]], [None] standing for a
    [KeyError] at any of the three steps. *)
Definition lineage_entry (version_detail : dict (dict os_detail))
    (plat_spec full_name NMVER : string) : option entry :=
  match get version_detail plat_spec with
  | Some buckets =>
      match get buckets full_name with
      | Some d => slot d NMVER
      | None => None
      end
  | None => None
  end.

(** The two variables the loop of line 242 updates. *)
Record progress : Type := {
  dl_complete : list string;
  DO_DOWNLOAD : bool
}.

(** [f"{fname[:-4]}_{dl_ver}{fname[len(fname)-4:]}"] of line 262. *)
Definition versioned_name (fname : string) (dl_ver : option string) : string :=
  (slice_to (-4) fname ++ "_" ++ fmt dl_ver
     ++ slice_from (Z.of_nat (String.length fname) - 4) fname)%string.

(** Lines 243 to 275 for one sensor.  Slicing [None] at line 262 and joining
    [None] to a path at line 271 raise [TypeError]. *)
Definition download_one (c : constants) (NMVER : string)
    (version_detail : dict (dict os_detail)) (falcon : Falcon)
    (cwd : list string) (st : progress) (s : sensor) : IO progress :=
  os_value <- eval (item s "os") ;;
  os_version_value <- eval (item s "os_version") ;;
  let full_name :=
    strip (fmt os_value ++ " " ++ fmt os_version_value)%string in
  if version_selected (OSVER c) os_version_value then
    if DO_DOWNLOAD st && negb (str_in full_name (dl_complete st)) then
      plat_spec <- eval (item s "platform") ;;
      if truthy_str plat_spec then
        match lineage_entry version_detail (fmt plat_spec) full_name NMVER with
        | None =>
            perform
              (print (NMVER ++ " version not available for " ++ full_name
                        ++ ". The OS grouping "
                        ++ "label likely was recently changed.")%string) ;;;
            io_ret st
        | Some e =>
            let sha_to_retrieve := entry_sha256 e in
            let dir_name :=
              replace_char "/" " "
                (fmt os_value ++ " " ++ fmt os_version_value)%string in
            makedirs_if_missing cwd dir_name ;;;
            let dl_desc := entry_description e in
            let dl_ver := entry_version e in
            named <-
              eval
                (if is_empty (FILENAME c) then
                   let fname := entry_name e in
                   if value_in os_value ["Windows"; "macOS"] then
                     match fname with
                     | Some f =>
                         Returned (Some (versioned_name f dl_ver),
                                   fmt os_value)
                     | None => Raised TypeError
                     end
                   else Returned (fname, dir_name)
                 else Returned (Some (FILENAME c), dir_name)) ;;
            let '(fname, dir_name) := named in
            perform
              (print ("Downloading " ++ fmt dl_desc ++ " version "
                        ++ fmt dl_ver)%string) ;;;
            perform (DownloadSensorInstallerById sha_to_retrieve) ;;;
            match fname with
            | None => io_raise TypeError
            | Some f =>
                save_file cwd dir_name f
                  (installer_file falcon sha_to_retrieve) ;;;
                io_ret
                  {| dl_complete := dl_complete st ++ [full_name];
                     DO_DOWNLOAD :=
                       if negb (SHOW_ALL c) then false
                       else DO_DOWNLOAD st |}
            end
        end
      else io_ret st
    else io_ret st
  else io_ret st.

Fixpoint download_each (c : constants) (NMVER : string)
    (version_detail : dict (dict os_detail)) (falcon : Falcon)
    (cwd : list string) (resources : list sensor) (st : progress)
    : IO progress :=
  match resources with
  | [] => io_ret st
  | s :: rest =>
      st' <- download_one c NMVER version_detail falcon cwd st s ;;
      download_each c NMVER version_detail falcon cwd rest st'
  end.

Definition download_command (c : constants) (resources : list sensor)
    (falcon : Falcon) (cwd : list string) : IO unit :=
  version_detail <- eval (get_version_map (map installer_of resources)) ;;
  let NMVER := NMVER_of (NMINUS c) in
  download_each c NMVER version_detail falcon cwd resources
    {| dl_complete := []; DO_DOWNLOAD := true |} ;;;
  io_ret tt.

(** *** The script, lines 185 to 277 *)

Definition script (args : arguments) (falcon : Falcon) (cwd : list string)
    : IO unit :=
  let c := create_constants args in
  perform (GetCombinedSensorInstallersByQuery (OS_FILTER c)
             "release_date.desc") ;;;
  let sensors := installers falcon (OS_FILTER c) in
  if contains "list" (CMD c) then list_command c sensors
  else if contains "download" (CMD c) then
    download_command c sensors falcon cwd
  else perform (print "Stop mumbling!").

End SensorScript.

(** ** Vocabulary of the statements about [falcon_host_search_site.py] *)

Module HostSearchSpec.
Import Py HostSearch.

Fixpoint no_newline (s : string) : bool :=
  match s with
  | EmptyString => true
  | String c rest => negb (Ascii.eqb c newline) && no_newline rest
  end.

Fixpoint has_dot (s : string) : bool :=
  match s with
  | EmptyString => false
  | String c rest => Ascii.eqb c "."%char || has_dot rest
  end.

(** [token] is [line] with everything from its first ['.'] onward
    deleted. *)
Definition cut_at_first_dot (line token : string) : Prop :=
  has_dot token = false
  /\ (line = token \/ exists rest, line = (token ++ String "." rest)%string).

(** [token] is ["i-"], then a word character, then anything. *)
Definition i_dash_word (token : string) : Prop :=
  exists c rest,
    token = String "i" (String "-" (String c rest)) /\ is_word c = true.

(** The answer of the remote side to the query of a task. *)
Definition reply (falcon : Hosts) (t : task) : search_reply :=
  match t with
  | InameTask iname =>
      query_devices_by_filter_scroll falcon 50 "last_seen.desc"
        (iname_filter iname)
  | HnameTask hname =>
      query_devices_by_filter_scroll falcon 50 "last_seen.desc"
        (hname_filter hname)
  end.

Definition task_call (t : task) : call :=
  match t with
  | InameTask iname =>
      QueryDevicesByFilterScroll 50 "last_seen.desc" (iname_filter iname)
  | HnameTask hname =>
      QueryDevicesByFilterScroll 50 "last_seen.desc" (hname_filter hname)
  end.

Definition task_name (t : task) : string :=
  match t with
  | InameTask iname => iname
  | HnameTask hname => hname
  end.

Definition error_row (t : task) : string :=
  match t with
  | InameTask iname => iname_error_row iname
  | HnameTask hname => hname_error_row hname
  end.

(** The rows a task appends to [host_info_list], given the answer it got. *)
Definition rows_of_reply (t : task) (r : search_reply) : list string :=
  if status_code r =? 200 then
    match resources r with
    | [] => [not_found_row (task_name t)]
    | _ :: _ => []
    end
  else [error_row t].

(** The sub-lists a task appends to [aid_list], given the answer it got. *)
Definition sublists_of_reply (r : search_reply) : list (list string) :=
  if status_code r =? 200 then
    match resources r with
    | [] => []
    | _ :: _ => [resources r]
    end
  else [].

(** The agent ids a task matched. *)
Definition matched (falcon : Hosts) (t : task) : list string :=
  if status_code (reply falcon t) =? 200 then resources (reply falcon t)
  else [].

(** The sub-lists that the tasks finishing after line 143 leave in the list
    [aid_list] is bound to by then: those of the tasks not flagged stale. *)
Fixpoint late_sublists (falcon : Hosts) (stale : list bool) (ts : list task)
    : list (list string) :=
  match ts with
  | [] => []
  | t :: ts' =>
      (if hd false stale then [] else sublists_of_reply (reply falcon t))
        ++ late_sublists falcon (tl stale) ts'
  end.

Definition aid_item_eq_dec (x y : aid_item) : {x = y} + {x <> y}.
Proof.
  decide equality; [apply string_dec | apply (list_eq_dec string_dec)].
Defined.

(** The order in which the tasks of a request finish under a schedule. *)
Definition finishing_order (sched : schedule) (inames hnames : list string)
    : list task :=
  completion_order (picks sched) (submitted inames hnames).

(** *** Rows of the detail search *)

(** The agent ids a list handed to the detail search holds, those inside
    its sub-lists included. *)
Definition identities (aid_list : list aid_item) : list string :=
  flat_map (fun item => match item with
                        | Aid aid => [aid]
                        | SubList aids => aids
                        end) aid_list.

(** The tags of a detail joined with [;], or the sentinel. *)
Definition tags_column (d : detail) : string :=
  match tags d with
  | Some ts => join ";" ts
  | None => "N/A"
  end.

(** The cloud instance id of a detail, or the sentinel. *)
Definition instance_column (d : detail) : string :=
  match instance_id d with
  | Some i => i
  | None => "N/A"
  end.

(** The tenant as the page shows it: friendly name, then the raw id. *)
Definition tenant (cid : string) : string :=
  (dict_get cid_dict cid "Name not found" ++ " : " ++ cid)%string.

(** [row] is the record of the detail [d]: its nine columns separated by
    commas, the fourth ending in the sixteen blanks of line 192. *)
Definition device_record (d : detail) (row : string) : Prop :=
  exists h i a l f c,
    hostname d = Some h /\ device_id d = Some i /\ agent_version d = Some a
    /\ last_seen d = Some l /\ first_seen d = Some f /\ cid d = Some c
    /\ row = join ","
               [h; "True"; a; (l ++ "                ")%string; f;
                tags_column d; tenant c; instance_column d; i].

(** The detail has not one of the six keys that lines 165 to 169 and 186
    index outside a [try]. *)
Definition lacks_key (d : detail) : Prop :=
  hostname d = None \/ device_id d = None \/ agent_version d = None
  \/ last_seen d = None \/ first_seen d = None \/ cid d = None.

(** No string occurs twice in the list. *)
Fixpoint distinct (l : list string) : bool :=
  match l with
  | [] => true
  | x :: rest => negb (existsb (String.eqb x) rest) && distinct rest
  end.

(** The number a decimal numeral stands for. *)
Definition int_of_str (s : string) : option Z :=
  option_map Z.of_int (NilZero.int_of_string s).

(** *** Concrete requests used below *)

Definition line_break : string := String newline EmptyString.

(** [n] lines, each the name ["a"]. *)
Fixpoint names (n : nat) : string :=
  match n with
  | O => EmptyString
  | S k => ("a" ++ line_break ++ names k)%string
  end.

Definition web01_detail : detail :=
  {| hostname := Some "web01"; device_id := Some "aid-1";
     agent_version := Some "7.11";
     last_seen := Some "2024-05-02T10:00:00Z";
     first_seen := Some "2023-01-01T08:00:00Z";
     instance_id := None; tags := Some ["SensorGroupingTags/web"];
     cid := Some "0987654321poiuytrewqlkjhgfdsa" |}.

(** The row of the page for [web01_detail]. *)
Definition web01_row : string :=
  ("web01,True,7.11,2024-05-02T10:00:00Z                ,"
     ++ "2023-01-01T08:00:00Z,SensorGroupingTags/web,"
     ++ "Business Segment : 0987654321poiuytrewqlkjhgfdsa,N/A,aid-1")%string.

(** A remote side that matches every query with the one device [aid-1] and
    returns one detail per item it is asked for. *)
Definition falcon_one : Hosts :=
  {| query_devices_by_filter_scroll :=
       fun _ _ _ => {| status_code := 200; resources := ["aid-1"] |};
     get_device_details := fun ids => map (fun _ => web01_detail) ids |}.

(** A remote side that knows no device: every search succeeds with no
    match. *)
Definition falcon_none : Hosts :=
  {| query_devices_by_filter_scroll :=
       fun _ _ _ => {| status_code := 200; resources := [] |};
     get_device_details := fun _ => [] |}.

(** A remote side whose every search fails with status 500. *)
Definition falcon_down : Hosts :=
  {| query_devices_by_filter_scroll :=
       fun _ _ _ => {| status_code := 500; resources := [] |};
     get_device_details := fun _ => [] |}.

(** The names [web0] to [web100]. *)
Definition hundred_and_one : list string :=
  map (fun k => ("web" ++ str_of_int (Z.of_nat k))%string) (seq 0 101).

(** A remote side on which every search matches fifty devices, numbered and
    named after the filter, and which returns the detail of [web01] for
    every agent id it is asked for. *)
Definition falcon_fifty : Hosts :=
  {| query_devices_by_filter_scroll :=
       fun _ _ filter =>
         {| status_code := 200;
            resources :=
              map (fun k => (str_of_int (Z.of_nat k) ++ "#" ++ filter)%string)
                (seq 0 50) |};
     get_device_details :=
       fun ids => map (fun _ => web01_detail) (identities ids) |}.

(** Every lookup has finished when line 143 runs. *)
Definition lookups_first : schedule :=
  {| picks := []; flatten_after := 2; stale := [] |}.

(** Each of 101 lookups has finished when line 143 runs. *)
Definition all_answered : schedule :=
  {| picks := []; flatten_after := 101; stale := [] |}.

(** Line 143 runs while every lookup is still waiting for its answer. *)
Definition flatten_first : schedule :=
  {| picks := []; flatten_after := 0; stale := [] |}.

(** *** The claims that do not hold, as predicates *)

(** Classification by the bare prefix ["i-"]. *)
Definition classified_by_prefix (submitted_list : string) : Prop :=
  forall inames hnames token,
    file_parse submitted_list = (PyList inames, PyList hnames) ->
    In token (map Re.sub_dot_rest (clean_list submitted_list)) ->
    (In token inames <-> String.prefix "i-" token = true).

(** An identity matched by two tasks reaches the detail search once. *)
Definition deduplicated (falcon : Hosts) (sched : schedule)
    (inames hnames : list string) : Prop :=
  forall before t1 between t2 after d aid_list rows log,
    submitted inames hnames = before ++ t1 :: between ++ t2 :: after ->
    In d (matched falcon t1) ->
    In d (matched falcon t2) ->
    cs_query_devices falcon sched (PyList inames) (PyList hnames) []
      = (Returned (aid_list, rows), log) ->
    count_occ aid_item_eq_dec aid_list (Aid d) = 1%nat.

End HostSearchSpec.

(** ** Vocabulary of the statements about [sensor_download.py] *)

Module SensorDownloadSpec.
Import Py SensorDownload.

(** The installer counts for the bucket [key] of the platform [plat]: its
    platform and OS name are true values and it has that platform and that
    bucket key. *)
Definition feeds (plat key : string) (v : installer) : bool :=
  truthy_str (platform v) && truthy_str (os v)
  && String.eqb (fmt (platform v)) plat
  && String.eqb (bucket_key (os v) (os_version v)) key.

(** The entries of the installers that count for a bucket, in list order. *)
Definition feeding (plat key : string) (vs : list installer) : list entry :=
  map entry_of (filter (feeds plat key) vs).

(** The bucket that a sequence of entries builds. *)
Definition lineage_of (es : list entry) : option os_detail :=
  match es with
  | [] => None
  | e :: rest =>
      Some {| current := Some e; previous := nth_error rest 0;
              oldest := nth_error rest 1 |}
  end.

(** A bucket after one more entry. *)
Definition fill (info : entry) (d : os_detail) : os_detail :=
  match current d, previous d, oldest d with
  | None, _, _ =>
      {| current := Some info; previous := previous d; oldest := oldest d |}
  | Some _, None, _ =>
      {| current := current d; previous := Some info; oldest := oldest d |}
  | Some _, Some _, None =>
      {| current := current d; previous := previous d; oldest := Some info |}
  | Some _, Some _, Some _ => d
  end.

Definition fresh (info : entry) : os_detail :=
  {| current := Some info; previous := None; oldest := None |}.

Definition lineage_in_order (d : os_detail) : Prop :=
  current d <> None
  /\ (previous d <> None -> current d <> None)
  /\ (oldest d <> None -> previous d <> None /\ current d <> None).

Definition platforms : list string := ["windows"; "mac"; "linux"].

(** An installer whose platform, when it is counted, is one of the three
    keys of the map. *)
Definition known_platform (v : installer) : Prop :=
  truthy_str (platform v) && truthy_str (os v) = true ->
  In (fmt (platform v)) platforms.

(** What holds of the map once the installers [done] have been tracked. *)
Definition tracked_so_far (version_map : dict (dict os_detail))
    (done : list installer) : Prop :=
  keys version_map = platforms
  /\ forall plat buckets,
       get version_map plat = Some buckets ->
       NoDup (keys buckets)
       /\ forall key, get buckets key = lineage_of (feeding plat key done).

(** *** A concrete installer list *)

Definition rhel9 (file : string) : installer :=
  {| version := Some file; platform := Some "linux"; os := Some "RHEL";
     os_version := Some "9"; name := Some file; description := None;
     sha256 := Some file |}.

Definition rhel9_entry (file : string) : entry :=
  {| entry_name := Some file; entry_version := Some file;
     entry_description := None; entry_sha256 := Some file |}.

End SensorDownloadSpec.

(** ** Vocabulary of further statements about [falcon_host_search_site.py] *)

Module HostSearchMoreSpec.
Import Py HostSearch HostSearchSpec.

(** How many times the character [c] occurs in [s]. *)
Fixpoint count_char (c : ascii) (s : string) : nat :=
  match s with
  | EmptyString => O
  | String c' rest =>
      (if Ascii.eqb c' c then 1 else 0)%nat + count_char c rest
  end.

Definition no_comma (s : string) : Prop := count_char "," s = O.

(** The task found no device: its search failed or matched nothing. *)
Definition unmatched (falcon : Hosts) (t : task) : bool :=
  match matched falcon t with
  | [] => true
  | _ :: _ => false
  end.

(** The row of a task that found no device: the advice to try again when
    its search failed, its name with [False] when it matched nothing. *)
Definition unmatched_row (falcon : Hosts) (t : task) : string :=
  if status_code (reply falcon t) =? 200 then not_found_row (task_name t)
  else error_row t.

(** A search call as the two workers make it. *)
Definition is_search (c : call) : Prop :=
  exists filter, c = QueryDevicesByFilterScroll 50 "last_seen.desc" filter.

(** The tasks the resolver submits for the tokens of a submitted text. *)
Definition tasks_of (submitted_list : string) : list task :=
  let tokens := map Re.sub_dot_rest (clean_list submitted_list) in
  submitted (filter Re.match_i_dash tokens)
    (filter (fun t => negb (Re.match_i_dash t)) tokens).

Definition plain_detail : detail :=
  {| hostname := Some "db07"; device_id := Some "aid-7";
     agent_version := Some "7.04";
     last_seen := Some "2024-03-01T00:00:00Z";
     first_seen := Some "2022-03-01T00:00:00Z";
     instance_id := Some "i-0abc"; tags := Some ["t1"; "t2"];
     cid := Some "unlisted" |}.

End HostSearchMoreSpec.

(** ** Vocabulary of further statements about [sensor_download.py] *)

Module SensorMoreSpec.
Import Py SensorDownload SensorDownloadSpec SensorScript.

(** An installer that is counted and whose platform is not a key of the
    map. *)
Definition unknown_platform (v : installer) : Prop :=
  truthy_str (platform v) && truthy_str (os v) = true
  /\ ~ In (fmt (platform v)) platforms.

(** [version_map[plat][key]], [None] when either key is absent. *)
Definition bucket (version_map : dict (dict os_detail)) (plat key : string)
    : option os_detail :=
  match get version_map plat with
  | Some buckets => get buckets key
  | None => None
  end.

(** How many of the three entries a bucket has. *)
Definition slots_filled (d : os_detail) : nat :=
  ((if filled (current d) then 1 else 0)
   + (if filled (previous d) then 1 else 0)
   + (if filled (oldest d) then 1 else 0))%nat.

(** The eight OS names [create_constants] can put in the filter. *)
Definition os_names : list string :=
  ["RHEL/CentOS/Oracle"; "Amazon Linux"; "SLES"; "Debian"; "Windows";
   "macOS"; "Container"; "Identity*"].

(** The spellings of an OS that [create_constants] recognises, in lower
    case. *)
Definition spellings : list string :=
  ["rhel"; "centos"; "oracle"; "rhel/centos/oracle";
   "amzn"; "az"; "amazon"; "amazon linux";
   "sles"; "suse";
   "ubuntu"; "kali"; "deb"; "debian";
   "win"; "windows"; "microsoft";
   "mac"; "macos"; "apple";
   "container"; "docker"; "kubernetes";
   "idp"; "identity"; "identity protection"].

(** [needle] occurs in [hay] as a run of consecutive characters. *)
Definition occurs_in (needle hay : string) : Prop :=
  exists before after, hay = (before ++ needle ++ after)%string.

(** The sensor has the key. *)
Definition has_key (s : sensor) (key : string) : Prop := get s key <> None.

(** The sensors the [list] command and the [download] command look at: those
    whose OS version is [OSVER], or all of them when [OSVER] is empty. *)
Definition selected (c : constants) (resources : list sensor) : list sensor :=
  filter (fun s => version_selected (OSVER c) (get_or_none s "os_version"))
    resources.

(** A dictionary without the given columns. *)
Definition without {V : Type} (columns : list string) (d : dict V) : dict V :=
  fold_left remove columns d.

(** [f"{sensor['os']} {sensor['os_version']}".strip()] for a sensor that has
    both keys. *)
Definition full_name_of (s : sensor) : string :=
  bucket_key (get_or_none s "os") (get_or_none s "os_version").

(** The ids of the installers an action list downloads, in order. *)
Fixpoint downloads (done : list action) : list (option string) :=
  match done with
  | [] => []
  | DownloadSensorInstallerById id :: rest => id :: downloads rest
  | _ :: rest => downloads rest
  end.

(** The directory and file name of each file an action list writes. *)
Fixpoint writes (done : list action) : list (string * string) :=
  match done with
  | [] => []
  | write_file dir_name fname _ :: rest => (dir_name, fname) :: writes rest
  | _ :: rest => writes rest
  end.

(** The position in its bucket's installers that a lineage name stands
    for. *)
Definition lineage_index (NMVER : string) : nat :=
  if String.eqb NMVER "previous" then 1
  else if String.eqb NMVER "oldest" then 2
  else 0.

Definition start : progress := {| dl_complete := []; DO_DOWNLOAD := true |}.

(** The sensor has the three keys the download loop indexes. *)
Definition indexable (s : sensor) : Prop :=
  has_key s "os" /\ has_key s "os_version" /\ has_key s "platform".

(** The installer id is the one the lineage names for the bucket of a
    selected sensor of the list. *)
Definition named_by_lineage (c : constants) (NMVER : string)
    (version_detail : dict (dict os_detail)) (resources : list sensor)
    (id : option string) : Prop :=
  exists s e,
    In s resources
    /\ version_selected (OSVER c) (get_or_none s "os_version") = true
    /\ lineage_entry version_detail (fmt (get_or_none s "platform"))
         (full_name_of s) NMVER = Some e
    /\ id = entry_sha256 e.

(** What the download loop has done when it stops, normally or not, having
    started from [st] and performed the actions [added]. *)
Definition loop_summary (c : constants) (NMVER : string)
    (version_detail : dict (dict os_detail)) (resources : list sensor)
    (st : progress) (o : outcome progress) (added : list action) : Prop :=
  (List.length (writes added) <= List.length (downloads added))%nat
  /\ (DO_DOWNLOAD st = false -> downloads added = [])
  /\ (SHOW_ALL c = false -> (List.length (downloads added) <= 1)%nat)
  /\ (forall st',
         o = Returned st' ->
         NoDup (dl_complete st')
         /\ List.length (dl_complete st')
            = (List.length (dl_complete st) + List.length (writes added))%nat
         /\ List.length (writes added) = List.length (downloads added))
  /\ (Forall indexable resources -> o <> Raised KeyError)
  /\ o <> Raised AttributeError
  /\ Forall (named_by_lineage c NMVER version_detail resources)
       (downloads added).

(** A turn of the download loop that requests no installer: it writes no
    file, leaves the two loop variables as they are when it ends normally,
    and raises [KeyError] only for a sensor that lacks one of the three keys
    the loop indexes. *)
Definition quiet_turn (st : progress) (s : sensor) (o : outcome progress)
    (added : list action) : Prop :=
  downloads added = [] /\ writes added = []
  /\ (forall st', o = Returned st' -> st' = st)
  /\ (o = Raised KeyError ->
      ~ (has_key s "os" /\ has_key s "os_version" /\ has_key s "platform"))
  /\ o <> Raised AttributeError.

(** A turn of the download loop that requests the installer [e] which the
    lineage names for the sensor's bucket. *)
Definition fetching_turn (c : constants) (NMVER : string)
    (version_detail : dict (dict os_detail)) (st : progress) (s : sensor)
    (o : outcome progress) (added : list action) (e : entry) : Prop :=
  lineage_entry version_detail (fmt (get_or_none s "platform"))
    (full_name_of s) NMVER = Some e
  /\ version_selected (OSVER c) (get_or_none s "os_version") = true
  /\ DO_DOWNLOAD st = true
  /\ ~ In (full_name_of s) (dl_complete st)
  /\ downloads added = [entry_sha256 e]
  /\ (((o = Raised TypeError \/ o = Raised FileNotFoundError)
       /\ writes added = [])
      \/ (exists dir_name fname,
             writes added = [(dir_name, fname)]
             /\ o = Returned
                      {| dl_complete := dl_complete st ++ [full_name_of s];
                         DO_DOWNLOAD := SHOW_ALL c |})).

(** *** Concrete runs *)

Definition installer_row (plat os_name os_ver file : string) : sensor :=
  [ ("name", Some file); ("description", Some "Falcon sensor");
    ("platform", Some plat); ("os", Some os_name);
    ("os_version", Some os_ver); ("sha256", Some ("sha-" ++ file)%string);
    ("release_date", Some "2024-05-01"); ("version", Some "7.11");
    ("file_size", Some "1024"); ("file_type", Some "pkg") ].

Definition catalogue : list sensor :=
  [ installer_row "linux" "RHEL/Oracle" "9" "falcon-3.rpm";
    installer_row "linux" "RHEL/Oracle" "9" "falcon-2.rpm";
    installer_row "windows" "Windows" "" "WindowsSensor.exe";
    installer_row "linux" "SLES" "15" "falcon-sles.rpm" ].

(** The version map of the catalogue. *)
Definition catalogue_map : dict (dict os_detail) :=
  match get_version_map (map installer_of catalogue) with
  | Returned version_map => version_map
  | Raised _ => []
  end.

Definition cloud : Falcon :=
  {| installers := fun _ => catalogue;
     installer_file := fun id => ("content of " ++ fmt id)%string |}.

Definition download_all : constants :=
  {| CMD := "download"; CLIENTID := "id"; CLIENTSECRET := "secret";
     OS_FILTER := ""; FILENAME := ""; FORMAT := "fancy_grid";
     SHOW_ALL := true; OSVER := ""; NMINUS := None |}.

Definition download_first : constants :=
  {| CMD := "download"; CLIENTID := "id"; CLIENTSECRET := "secret";
     OS_FILTER := ""; FILENAME := ""; FORMAT := "fancy_grid";
     SHOW_ALL := false; OSVER := ""; NMINUS := None |}.

End SensorMoreSpec.

(** ** Facts about [falcon_host_search_site.py] *)

Module HostSearchFacts.
Import Py Re HostSearch HostSearchSpec.

(** *** Strings *)

Lemma split_newline_not_nil (s : string) : split_newline s <> [].
Proof.
  induction s as [|c rest IH]; simpl; [discriminate|].
  destruct (Ascii.eqb c newline); [discriminate|].
  destruct (split_newline rest); [contradiction|discriminate].
Qed.

Lemma split_newline_no_newline (s piece : string) :
  In piece (split_newline s) -> no_newline piece = true.
Proof.
  revert piece; induction s as [|c rest IH]; simpl; intros piece Hin.
  - destruct Hin as [<-|[]]; reflexivity.
  - destruct (Ascii.eqb c newline) eqn:Hc.
    + destruct Hin as [<-|Hin]; [reflexivity|auto].
    + destruct (split_newline rest) as [|p ps] eqn:Hs.
      * destruct Hin as [<-|[]]; simpl; rewrite Hc; reflexivity.
      * destruct Hin as [<-|Hin].
        -- simpl; rewrite Hc; simpl; apply IH; left; reflexivity.
        -- apply IH; right; exact Hin.
Qed.

Lemma lstrip_no_newline (s : string) :
  no_newline s = true -> no_newline (lstrip s) = true.
Proof.
  induction s as [|c rest IH]; simpl; [reflexivity|].
  intros H; destruct (isspace c); [|exact H].
  apply andb_prop in H; apply IH, H.
Qed.

Lemma rstrip_no_newline (s : string) :
  no_newline s = true -> no_newline (rstrip s) = true.
Proof.
  induction s as [|c rest IH]; simpl; [reflexivity|].
  intros H; apply andb_prop in H; destruct H as [Hc Hrest].
  specialize (IH Hrest).
  destruct (rstrip rest) as [|c' kept].
  - destruct (isspace c); simpl; [reflexivity|].
    rewrite Hc; reflexivity.
  - change (no_newline (String c (String c' kept)) = true).
    simpl in *; rewrite Hc; exact IH.
Qed.

Lemma strip_no_newline (s : string) :
  no_newline s = true -> no_newline (strip s) = true.
Proof.
  intros H; apply lstrip_no_newline, rstrip_no_newline, H.
Qed.

Lemma clean_list_no_newline (submitted_list line : string) :
  In line (clean_list submitted_list) -> no_newline line = true.
Proof.
  unfold clean_list, remove_all_empty; intros H.
  apply filter_In in H; destruct H as [H _].
  apply in_map_iff in H; destruct H as [raw [<- Hraw]].
  apply strip_no_newline, (split_newline_no_newline submitted_list), Hraw.
Qed.

Lemma sub_in_match_no_newline (s : string) :
  no_newline s = true -> sub_dot_rest_from true s = EmptyString.
Proof.
  induction s as [|c rest IH]; simpl; [reflexivity|].
  intros H; apply andb_prop in H; destruct H as [Hc Hrest].
  destruct (Ascii.eqb c newline); [discriminate|auto].
Qed.

Lemma sub_dot_rest_cut (s : string) :
  no_newline s = true ->
  cut_at_first_dot s (sub_dot_rest s)
  /\ no_newline (sub_dot_rest s) = true.
Proof.
  unfold sub_dot_rest, cut_at_first_dot.
  induction s as [|c rest IH]; simpl; intros H.
  - repeat split; auto.
  - apply andb_prop in H; destruct H as [Hc Hrest].
    destruct (Ascii.eqb c ".") eqn:Hdot.
    + apply Ascii.eqb_eq in Hdot; subst c.
      rewrite sub_in_match_no_newline by exact Hrest.
      repeat split; auto. right; exists rest; reflexivity.
    + destruct (IH Hrest) as [[Hnodot Hshape] Hnl].
      simpl; rewrite Hdot, Hc; simpl. repeat split; auto.
      destruct Hshape as [Heq|[tail Heq]].
      * left; congruence.
      * right; exists tail; simpl; congruence.
Qed.

Lemma dot_star_dollar_no_newline (s : string) :
  no_newline s = true -> dot_star_dollar s = true.
Proof.
  induction s as [|c rest IH]; simpl; [reflexivity|].
  intros H; apply andb_prop in H; destruct H as [Hc Hrest].
  destruct (Ascii.eqb c newline); [discriminate|auto].
Qed.

Lemma match_i_dash_word (s : string) :
  no_newline s = true -> (match_i_dash s = true <-> i_dash_word s).
Proof.
  intros Hnl; unfold i_dash_word; split.
  - destruct s as [|a [|b [|c rest]]]; simpl; try discriminate.
    + destruct a as [[] [] [] [] [] [] [] []]; discriminate.
    + destruct a as [[] [] [] [] [] [] [] []]; try discriminate.
      destruct b as [[] [] [] [] [] [] [] []]; discriminate.
    + destruct a as [[] [] [] [] [] [] [] []]; try discriminate.
      destruct b as [[] [] [] [] [] [] [] []]; try discriminate.
      intros H; apply andb_prop in H; destruct H as [Hw _].
      exists c, rest; split; [reflexivity|exact Hw].
  - intros [c [rest [-> Hw]]].
    unfold match_i_dash; rewrite Hw; simpl.
    apply (dot_star_dollar_no_newline (String c rest)).
    simpl in Hnl; exact Hnl.
Qed.

(** *** [file_parse] *)

Lemma classify_fold (lines inames hnames : list string) :
  fold_left classify lines (inames, hnames)
  = (inames ++ filter match_i_dash (map sub_dot_rest lines),
     hnames
       ++ filter (fun t => negb (match_i_dash t)) (map sub_dot_rest lines)).
Proof.
  revert inames hnames; induction lines as [|line lines IH]; intros; simpl.
  - rewrite !app_nil_r; reflexivity.
  - destruct (match_i_dash (sub_dot_rest line)) eqn:E; simpl;
      rewrite IH, <- ?app_assoc; reflexivity.
Qed.

Lemma file_parse_small (submitted_list : string) :
  len (clean_list submitted_list) <= 5000 ->
  file_parse submitted_list
  = (PyList (filter match_i_dash
               (map sub_dot_rest (clean_list submitted_list))),
     PyList (filter (fun t => negb (match_i_dash t))
               (map sub_dot_rest (clean_list submitted_list)))).
Proof.
  intros Hlen; unfold file_parse.
  destruct (5000 <? len (clean_list submitted_list)) eqn:E;
    [apply Z.ltb_lt in E; lia|].
  rewrite classify_fold; reflexivity.
Qed.

Lemma file_parse_large (submitted_list : string) :
  5000 < len (clean_list submitted_list) ->
  file_parse submitted_list = (PyFalse, PyFalse).
Proof.
  intros Hlen; unfold file_parse.
  destruct (5000 <? len (clean_list submitted_list)) eqn:E;
    [reflexivity|apply Z.ltb_ge in E; lia].
Qed.

Lemma filter_split_perm {A : Type} (f : A -> bool) (l : list A) :
  Permutation (filter f l ++ filter (fun x => negb (f x)) l) l.
Proof.
  induction l as [|a l IH]; simpl; [constructor|].
  destruct (f a); simpl.
  - constructor; exact IH.
  - symmetry; apply Permutation_cons_app; symmetry; exact IH.
Qed.

Lemma clean_list_spec (submitted_list line : string) :
  In line (clean_list submitted_list)
  <-> line <> EmptyString
      /\ exists raw, In raw (split_newline submitted_list)
                     /\ strip raw = line.
Proof.
  unfold clean_list, remove_all_empty.
  rewrite filter_In, in_map_iff; split.
  - intros [[raw [Hs Hin]] Hne]; split; [|exists raw; auto].
    intros ->; discriminate.
  - intros [Hne [raw [Hin Hs]]]; split; [exists raw; auto|].
    destruct line; [contradiction|reflexivity].
Qed.

(** *** The workers and the thread pool *)

Lemma run_task_rows (falcon : Hosts) (stale : bool) (t : task)
    (st : shared) :
  host_info_list (run_task falcon stale t st)
  = host_info_list st ++ rows_of_reply t (reply falcon t).
Proof.
  destruct t; simpl;
    unfold search_inames, search_hnames, rows_of_reply, reply, append_aid;
    simpl;
    destruct (status_code _ =? 200); simpl; try reflexivity;
    destruct (resources _); simpl; try reflexivity;
    destruct (new_aid_list st), stale; simpl; rewrite ?app_nil_r;
    reflexivity.
Qed.

Lemma run_task_calls (falcon : Hosts) (stale : bool) (t : task)
    (st : shared) :
  api_calls (run_task falcon stale t st) = api_calls st ++ [task_call t].
Proof.
  destruct t; simpl;
    unfold search_inames, search_hnames, append_aid; simpl;
    destruct (status_code _ =? 200); simpl; try reflexivity;
    destruct (resources _); simpl; try reflexivity;
    destruct (new_aid_list st), stale; reflexivity.
Qed.

Lemma run_task_before_flatten (falcon : Hosts) (stale : bool) (t : task)
    (st : shared) :
  new_aid_list st = None ->
  new_aid_list (run_task falcon stale t st) = None
  /\ first_aid_list (run_task falcon stale t st)
     = first_aid_list st ++ sublists_of_reply (reply falcon t).
Proof.
  intros Hnone.
  destruct t; simpl;
    unfold search_inames, search_hnames, sublists_of_reply, reply,
      append_aid; simpl;
    destruct (status_code _ =? 200); simpl; rewrite ?app_nil_r; auto;
    destruct (resources _); simpl; rewrite ?app_nil_r; auto;
    rewrite Hnone; simpl; auto.
Qed.

Lemma run_tasks_rows (falcon : Hosts) (ts : list task) :
  forall stale st,
    host_info_list (run_tasks falcon stale ts st)
    = host_info_list st
        ++ flat_map (fun t => rows_of_reply t (reply falcon t)) ts.
Proof.
  induction ts as [|t ts IH]; intros; simpl.
  - rewrite app_nil_r; reflexivity.
  - rewrite IH, run_task_rows, app_assoc; reflexivity.
Qed.

Lemma run_tasks_calls (falcon : Hosts) (ts : list task) :
  forall stale st,
    api_calls (run_tasks falcon stale ts st)
    = api_calls st ++ map task_call ts.
Proof.
  induction ts as [|t ts IH]; intros; simpl.
  - rewrite app_nil_r; reflexivity.
  - rewrite IH, run_task_calls, <- app_assoc; reflexivity.
Qed.

Lemma run_tasks_before_flatten (falcon : Hosts) (ts : list task) :
  forall stale st,
    new_aid_list st = None ->
    new_aid_list (run_tasks falcon stale ts st) = None
    /\ first_aid_list (run_tasks falcon stale ts st)
       = first_aid_list st
           ++ flat_map (fun t => sublists_of_reply (reply falcon t)) ts.
Proof.
  induction ts as [|t ts IH]; intros stale st Hnone; simpl.
  - rewrite app_nil_r; auto.
  - destruct (run_task_before_flatten falcon (hd false stale) t st Hnone)
      as [Hn Hf].
    destruct (IH (tl stale) _ Hn) as [Hn' Hf'].
    split; [exact Hn'|].
    rewrite Hf', Hf, <- app_assoc; reflexivity.
Qed.

Lemma run_task_after_flatten (falcon : Hosts) (stale : bool) (t : task)
    (st : shared) (flattened : list aid_item) :
  new_aid_list st = Some flattened ->
  new_aid_list (run_task falcon stale t st)
  = Some (flattened
            ++ map SubList
                 (if stale then []
                  else sublists_of_reply (reply falcon t))).
Proof.
  intros Hsome.
  destruct t; simpl;
    unfold search_inames, search_hnames, sublists_of_reply, reply,
      append_aid; simpl;
    (destruct (status_code _ =? 200); simpl;
     [|destruct stale; simpl; rewrite app_nil_r; exact Hsome]);
    (destruct (resources _); simpl;
     [destruct stale; simpl; rewrite app_nil_r; exact Hsome|]);
    rewrite Hsome; destruct stale; simpl; rewrite ?app_nil_r; auto.
Qed.

Lemma run_tasks_after_flatten (falcon : Hosts) (ts : list task) :
  forall stale st flattened,
    new_aid_list st = Some flattened ->
    new_aid_list (run_tasks falcon stale ts st)
    = Some (flattened ++ map SubList (late_sublists falcon stale ts)).
Proof.
  induction ts as [|t ts IH]; intros stale st flattened Hsome; simpl.
  - rewrite app_nil_r; exact Hsome.
  - rewrite (IH (tl stale) _ _
               (run_task_after_flatten falcon (hd false stale) t st _ Hsome)).
    rewrite map_app, app_assoc; reflexivity.
Qed.

Lemma concat_sublists (falcon : Hosts) (ts : list task) :
  List.concat (flat_map (fun t => sublists_of_reply (reply falcon t)) ts)
  = flat_map (matched falcon) ts.
Proof.
  induction ts as [|t ts IH]; simpl; [reflexivity|].
  rewrite concat_app, IH; f_equal.
  unfold sublists_of_reply, matched.
  destruct (status_code (reply falcon t) =? 200); [|reflexivity].
  destruct (resources (reply falcon t)); simpl; rewrite ?app_nil_r;
    reflexivity.
Qed.

Lemma completion_order_perm (choices : list nat) :
  forall pending, Permutation (completion_order choices pending) pending.
Proof.
  induction choices as [|i choices IH]; intros pending;
    cbn [completion_order].
  - apply Permutation_refl.
  - destruct (nth_error pending i) as [t|] eqn:E; [|apply IH].
    etransitivity; [apply perm_skip, IH|].
    etransitivity; [apply Permutation_middle|].
    rewrite (firstn_skipn_middle _ _ E); apply Permutation_refl.
Qed.

Lemma finishing_order_perm (sched : schedule) (inames hnames : list string) :
  Permutation (finishing_order sched inames hnames)
    (submitted inames hnames).
Proof. apply completion_order_perm. Qed.

(** Whatever the schedule, the resolver returns.  Its first list holds the
    identities matched by the tasks that finished before line 143 ran,
    flattened, then the sub-lists of the tasks that finished later, as they
    are; its rows are those of all tasks in the order they finished; and it
    made one query per task. *)
Lemma cs_query_devices_returns (falcon : Hosts) (sched : schedule)
    (inames hnames : list string) (log : list call) :
  let order := finishing_order sched inames hnames in
  cs_query_devices falcon sched (PyList inames) (PyList hnames) log
  = (Returned
       (map Aid (flat_map (matched falcon) (firstn (flatten_after sched) order))
          ++ map SubList
               (late_sublists falcon (stale sched)
                  (skipn (flatten_after sched) order)),
        flat_map (fun t => rows_of_reply t (reply falcon t)) order),
     log ++ map task_call order).
Proof.
  intros order; unfold cs_query_devices.
  fold (finishing_order sched inames hnames); fold order.
  set (st0 := {| first_aid_list := []; new_aid_list := None;
                 host_info_list := []; api_calls := log |}).
  set (early := firstn (flatten_after sched) order).
  set (late := skipn (flatten_after sched) order).
  destruct (run_tasks_before_flatten falcon early [] st0 eq_refl)
    as [_ Hfirst].
  f_equal; [do 2 f_equal|].
  - unfold aid_list_of.
    rewrite (run_tasks_after_flatten falcon late (stale sched)
               (flatten (run_tasks falcon [] early st0)) _ eq_refl).
    rewrite Hfirst; simpl; rewrite concat_sublists; reflexivity.
  - rewrite run_tasks_rows; simpl; rewrite run_tasks_rows; simpl.
    rewrite <- flat_map_app; unfold early, late; rewrite firstn_skipn.
    reflexivity.
  - rewrite run_tasks_calls; simpl; rewrite run_tasks_calls; simpl.
    rewrite <- app_assoc, <- map_app; unfold early, late.
    rewrite firstn_skipn; reflexivity.
Qed.

(** When every lookup has finished before line 143 runs, the list handed on
    is the concatenation of the matched lists in finishing order. *)
Lemma cs_query_devices_lookups_first (falcon : Hosts) (sched : schedule)
    (inames hnames : list string) (log : list call) :
  (List.length (submitted inames hnames) <= flatten_after sched)%nat ->
  fst (cs_query_devices falcon sched (PyList inames) (PyList hnames) log)
  = Returned
      (map Aid (flat_map (matched falcon)
                  (finishing_order sched inames hnames)),
       flat_map (fun t => rows_of_reply t (reply falcon t))
         (finishing_order sched inames hnames)).
Proof.
  intros Hall.
  rewrite cs_query_devices_returns; simpl.
  assert (Hlen : (List.length (finishing_order sched inames hnames)
                  <= flatten_after sched)%nat).
  { rewrite (Permutation_length (finishing_order_perm sched inames hnames)).
    exact Hall. }
  rewrite (skipn_all2 _ Hlen), (firstn_all2 _ Hlen); simpl.
  rewrite app_nil_r; reflexivity.
Qed.

Lemma no_match_no_identity (falcon : Hosts) (ts : list task) :
  (forall t, In t ts -> matched falcon t = []) ->
  flat_map (matched falcon) ts = [].
Proof.
  induction ts as [|t ts IH]; simpl; intros H; [reflexivity|].
  rewrite (H t (or_introl eq_refl)), IH; [reflexivity|].
  intros u Hu; apply H; right; exact Hu.
Qed.

Lemma no_match_no_sublist (falcon : Hosts) (ts : list task) :
  forall stale,
    (forall t, In t ts -> matched falcon t = []) ->
    late_sublists falcon stale ts = [].
Proof.
  induction ts as [|t ts IH]; simpl; intros stale H; [reflexivity|].
  rewrite IH by (intros u Hu; apply H; right; exact Hu).
  rewrite app_nil_r; destruct (hd false stale); [reflexivity|].
  pose proof (H t (or_introl eq_refl)) as Ht.
  unfold matched in Ht; unfold sublists_of_reply.
  destruct (status_code (reply falcon t) =? 200); [|reflexivity].
  rewrite Ht; reflexivity.
Qed.

Lemma flat_map_agree {A B : Type} (f g : A -> list B) (l : list A) :
  (forall x, In x l -> f x = g x) -> flat_map f l = flat_map g l.
Proof.
  induction l as [|a l IH]; simpl; intros H; [reflexivity|].
  rewrite (H a (or_introl eq_refl)), IH; [reflexivity|].
  intros x Hx; apply H; right; exact Hx.
Qed.

(** *** [cs_detail_search] *)

Lemma append_assoc (a b c : string) :
  ((a ++ b) ++ c = a ++ (b ++ c))%string.
Proof. induction a as [|x a IH]; simpl; [reflexivity|rewrite IH; reflexivity]. Qed.

(** One turn of the loop: the record of the detail, or [KeyError] for a
    detail without one of the six keys, the log untouched. *)
Lemma device_details_outcome (d : detail) (log : list call) :
  (exists row, device_details d log = (Returned row, log)
               /\ device_record d row)
  \/ (device_details d log = (Raised KeyError, log) /\ lacks_key d).
Proof.
  unfold device_details, device_record, lacks_key, tags_column,
    instance_column, tenant, bind, subscript, ret, raise.
  destruct d as [h i a l f inst tg c]; cbn [hostname device_id agent_version
    last_seen first_seen instance_id tags cid].
  destruct h as [h|]; [|right; auto 10].
  destruct i as [i|]; [|right; auto 10].
  destruct a as [a|]; [|right; auto 10].
  destruct l as [l|]; [|right; auto 10].
  destruct f as [f|]; [|right; auto 10].
  destruct c as [c|]; [|right; auto 10].
  left; eexists; split; [reflexivity|].
  exists h, i, a, l, f, c; repeat split.
  unfold join; cbn [String.concat].
  rewrite (append_assoc l); reflexivity.
Qed.

Lemma record_has_keys (d : detail) (row : string) :
  device_record d row -> ~ lacks_key d.
Proof.
  intros [h [i [a [l [f [c [Hh [Hi [Ha [Hl [Hf [Hc _]]]]]]]]]]]] Hlack.
  unfold lacks_key in Hlack; intuition congruence.
Qed.

Lemma records_have_keys (details : list detail) (added : list string) :
  Forall2 device_record details added -> ~ Exists lacks_key details.
Proof.
  induction 1 as [|d row details added Hd _ IH]; intros Hex;
    inversion Hex; subst; [exact (record_has_keys _ _ Hd H0)|auto].
Qed.

(** The loop of lines 162 to 193: one record per detail after the rows
    there were, or [KeyError]. *)
Lemma append_details_outcome (details : list detail) :
  forall rows log,
    (exists added,
        append_details details rows log = (Returned (rows ++ added), log)
        /\ Forall2 device_record details added)
    \/ (append_details details rows log = (Raised KeyError, log)
        /\ Exists lacks_key details).
Proof.
  induction details as [|d details IH]; intros rows log; cbn [append_details].
  - left; exists []; rewrite app_nil_r; split; [reflexivity|constructor].
  - unfold bind.
    destruct (device_details_outcome d log) as [[row [Hrun Hrec]]|[Hrun Hlack]];
      rewrite Hrun; [|right; split; [reflexivity|left; exact Hlack]].
    destruct (IH (rows ++ [row]) log) as [[added [Hrest Hall]]|[Hrest Hex]];
      rewrite Hrest.
    + left; exists (row :: added); rewrite <- app_assoc.
      split; [reflexivity|constructor; assumption].
    + right; split; [reflexivity|right; exact Hex].
Qed.

Lemma cs_detail_search_in_range (falcon : Hosts) (aid_list : list aid_item)
    (rows : list string) (log : list call) :
  1 <= len aid_list <= 5000 ->
  snd (cs_detail_search falcon aid_list rows log)
  = log ++ [GetDeviceDetails aid_list]
  /\ ((exists added,
          fst (cs_detail_search falcon aid_list rows log)
          = Returned (rows ++ added)
          /\ Forall2 device_record (get_device_details falcon aid_list)
               added)
      \/ (fst (cs_detail_search falcon aid_list rows log) = Raised KeyError
          /\ Exists lacks_key (get_device_details falcon aid_list))).
Proof.
  intros [Hlo Hhi]; unfold cs_detail_search.
  destruct (len aid_list =? 0) eqn:E0; [apply Z.eqb_eq in E0; lia|].
  destruct (0 <? len aid_list) eqn:E1; [|apply Z.ltb_ge in E1; lia].
  destruct (len aid_list <=? 5000) eqn:E2; [|apply Z.leb_gt in E2; lia].
  cbn [andb]; unfold bind, remote.
  destruct (append_details_outcome (get_device_details falcon aid_list) rows
              (log ++ [GetDeviceDetails aid_list]))
    as [[added [Hrun Hall]]|[Hrun Hex]]; rewrite Hrun; cbn [fst snd].
  - split; [reflexivity|left; exists added; split; [reflexivity|exact Hall]].
  - split; [reflexivity|right; split; [reflexivity|exact Hex]].
Qed.

Lemma cs_detail_search_above (falcon : Hosts) (aid_list : list aid_item)
    (rows : list string) (log : list call) :
  5001 <= len aid_list ->
  cs_detail_search falcon aid_list rows log
  = (Returned (rows ++ [too_many_hosts_row (len aid_list)]), log).
Proof.
  intros Hlo; unfold cs_detail_search.
  destruct (len aid_list =? 0) eqn:E0; [apply Z.eqb_eq in E0; lia|].
  destruct (len aid_list <=? 5000) eqn:E2; [apply Z.leb_le in E2; lia|].
  rewrite andb_false_r; reflexivity.
Qed.

(** [str] writes an [int] as the decimal numeral that stands for it. *)
Lemma int_of_str_of_int (n : Z) : int_of_str (str_of_int n) = Some n.
Proof.
  unfold int_of_str, str_of_int.
  rewrite NilZero.isi.
  - cbn [option_map]; rewrite DecimalZ.of_to; reflexivity.
  - destruct n as [|p|p]; cbn; try discriminate.
    intros H; injection H as H.
    pose proof (DecimalPos.Unsigned.of_to p) as Hp.
    rewrite H in Hp; discriminate Hp.
  - destruct n as [|p|p]; cbn; try discriminate.
    intros H; injection H as H.
    pose proof (DecimalPos.Unsigned.of_to p) as Hp.
    rewrite H in Hp; discriminate Hp.
Qed.

Lemma distinct_NoDup (l : list string) : distinct l = true -> NoDup l.
Proof.
  induction l as [|x l IH]; cbn [distinct]; intros H; [constructor|].
  apply andb_prop in H; destruct H as [Hx Hl].
  constructor; [|apply IH, Hl].
  intros Hin; apply negb_true_iff in Hx.
  assert (Hex : existsb (String.eqb x) l = true)
    by (apply existsb_exists; exists x; split;
        [exact Hin|apply String.eqb_refl]).
  congruence.
Qed.

Lemma identities_of_aids (ids : list string) :
  identities (map Aid ids) = ids.
Proof.
  unfold identities.
  induction ids as [|x ids IH]; simpl; [reflexivity|rewrite IH; reflexivity].
Qed.

(** *** The claims *)

(** C1 (the code departs from it): for every submitted text with more than
    5000 non-empty lines [file_parse] answers [(False, False)], the test
    [iname_list and hname_list == False] of line 213 is then false because
    [and] stops at its false left operand, and [upload_file] goes on to
    [executor.map(search_inames, False)]: no remote call is made, but a
    [TypeError] is raised instead of the single advisory row. *)
Theorem upload_file_over_limit (falcon : Hosts) (sched : schedule)
    (submitted_list : string) :
  5000 < len (clean_list submitted_list) ->
  file_parse submitted_list = (PyFalse, PyFalse)
  /\ upload_file_rows falcon sched submitted_list []
     = (Raised TypeError, [])
  /\ upload_file falcon sched submitted_list [] = (Raised TypeError, []).
Proof.
  intros Hlen; pose proof (file_parse_large _ Hlen) as Hparse.
  unfold upload_file, upload_file_rows, bind; rewrite Hparse; simpl.
  auto.
Qed.

Lemma upload_file_over_limit_witness :
  5000 < len (clean_list (names (Z.to_nat 5001)))
  /\ upload_file falcon_one flatten_first (names (Z.to_nat 5001)) []
     = (Raised TypeError, []).
Proof.
  assert (H : 5000 < len (clean_list (names (Z.to_nat 5001))))
    by (vm_compute; reflexivity).
  split; [exact H|].
  exact (proj2 (proj2 (upload_file_over_limit falcon_one flatten_first
                         (names (Z.to_nat 5001)) H))).
Defined.

(** C3 (the code departs from it): with an empty [aid_list],
    [cs_detail_search] raises [AttributeError] at line 155, whatever rows
    were collected, and returns nothing.  That is what happens, under every
    schedule, when no submitted name has a match: the resolver returns the
    empty list and the rows, and the detail search raises. *)
Theorem cs_detail_search_no_match (falcon : Hosts) (sched : schedule)
    (inames hnames : list string) (log : list call) :
  (forall t, In t (submitted inames hnames) -> matched falcon t = []) ->
  (forall rows log', cs_detail_search falcon [] rows log'
                     = (Raised AttributeError, log'))
  /\ exists rows log',
       cs_query_devices falcon sched (PyList inames) (PyList hnames) log
       = (Returned ([], rows), log')
       /\ cs_detail_search falcon [] rows log' = (Raised AttributeError, log').
Proof.
  intros Hnone; split; [reflexivity|].
  eexists _, _; split; [|reflexivity].
  rewrite cs_query_devices_returns; cbv zeta.
  assert (Hin : forall t, In t (finishing_order sched inames hnames) ->
                          matched falcon t = []).
  { intros t Ht; apply Hnone.
    apply (Permutation_in t (finishing_order_perm sched inames hnames) Ht). }
  rewrite no_match_no_identity, no_match_no_sublist; [reflexivity| |].
  - intros t Ht; apply Hin.
    rewrite <- (firstn_skipn (flatten_after sched)); apply in_or_app; auto.
  - intros t Ht; apply Hin.
    rewrite <- (firstn_skipn (flatten_after sched)); apply in_or_app; auto.
Qed.

Lemma cs_detail_search_no_match_witness :
  exists rows log',
    cs_query_devices falcon_none flatten_first (PyList [])
      (PyList ["ghost-machine-001"]) []
    = (Returned ([], rows), log')
    /\ cs_detail_search falcon_none [] rows log'
       = (Raised AttributeError, log').
Proof.
  assert (Hnone : forall t,
             In t (submitted [] ["ghost-machine-001"]) ->
             matched falcon_none t = [])
    by (intros t _; destruct t; reflexivity).
  exact (proj2 (cs_detail_search_no_match falcon_none flatten_first []
                  ["ghost-machine-001"] [] Hnone)).
Defined.

(** C5 (the code departs from it): [upload_file] never hands back rows.
    When its body runs to the end it returns [None]; for the one name
    [web01], matched by one device, the local [host_info_list] holds the
    device's row and the caller still gets [None]. *)
Theorem upload_file_returns_none :
  (forall falcon sched submitted_list log rows,
      fst (upload_file falcon sched submitted_list log)
      <> Returned (Some rows))
  /\ upload_file_rows falcon_one lookups_first "web01" []
     = (Returned [web01_row],
        [QueryDevicesByFilterScroll 50 "last_seen.desc" "hostname:*'web01*'";
         GetDeviceDetails [Aid "aid-1"]])
  /\ upload_file falcon_one lookups_first "web01" []
     = (Returned None,
        [QueryDevicesByFilterScroll 50 "last_seen.desc" "hostname:*'web01*'";
         GetDeviceDetails [Aid "aid-1"]]).
Proof.
  split; [|split; vm_compute; reflexivity].
  intros falcon sched submitted_list log rows; unfold upload_file, bind.
  destruct (upload_file_rows falcon sched submitted_list log) as [[v|e] l];
    simpl; discriminate.
Qed.

(** C6 (the code departs from it): the ceiling of line 160 is on
    [len(aid_list)], the number of top-level items of the list.  A list of 1
    to 5000 items is sent in one [get_device_details] call and one record per
    returned detail is appended, in the order returned, unless a detail lacks
    a key, which raises [KeyError]; with 5001 items or more no call is made
    and one row stating that number is appended.  Either way the rows
    collected before stay in front, unchanged.  On a list of agent ids the
    number of items is the number of identities.  But a lookup that answers
    after line 143, which sits inside the [with] block, leaves its matches
    as one sub-list, counted as one item: 101 names matching fifty devices
    each hand over 5050 different identities in 101 items, and all of them
    are fetched, where the same request is refused when every lookup has
    answered before line 143. *)
Theorem cs_detail_search_ceiling :
  (forall (falcon : Hosts) (aid_list : list aid_item) (rows : list string)
          (log : list call),
      (1 <= len aid_list <= 5000 ->
       snd (cs_detail_search falcon aid_list rows log)
       = log ++ [GetDeviceDetails aid_list]
       /\ ((exists added,
               fst (cs_detail_search falcon aid_list rows log)
               = Returned (rows ++ added)
               /\ Forall2 device_record (get_device_details falcon aid_list)
                    added)
           \/ (fst (cs_detail_search falcon aid_list rows log)
               = Raised KeyError
               /\ Exists lacks_key (get_device_details falcon aid_list))))
      /\ (5001 <= len aid_list ->
          cs_detail_search falcon aid_list rows log
          = (Returned
               (rows
                  ++ [(str_of_int (len aid_list)
                         ++ " hosts found. Please reduce the number of "
                         ++ "partial names to stay under 5000 results. Any "
                         ++ "names above that reported IsFound as False were "
                         ++ "confirmed not to be found.")%string]),
             log)
          /\ int_of_str (str_of_int (len aid_list)) = Some (len aid_list)))
  /\ (forall ids : list string,
         identities (map Aid ids) = ids /\ len (map Aid ids) = len ids)
  /\ (let aid_list :=
        map Aid
          (flat_map (fun hname => matched falcon_fifty (HnameTask hname))
             hundred_and_one) in
      let searches := map task_call (map HnameTask hundred_and_one) in
      cs_query_devices falcon_fifty all_answered (PyList [])
        (PyList hundred_and_one) []
      = (Returned (aid_list, []), searches)
      /\ len aid_list = 5050
      /\ cs_detail_search falcon_fifty aid_list [] searches
         = (Returned
              [("5050 hosts found. Please reduce the number of partial "
                  ++ "names to stay under 5000 results. Any names above "
                  ++ "that reported IsFound as False were confirmed not to "
                  ++ "be found.")%string],
            searches))
  /\ (let aid_list :=
        map (fun hname => SubList (matched falcon_fifty (HnameTask hname)))
          hundred_and_one in
      let searches := map task_call (map HnameTask hundred_and_one) in
      cs_query_devices falcon_fifty flatten_first (PyList [])
        (PyList hundred_and_one) []
      = (Returned (aid_list, []), searches)
      /\ len aid_list = 101
      /\ len (identities aid_list) = 5050
      /\ NoDup (identities aid_list)
      /\ cs_detail_search falcon_fifty aid_list [] searches
         = (Returned (repeat web01_row (Z.to_nat 5050)),
            searches ++ [GetDeviceDetails aid_list])).
Proof.
  split; [|split; [|split]].
  - intros falcon aid_list rows log; split.
    + apply cs_detail_search_in_range.
    + intros H; split; [apply cs_detail_search_above, H|].
      apply int_of_str_of_int.
  - intros ids; split; [apply identities_of_aids|].
    unfold len; rewrite length_map; reflexivity.
  - cbv zeta.
    split; [vm_compute; reflexivity|].
    split; vm_compute; reflexivity.
  - cbv zeta.
    split; [vm_compute; reflexivity|].
    split; [vm_compute; reflexivity|].
    split; [vm_compute; reflexivity|].
    split; [apply distinct_NoDup; vm_compute; reflexivity|].
    vm_compute; reflexivity.
Qed.

Lemma cs_detail_search_ceiling_witness :
  cs_detail_search falcon_one [Aid "aid-1"] ["ghost,False"] []
  = (Returned
       ["ghost,False";
        ("web01,True,7.11,2024-05-02T10:00:00Z                ,"
           ++ "2023-01-01T08:00:00Z,SensorGroupingTags/web,"
           ++ "Business Segment : 0987654321poiuytrewqlkjhgfdsa,N/A,aid-1")
          %string],
     [GetDeviceDetails [Aid "aid-1"]])
  /\ cs_detail_search falcon_one (repeat (Aid "aid-1") (Z.to_nat 5001))
       ["ghost,False"] []
     = (Returned
          ["ghost,False";
           ("5001 hosts found. Please reduce the number of partial names "
              ++ "to stay under 5000 results. Any names above that reported "
              ++ "IsFound as False were confirmed not to be found.")%string],
        []).
Proof.
  assert (Hin : 1 <= len [Aid "aid-1"] <= 5000)
    by (vm_compute; split; intros H; discriminate H).
  assert (Hover : 5001 <= len (repeat (Aid "aid-1") (Z.to_nat 5001)))
    by (vm_compute; intros H; discriminate H).
  split.
  - destruct (proj1 (proj1 cs_detail_search_ceiling falcon_one [Aid "aid-1"]
                       ["ghost,False"] []) Hin)
      as [Hlog [[added [Hrun Hall]]|[_ Hex]]].
    + destruct (cs_detail_search falcon_one [Aid "aid-1"] ["ghost,False"] [])
        as [o log']; cbn [fst snd] in Hlog, Hrun; subst o log'.
      inversion Hall as [|d row ds rs Hrec Hrest]; subst.
      inversion Hrest; subst.
      destruct Hrec as [h [i [a [l [f [c [Hh [Hi [Ha [Hl [Hf [Hc ->]]]]]]]]]]]].
      injection Hh as <-; injection Hi as <-; injection Ha as <-.
      injection Hl as <-; injection Hf as <-; injection Hc as <-.
      reflexivity.
    + exfalso; inversion Hex as [d ds Hd|d ds Hd]; subst;
        [|inversion Hd].
      unfold lacks_key in Hd; cbn in Hd; intuition discriminate.
  - rewrite (proj1 (proj2 (proj1 cs_detail_search_ceiling falcon_one
                             (repeat (Aid "aid-1") (Z.to_nat 5001))
                             ["ghost,False"] []) Hover)).
    vm_compute; reflexivity.
Defined.

(** C7: a task whose search answers with a status other than 200 appends
    exactly one row, its name followed by the advice to try again in a
    smaller list, and no sub-list; the resolver still returns, having
    queried every task, and its rows are those of the tasks before it, that
    row, and those of the tasks after it.  The rows of the other tasks are
    the same under any remote side that answers them the same way, whatever
    it answers to this task. *)
Theorem transient_error_is_isolated (falcon : Hosts) (sched : schedule)
    (inames hnames : list string) (t : task) (log : list call) :
  In t (submitted inames hnames) ->
  status_code (reply falcon t) <> 200 ->
  let rows_of oracle ts :=
    flat_map (fun u => rows_of_reply u (reply oracle u)) ts in
  exists before after,
    finishing_order sched inames hnames = before ++ t :: after
    /\ rows_of_reply t (reply falcon t) = [error_row t]
    /\ sublists_of_reply (reply falcon t) = []
    /\ (exists words,
          error_row t
          = (task_name t ++ words
               ++ "Please try this name again in a smaller search list.")
            %string)
    /\ (exists aid_list,
          cs_query_devices falcon sched (PyList inames) (PyList hnames) log
          = (Returned
               (aid_list,
                rows_of falcon before ++ [error_row t]
                  ++ rows_of falcon after),
             log ++ map task_call (before ++ t :: after)))
    /\ (forall falcon',
          (forall u, In u (before ++ after) ->
                     reply falcon' u = reply falcon u) ->
          exists aid_list,
            cs_query_devices falcon' sched (PyList inames) (PyList hnames)
              log
            = (Returned
                 (aid_list,
                  rows_of falcon before ++ rows_of_reply t (reply falcon' t)
                    ++ rows_of falcon after),
               log ++ map task_call (before ++ t :: after))).
Proof.
  intros Hin Hstatus rows_of.
  assert (Hin' : In t (finishing_order sched inames hnames)).
  { apply (Permutation_in t
             (Permutation_sym (finishing_order_perm sched inames hnames))).
    exact Hin. }
  destruct (in_split _ _ Hin') as [before [after Horder]].
  assert (Hrow : rows_of_reply t (reply falcon t) = [error_row t]).
  { unfold rows_of_reply.
    destruct (status_code (reply falcon t) =? 200) eqn:E; [|reflexivity].
    apply Z.eqb_eq in E; contradiction. }
  exists before, after; repeat split.
  - exact Horder.
  - exact Hrow.
  - unfold sublists_of_reply.
    destruct (status_code (reply falcon t) =? 200) eqn:E; [|reflexivity].
    apply Z.eqb_eq in E; contradiction.
  - destruct t; eexists; unfold error_row, task_name, iname_error_row,
      hname_error_row; reflexivity.
  - pose proof (cs_query_devices_returns falcon sched inames hnames log)
      as Heq.
    cbv zeta in Heq; eexists; rewrite Heq.
    apply (f_equal2 pair);
      [apply f_equal, (f_equal2 pair); [reflexivity|]
      |rewrite Horder; reflexivity].
    subst rows_of; rewrite Horder, flat_map_app; simpl; rewrite Hrow.
    reflexivity.
  - intros falcon' Hsame.
    pose proof (cs_query_devices_returns falcon' sched inames hnames log)
      as Heq.
    cbv zeta in Heq; eexists; rewrite Heq.
    apply (f_equal2 pair);
      [apply f_equal, (f_equal2 pair); [reflexivity|]
      |rewrite Horder; reflexivity].
    subst rows_of; rewrite Horder, flat_map_app; simpl.
    rewrite (flat_map_agree
               (fun u => rows_of_reply u (reply falcon' u))
               (fun u => rows_of_reply u (reply falcon u)) before),
      (flat_map_agree
         (fun u => rows_of_reply u (reply falcon' u))
         (fun u => rows_of_reply u (reply falcon u)) after);
      [reflexivity| |];
      intros u Hu; rewrite Hsame; auto; apply in_or_app; auto.
Qed.

Lemma transient_error_is_isolated_witness :
  exists before after,
    finishing_order flatten_first ["i-0abc"] ["web01"]
    = before ++ HnameTask "web01" :: after
    /\ exists aid_list,
         cs_query_devices falcon_down flatten_first (PyList ["i-0abc"])
           (PyList ["web01"]) []
         = (Returned
              (aid_list,
               flat_map
                 (fun u => rows_of_reply u (reply falcon_down u)) before
               ++ [error_row (HnameTask "web01")]
               ++ flat_map
                    (fun u => rows_of_reply u (reply falcon_down u)) after),
            [] ++ map task_call (before ++ HnameTask "web01" :: after)).
Proof.
  assert (Hin : In (HnameTask "web01") (submitted ["i-0abc"] ["web01"]))
    by (simpl; auto).
  assert (Hstatus : status_code (reply falcon_down (HnameTask "web01"))
                    <> 200)
    by (simpl; intros H; discriminate H).
  destruct (transient_error_is_isolated falcon_down flatten_first
              ["i-0abc"] ["web01"] (HnameTask "web01") [] Hin Hstatus)
    as [before [after [Horder [_ [_ [_ [Hrun _]]]]]]].
  exists before, after; split; [exact Horder|exact Hrun].
Defined.

(** C8 (the code departs from it): line 143 sits inside the [with] block,
    so it runs without waiting for the lookups; only leaving the block joins
    them.  For every schedule the list returned is the flattening of what the
    tasks finished by then had appended, followed by the sub-lists, as they
    are, of the tasks that finished later.  With the one name [web01],
    matched by [aid-1], and the flattening first, the pair returned holds the
    unflattened sub-list; with the lookup first it holds the identity. *)
Theorem flatten_runs_before_join :
  (forall falcon sched inames hnames log,
      let order := finishing_order sched inames hnames in
      cs_query_devices falcon sched (PyList inames) (PyList hnames) log
      = (Returned
           (map Aid (flat_map (matched falcon)
                       (firstn (flatten_after sched) order))
              ++ map SubList
                   (late_sublists falcon (stale sched)
                      (skipn (flatten_after sched) order)),
            flat_map (fun t => rows_of_reply t (reply falcon t)) order),
         log ++ map task_call order))
  /\ cs_query_devices falcon_one flatten_first (PyList [])
       (PyList ["web01"]) []
     = (Returned ([SubList ["aid-1"]], []),
        [QueryDevicesByFilterScroll 50 "last_seen.desc"
           "hostname:*'web01*'"])
  /\ cs_query_devices falcon_one lookups_first (PyList [])
       (PyList ["web01"]) []
     = (Returned ([Aid "aid-1"], []),
        [QueryDevicesByFilterScroll 50 "last_seen.desc"
           "hostname:*'web01*'"]).
Proof.
  split; [exact cs_query_devices_returns|].
  split; vm_compute; reflexivity.
Qed.

(** C2 (amended): nothing removes duplicates.  When every lookup has
    finished before line 143 runs, the list handed to the detail search is
    the concatenation of the matched lists in finishing order, so an
    identity matched by two tasks occurs there at least twice; the detail
    search sends that list as it is and appends one row per detail
    returned, the record of that detail, or raises [KeyError] when a detail
    returned lacks a key. *)
Theorem identities_are_concatenated (falcon : Hosts) (sched : schedule)
    (inames hnames : list string) (log : list call) :
  (List.length (submitted inames hnames) <= flatten_after sched)%nat ->
  exists aid_list rows log',
    cs_query_devices falcon sched (PyList inames) (PyList hnames) log
    = (Returned (aid_list, rows), log')
    /\ aid_list
       = map Aid (flat_map (matched falcon)
                    (finishing_order sched inames hnames))
    /\ (forall before t1 between t2 after d,
           submitted inames hnames = before ++ t1 :: between ++ t2 :: after ->
           In d (matched falcon t1) ->
           In d (matched falcon t2) ->
           (2 <= count_occ aid_item_eq_dec aid_list (Aid d))%nat)
    /\ (1 <= len aid_list <= 5000 ->
        snd (cs_detail_search falcon aid_list rows log')
        = log' ++ [GetDeviceDetails aid_list]
        /\ ((exists added,
                fst (cs_detail_search falcon aid_list rows log')
                = Returned (rows ++ added)
                /\ Forall2 device_record (get_device_details falcon aid_list)
                     added)
            \/ (fst (cs_detail_search falcon aid_list rows log')
                = Raised KeyError
                /\ Exists lacks_key (get_device_details falcon aid_list)))).
Proof.
  intros Hall.
  pose proof (cs_query_devices_lookups_first falcon sched inames hnames log
                Hall) as Hfst.
  destruct (cs_query_devices falcon sched (PyList inames) (PyList hnames)
              log) as [result log'] eqn:Hrun.
  simpl in Hfst; subst result.
  eexists _, _, log'; split; [reflexivity|].
  split; [reflexivity|]. split.
  - intros before t1 between t2 after d Hsub Hd1 Hd2.
    pose proof (finishing_order_perm sched inames hnames) as Hperm.
    rewrite Hsub in Hperm.
    pose proof (Permutation_map Aid
                  (Permutation_flat_map (matched falcon) Hperm)) as Hp.
    rewrite (proj1 (Permutation_count_occ aid_item_eq_dec _ _) Hp).
    rewrite flat_map_app; simpl; rewrite flat_map_app; simpl.
    rewrite !map_app, !count_occ_app.
    assert (H1 : (count_occ aid_item_eq_dec (map Aid (matched falcon t1))
                    (Aid d) > 0)%nat)
      by (apply count_occ_In, in_map, Hd1).
    assert (H2 : (count_occ aid_item_eq_dec (map Aid (matched falcon t2))
                    (Aid d) > 0)%nat)
      by (apply count_occ_In, in_map, Hd2).
    lia.
  - apply cs_detail_search_in_range.
Qed.

Lemma identities_are_concatenated_witness :
  exists aid_list rows log',
    cs_query_devices falcon_one lookups_first (PyList [])
      (PyList ["web0"; "web01"]) []
    = (Returned (aid_list, rows), log')
    /\ aid_list
       = map Aid (flat_map (matched falcon_one)
                    (finishing_order lookups_first [] ["web0"; "web01"])).
Proof.
  assert (Hall : (List.length (submitted [] ["web0"; "web01"])
                  <= flatten_after lookups_first)%nat)
    by (simpl; lia).
  destruct (identities_are_concatenated falcon_one lookups_first []
              ["web0"; "web01"] [] Hall)
    as [aid_list [rows [log' [Hrun [Haid _]]]]].
  exists aid_list, rows, log'; split; [exact Hrun|exact Haid].
Defined.

(** C2 (as stated, refuted): the names [web0] and [web01] both match the
    device [aid-1]; with both lookups finished before line 143, [aid-1] is
    handed to the detail search twice. *)
Lemma identities_not_deduplicated :
  ~ deduplicated falcon_one lookups_first [] ["web0"; "web01"].
Proof.
  intros H.
  specialize (H [] (HnameTask "web0") [] (HnameTask "web01") [] "aid-1"
                [Aid "aid-1"; Aid "aid-1"] []
                [QueryDevicesByFilterScroll 50 "last_seen.desc"
                   "hostname:*'web0*'";
                 QueryDevicesByFilterScroll 50 "last_seen.desc"
                   "hostname:*'web01*'"]
                eq_refl (or_introl eq_refl) (or_introl eq_refl) eq_refl).
  vm_compute in H; discriminate H.
Qed.

(** C4 (amended): for a submitted text with at most 5000 non-empty lines,
    the lines kept are the stripped lines that are not empty; each is cut at
    its first ['.'] and the token goes to the instance-id list when it is
    ["i-"] followed by a word character (a letter, a digit or an
    underscore), and to the hostname list otherwise.  Both lists keep the
    order of the lines and together they hold every token once. *)
Theorem file_parse_partitions (submitted_list : string) :
  len (clean_list submitted_list) <= 5000 ->
  let tokens := map sub_dot_rest (clean_list submitted_list) in
  let inames := filter match_i_dash tokens in
  let hnames := filter (fun t => negb (match_i_dash t)) tokens in
  file_parse submitted_list = (PyList inames, PyList hnames)
  /\ Permutation (inames ++ hnames) tokens
  /\ (forall line,
         In line (clean_list submitted_list)
         <-> line <> EmptyString
             /\ exists raw, In raw (split_newline submitted_list)
                            /\ strip raw = line)
  /\ (forall line,
         In line (clean_list submitted_list) ->
         cut_at_first_dot line (sub_dot_rest line)
         /\ (In (sub_dot_rest line) inames
             <-> i_dash_word (sub_dot_rest line))
         /\ (In (sub_dot_rest line) hnames
             <-> ~ i_dash_word (sub_dot_rest line))).
Proof.
  intros Hlen tokens inames hnames.
  split; [apply file_parse_small, Hlen|].
  split; [apply filter_split_perm|].
  split; [apply clean_list_spec|].
  intros line Hline.
  pose proof (clean_list_no_newline _ _ Hline) as Hnl.
  destruct (sub_dot_rest_cut line Hnl) as [Hcut Hnl'].
  pose proof (match_i_dash_word _ Hnl') as Hword.
  assert (Htok : In (sub_dot_rest line) tokens) by (apply in_map, Hline).
  split; [exact Hcut|]. subst inames hnames; split.
  - rewrite filter_In, <- Hword; tauto.
  - rewrite filter_In, <- Hword, negb_true_iff.
    destruct (match_i_dash (sub_dot_rest line)); split;
      [intros [_ H]; discriminate H | intros H; exfalso; apply H; reflexivity
      | intros _ H; discriminate H | auto].
Qed.

Lemma file_parse_partitions_witness :
  file_parse
    ("host1.example.com" ++ line_break ++ "i-0abc123.region")%string
  = (PyList ["i-0abc123"], PyList ["host1"]).
Proof.
  assert (Hlen : len (clean_list
                        ("host1.example.com" ++ line_break
                           ++ "i-0abc123.region")%string) <= 5000)
    by (vm_compute; intros H; discriminate H).
  rewrite (proj1 (file_parse_partitions _ Hlen)).
  vm_compute; reflexivity.
Defined.

(** C4 (as stated, refuted): the line ["i-"] starts with the two characters
    ["i-"] and lands in the hostname list. *)
Lemma prefix_alone_is_not_enough : ~ classified_by_prefix "i-".
Proof.
  intros H.
  destruct (H [] ["i-"] "i-" eq_refl (or_introl eq_refl)) as [_ Hin].
  exact (Hin eq_refl).
Qed.

(** C9: a line whose stripped form starts with ['.'] survives the cleaning,
    its token is the empty string, and that token is in the hostname list;
    the resolver then queries the hostname filter built from the empty
    name, whatever the schedule. *)
Theorem dotted_line_becomes_empty_hostname (submitted_list raw rest : string) :
  len (clean_list submitted_list) <= 5000 ->
  In raw (split_newline submitted_list) ->
  strip raw = String "." rest ->
  exists inames hnames,
    file_parse submitted_list = (PyList inames, PyList hnames)
    /\ In (strip raw) (clean_list submitted_list)
    /\ sub_dot_rest (strip raw) = EmptyString
    /\ In EmptyString hnames
    /\ forall falcon sched log,
         exists aid_list rows log',
           cs_query_devices falcon sched (PyList inames) (PyList hnames) log
           = (Returned (aid_list, rows), log')
           /\ In (QueryDevicesByFilterScroll 50 "last_seen.desc"
                    "hostname:*'*'") log'.
Proof.
  intros Hlen Hraw Hstrip.
  assert (Hline : In (strip raw) (clean_list submitted_list)).
  { apply clean_list_spec; split; [rewrite Hstrip; discriminate|].
    exists raw; auto. }
  assert (Htok : sub_dot_rest (strip raw) = EmptyString).
  { pose proof (clean_list_no_newline _ _ Hline) as Hnl.
    rewrite Hstrip in *; unfold sub_dot_rest; simpl.
    apply sub_in_match_no_newline; simpl in Hnl; exact Hnl. }
  assert (Hh : In EmptyString
                 (filter (fun t => negb (match_i_dash t))
                    (map sub_dot_rest (clean_list submitted_list)))).
  { apply filter_In; split; [|reflexivity].
    rewrite <- Htok; apply in_map, Hline. }
  eexists _, _; split; [apply file_parse_small, Hlen|].
  repeat split; auto.
  intros falcon sched log.
  eexists _, _, _; split;
    [rewrite cs_query_devices_returns; reflexivity|].
  apply in_or_app; right.
  apply (in_map task_call _ (HnameTask EmptyString)).
  apply (Permutation_in _ (Permutation_sym (finishing_order_perm _ _ _))).
  unfold submitted; apply in_or_app; right; apply in_map, Hh.
Qed.

Lemma dotted_line_becomes_empty_hostname_witness :
  exists inames hnames,
    file_parse (" .local" ++ line_break ++ "web01")%string
    = (PyList inames, PyList hnames)
    /\ In EmptyString hnames.
Proof.
  assert (Hlen : len (clean_list (" .local" ++ line_break ++ "web01")%string)
                 <= 5000)
    by (vm_compute; intros H; discriminate H).
  assert (Hraw : In " .local"
                   (split_newline
                      (" .local" ++ line_break ++ "web01")%string))
    by (left; reflexivity).
  destruct (dotted_line_becomes_empty_hostname
              (" .local" ++ line_break ++ "web01")%string " .local" "local"
              Hlen Hraw eq_refl)
    as [inames [hnames [Hparse [_ [_ [Hin _]]]]]].
  exists inames, hnames; split; [exact Hparse|exact Hin].
Defined.

End HostSearchFacts.

(** ** Facts about [sensor_download.py] *)

Module SensorDownloadFacts.
Import Py SensorDownload SensorDownloadSpec.

(** *** Dictionaries *)

Section Dict.
Context {V : Type}.
Implicit Types (d : dict V) (k : string) (v : V).

Lemma get_set_same d k v : get (set d k v) k = Some v.
Proof.
  induction d as [|[k0 x] d IH]; simpl.
  - rewrite String.eqb_refl; reflexivity.
  - destruct (String.eqb k0 k) eqn:E; simpl; rewrite E; auto.
Qed.

Lemma get_set_other d k k' v : k' <> k -> get (set d k v) k' = get d k'.
Proof.
  intros Hne; induction d as [|[k0 x] d IH]; simpl.
  - destruct (String.eqb k k') eqn:E; [|reflexivity].
    apply String.eqb_eq in E; congruence.
  - destruct (String.eqb k0 k) eqn:E; simpl.
    + apply String.eqb_eq in E; subst k0.
      destruct (String.eqb k k') eqn:E'; [|reflexivity].
      apply String.eqb_eq in E'; congruence.
    + rewrite IH; reflexivity.
Qed.

Lemma get_absent d k : ~ In k (keys d) -> get d k = None.
Proof.
  induction d as [|[k0 x] d IH]; simpl; intros Hnot; [reflexivity|].
  destruct (String.eqb k0 k) eqn:E.
  - apply String.eqb_eq in E; tauto.
  - apply IH; tauto.
Qed.

Lemma get_present d k : In k (keys d) -> get d k <> None.
Proof.
  induction d as [|[k0 x] d IH]; simpl; [tauto|].
  intros [->|Hin]; [rewrite String.eqb_refl; discriminate|].
  destruct (String.eqb k0 k); [discriminate|auto].
Qed.

Lemma keys_set_present d k v x :
  get d k = Some x -> keys (set d k v) = keys d.
Proof.
  induction d as [|[k0 y] d IH]; simpl; [discriminate|].
  destruct (String.eqb k0 k) eqn:E; simpl; [reflexivity|].
  intros H; rewrite (IH H); reflexivity.
Qed.

Lemma keys_set_absent d k v :
  get d k = None -> keys (set d k v) = keys d ++ [k].
Proof.
  induction d as [|[k0 y] d IH]; simpl; [reflexivity|].
  destruct (String.eqb k0 k) eqn:E; simpl; [discriminate|].
  intros H; rewrite (IH H); reflexivity.
Qed.

Lemma NoDup_keys_set d k v : NoDup (keys d) -> NoDup (keys (set d k v)).
Proof.
  intros Hnd; destruct (get d k) as [x|] eqn:E.
  - rewrite (keys_set_present _ _ _ _ E); exact Hnd.
  - rewrite (keys_set_absent _ _ _ E).
    apply NoDup_app; [exact Hnd|repeat constructor; simpl; tauto|].
    intros a Ha [<-|[]].
    exact (get_present _ _ Ha E).
Qed.
End Dict.

(** *** The loop over the buckets of a platform *)

Lemma visit_items_absent (key : string) (info : entry)
    (items : dict os_detail) :
  forall fl,
    get items key = None -> visit_items key info fl items = (fl, items).
Proof.
  induction items as [|[k0 d0] items IH]; intros fl; simpl; [reflexivity|].
  destruct (String.eqb k0 key); [discriminate|].
  intros H; rewrite (IH fl H); reflexivity.
Qed.

Lemma visit_match (key : string) (info : entry) (d : os_detail) :
  exists fl,
    visit key info no_flags (key, d) = (fl, (key, fill info d))
    /\ none_set fl = false.
Proof.
  unfold visit, fill; rewrite String.eqb_refl.
  destruct d as [[c|] [p|] [o|]]; simpl; eexists; split; reflexivity.
Qed.

Lemma visit_items_present (key : string) (info : entry) (d : os_detail)
    (items : dict os_detail) :
  NoDup (keys items) ->
  get items key = Some d ->
  exists fl,
    visit_items key info no_flags items = (fl, set items key (fill info d))
    /\ none_set fl = false.
Proof.
  induction items as [|[k0 d0] items IH]; [discriminate|].
  cbn [get visit_items set keys map fst].
  intros Hnd Hget; inversion Hnd as [|? ? Hnot Hnd']; subst.
  destruct (String.eqb k0 key) eqn:E.
  - apply String.eqb_eq in E; subst k0.
    injection Hget as ->.
    destruct (visit_match key info d) as [fl [Hvisit Hfl]].
    exists fl; split; [|exact Hfl].
    rewrite Hvisit, (visit_items_absent key info items fl);
      [reflexivity|apply get_absent, Hnot].
  - destruct (IH Hnd' Hget) as [fl [Hvisit Hfl]].
    exists fl; split; [|exact Hfl].
    unfold visit at 1; rewrite E, Hvisit; reflexivity.
Qed.

(** *** Buckets as prefixes of the matching installers *)

Lemma feeding_snoc (plat key : string) (done : list installer)
    (v : installer) :
  feeding plat key (done ++ [v])
  = feeding plat key done ++ (if feeds plat key v then [entry_of v] else []).
Proof.
  unfold feeding; rewrite filter_app, map_app; simpl.
  destruct (feeds plat key v); reflexivity.
Qed.

Lemma lineage_snoc (es : list entry) (e : entry) :
  lineage_of (es ++ [e])
  = Some (match lineage_of es with
          | Some d => fill e d
          | None => fresh e
          end).
Proof.
  destruct es as [|e1 [|e2 [|e3 es]]]; reflexivity.
Qed.

Lemma lineage_of_in_order (es : list entry) (d : os_detail) :
  lineage_of es = Some d ->
  lineage_in_order d
  /\ current d = nth_error es 0
  /\ previous d = nth_error es 1
  /\ oldest d = nth_error es 2.
Proof.
  destruct es as [|e rest]; simpl; [discriminate|].
  intros H; injection H as <-; unfold lineage_in_order; simpl.
  repeat split; try discriminate.
  destruct rest as [|e2 rest]; simpl; [congruence|discriminate].
Qed.

(** *** One installer *)

Lemma track_keeps_invariant (version_map version_map' : dict (dict os_detail))
    (done : list installer) (v : installer) :
  tracked_so_far version_map done ->
  track version_map v = Returned version_map' ->
  tracked_so_far version_map' (done ++ [v]).
Proof.
  intros [Hkeys Hinv]; unfold track.
  destruct (truthy_str (platform v) && truthy_str (os v)) eqn:Htruthy.
  2:{ intros H; injection H as <-; split; [exact Hkeys|].
      intros plat buckets Hget; destruct (Hinv plat buckets Hget) as [Hnd Hb].
      split; [exact Hnd|]; intros key.
      rewrite feeding_snoc; unfold feeds; rewrite Htruthy; simpl.
      rewrite app_nil_r; apply Hb. }
  set (P := fmt (platform v)).
  set (key := bucket_key (os v) (os_version v)).
  assert (Hfeeds : forall plat k,
             feeds plat k v = String.eqb P plat && String.eqb key k).
  { intros plat k; unfold feeds; rewrite Htruthy; reflexivity. }
  destruct (get version_map P) as [buckets|] eqn:HgetP;
    [|simpl; rewrite HgetP; discriminate].
  destruct (Hinv P buckets HgetP) as [Hnd Hb].
  assert (Hstep : forall new_buckets new_map,
             new_map = set version_map P new_buckets ->
             NoDup (keys new_buckets) ->
             (forall k, get new_buckets k
                        = lineage_of (feeding P k (done ++ [v]))) ->
             tracked_so_far new_map (done ++ [v])).
  { intros new_buckets new_map -> Hnd' Hb'; split.
    - rewrite (keys_set_present _ _ _ _ HgetP); exact Hkeys.
    - intros plat bs Hget.
      destruct (String.eqb P plat) eqn:E.
      + apply String.eqb_eq in E; subst plat.
        rewrite get_set_same in Hget; injection Hget as <-; auto.
      + apply String.eqb_neq in E.
        rewrite get_set_other in Hget by congruence.
        destruct (Hinv plat bs Hget) as [Hnd'' Hb'']; split; [auto|].
        intros k; rewrite feeding_snoc, Hfeeds.
        apply String.eqb_neq in E; rewrite E; simpl.
        rewrite app_nil_r; apply Hb''. }
  assert (Hother : forall k x, k <> key ->
             get (set buckets key x) k
             = lineage_of (feeding P k (done ++ [v]))).
  { intros k x Hne; rewrite get_set_other by exact Hne.
    rewrite feeding_snoc, Hfeeds, String.eqb_refl; simpl.
    destruct (String.eqb key k) eqn:E;
      [apply String.eqb_eq in E; congruence|].
    rewrite app_nil_r; apply Hb. }
  assert (Hsame : feeding P key (done ++ [v])
                  = feeding P key done ++ [entry_of v]).
  { rewrite feeding_snoc, Hfeeds, !String.eqb_refl; reflexivity. }
  destruct (get buckets key) as [d|] eqn:Hgetkey.
  - destruct (visit_items_present key (entry_of v) d buckets Hnd Hgetkey)
      as [fl [Hvisit Hfl]].
    rewrite Hvisit, Hfl; intros H; injection H as <-.
    apply (Hstep (set buckets key (fill (entry_of v) d))); auto.
    + apply NoDup_keys_set, Hnd.
    + intros k; destruct (String.eqb key k) eqn:E.
      * apply String.eqb_eq in E; subst k.
        rewrite get_set_same, Hsame, lineage_snoc, <- Hb, Hgetkey.
        reflexivity.
      * apply Hother; apply String.eqb_neq in E; congruence.
  - rewrite (visit_items_absent key (entry_of v) buckets no_flags Hgetkey).
    simpl; rewrite get_set_same; intros H; injection H as <-.
    assert (Hagain : set (set version_map P buckets) P
                         (set buckets key (fresh (entry_of v)))
                     = set version_map P
                         (set buckets key (fresh (entry_of v)))).
    { clear -HgetP; induction version_map as [|[k0 x] vm IH]; simpl;
        [simpl in HgetP; discriminate|].
      simpl in HgetP; destruct (String.eqb k0 P) eqn:E; simpl; rewrite E;
        [reflexivity|rewrite (IH HgetP); reflexivity]. }
    apply (Hstep (set buckets key (fresh (entry_of v)))); auto.
    + apply NoDup_keys_set, Hnd.
    + intros k; destruct (String.eqb key k) eqn:E.
      * apply String.eqb_eq in E; subst k.
        rewrite get_set_same, Hsame, lineage_snoc, <- Hb, Hgetkey.
        reflexivity.
      * apply Hother; apply String.eqb_neq in E; congruence.
Qed.

(** *** The whole list *)

Lemma track_all_keeps_invariant (rest : list installer) :
  forall version_map version_map' done,
    tracked_so_far version_map done ->
    track_all version_map rest = Returned version_map' ->
    tracked_so_far version_map' (done ++ rest).
Proof.
  induction rest as [|v rest IH]; simpl; intros vm vm' done Hinv Hrun.
  - injection Hrun as <-; rewrite app_nil_r; exact Hinv.
  - destruct (track vm v) as [vm1|e] eqn:E; [|discriminate].
    replace (done ++ v :: rest) with ((done ++ [v]) ++ rest)
      by (rewrite <- app_assoc; reflexivity).
    apply (IH vm1); [|exact Hrun].
    apply (track_keeps_invariant vm); assumption.
Qed.

Lemma initial_map_tracked :
  tracked_so_far [("windows", []); ("mac", []); ("linux", [])] [].
Proof.
  split; [reflexivity|].
  intros plat buckets; cbn [get].
  destruct (String.eqb "windows" plat);
    [|destruct (String.eqb "mac" plat);
      [|destruct (String.eqb "linux" plat); [|discriminate]]];
    intros H; injection H as <-; split; try constructor; reflexivity.
Qed.

Lemma track_returns (version_map : dict (dict os_detail)) (v : installer) :
  keys version_map = platforms ->
  known_platform v ->
  exists version_map', track version_map v = Returned version_map'.
Proof.
  intros Hkeys Hknown; unfold track.
  destruct (truthy_str (platform v) && truthy_str (os v)) eqn:Htruthy;
    [|eexists; reflexivity].
  specialize (Hknown Htruthy); rewrite <- Hkeys in Hknown.
  apply get_present in Hknown.
  destruct (get version_map (fmt (platform v))) as [buckets|];
    [|contradiction].
  destruct (visit_items _ _ _ buckets) as [fl buckets'].
  destruct (none_set fl); [|eexists; reflexivity].
  rewrite get_set_same; eexists; reflexivity.
Qed.

(** [get_version_map] returns a map when every installer it counts is on
    one of the three platforms the map starts with. *)
Lemma get_version_map_total (sensor_versions : list installer) :
  Forall known_platform sensor_versions ->
  exists version_map, get_version_map sensor_versions = Returned version_map.
Proof.
  unfold get_version_map.
  generalize initial_map_tracked.
  generalize (@nil installer) as done.
  generalize [("windows", @nil (string * os_detail)); ("mac", []);
              ("linux", [])] as vm.
  induction sensor_versions as [|v rest IH]; intros vm done Hinv Hall;
    simpl; [eexists; reflexivity|].
  inversion Hall as [|? ? Hv Hrest]; subst.
  destruct (track_returns vm v (proj1 Hinv) Hv) as [vm1 Hstep].
  rewrite Hstep; apply (IH vm1 (done ++ [v])); [|exact Hrest].
  apply (track_keeps_invariant vm); assumption.
Qed.

(** C10: in the map [get_version_map] returns, the bucket stored under a
    platform and a key holds, as [current], [previous] and [oldest], the
    first, second and third installer of the list that counts for that
    platform and key, an entry being absent exactly when the list has no
    such installer.  So every bucket has a [current] entry, a [previous]
    entry only together with [current], and an [oldest] entry only together
    with both. *)
Theorem version_lineage_in_order (sensor_versions : list installer)
    (version_map : dict (dict os_detail)) (plat key : string)
    (buckets : dict os_detail) (d : os_detail) :
  get_version_map sensor_versions = Returned version_map ->
  get version_map plat = Some buckets ->
  get buckets key = Some d ->
  lineage_in_order d
  /\ current d = nth_error (feeding plat key sensor_versions) 0
  /\ previous d = nth_error (feeding plat key sensor_versions) 1
  /\ oldest d = nth_error (feeding plat key sensor_versions) 2.
Proof.
  intros Hrun Hplat Hkey.
  pose proof (track_all_keeps_invariant sensor_versions _ _ []
                initial_map_tracked Hrun) as [_ Hinv].
  destruct (Hinv plat buckets Hplat) as [_ Hb].
  apply lineage_of_in_order; rewrite <- Hb; exact Hkey.
Qed.

Lemma version_lineage_in_order_witness :
  let d := {| current := Some (rhel9_entry "a");
              previous := Some (rhel9_entry "b");
              oldest := Some (rhel9_entry "c") |} in
  let sensor_versions := [rhel9 "a"; rhel9 "b"; rhel9 "c"; rhel9 "d"] in
  get_version_map sensor_versions
  = Returned [("windows", []); ("mac", []); ("linux", [("RHEL 9", d)])]
  /\ lineage_in_order d
  /\ current d = nth_error (feeding "linux" "RHEL 9" sensor_versions) 0
  /\ previous d = nth_error (feeding "linux" "RHEL 9" sensor_versions) 1
  /\ oldest d = nth_error (feeding "linux" "RHEL 9" sensor_versions) 2.
Proof.
  intros d sensor_versions.
  assert (Hrun : get_version_map sensor_versions
                 = Returned [("windows", []); ("mac", []);
                             ("linux", [("RHEL 9", d)])])
    by (vm_compute; reflexivity).
  split; [exact Hrun|].
  exact (version_lineage_in_order sensor_versions _ "linux" "RHEL 9"
           [("RHEL 9", d)] d Hrun eq_refl eq_refl).
Defined.

End SensorDownloadFacts.

(** ** Further facts about [falcon_host_search_site.py] *)

Module HostSearchMore.
Import Py Re HostSearch HostSearchSpec HostSearchMoreSpec HostSearchFacts.

(** *** [file_parse] *)

Lemma filter_split_length {A : Type} (f : A -> bool) (l : list A) :
  (List.length (filter f l) + List.length (filter (fun x => negb (f x)) l)
   = List.length l)%nat.
Proof.
  rewrite <- length_app.
  apply Permutation_length, filter_split_perm.
Qed.

(** X1: [file_parse] never truncates.  It answers [(False, False)] exactly
    when more than 5000 non-empty lines were submitted, and otherwise two
    lists that together have one token per non-empty line. *)
Theorem file_parse_keeps_or_rejects (submitted_list : string) :
  (5000 < len (clean_list submitted_list)
   /\ file_parse submitted_list = (PyFalse, PyFalse))
  \/ (len (clean_list submitted_list) <= 5000
      /\ exists inames hnames,
           file_parse submitted_list = (PyList inames, PyList hnames)
           /\ len inames + len hnames = len (clean_list submitted_list)).
Proof.
  destruct (Z.lt_ge_cases 5000 (len (clean_list submitted_list)))
    as [Hbig|Hsmall].
  - left; split; [exact Hbig|apply file_parse_large, Hbig].
  - right; split; [exact Hsmall|].
    eexists _, _; split; [apply file_parse_small, Hsmall|].
    unfold len; rewrite <- Nat2Z.inj_add, filter_split_length, length_map.
    reflexivity.
Qed.

(** X2: no token that [file_parse] returns contains a ['.'] or a newline. *)
Theorem tokens_have_no_dot (submitted_list : string)
    (inames hnames : list string) (token : string) :
  file_parse submitted_list = (PyList inames, PyList hnames) ->
  In token (inames ++ hnames) ->
  has_dot token = false /\ no_newline token = true.
Proof.
  intros Hparse Hin.
  assert (Hsmall : len (clean_list submitted_list) <= 5000).
  { destruct (Z.lt_ge_cases 5000 (len (clean_list submitted_list)))
      as [Hbig|Hsmall]; [|exact Hsmall].
    rewrite (file_parse_large _ Hbig) in Hparse; discriminate Hparse. }
  rewrite (file_parse_small _ Hsmall) in Hparse.
  injection Hparse as <- <-.
  assert (Htok : In token (map sub_dot_rest (clean_list submitted_list))).
  { apply in_app_or in Hin; destruct Hin as [Hin|Hin];
      apply filter_In in Hin; apply Hin. }
  apply in_map_iff in Htok; destruct Htok as [line [<- Hline]].
  destruct (sub_dot_rest_cut line (clean_list_no_newline _ _ Hline))
    as [[Hdot _] Hnl].
  split; assumption.
Qed.

Lemma tokens_have_no_dot_witness :
  has_dot "host1" = false /\ no_newline "host1" = true.
Proof.
  apply (tokens_have_no_dot
           ("host1.example.com" ++ line_break ++ "i-0abc123.region")%string
           ["i-0abc123"] ["host1"] "host1").
  - vm_compute; reflexivity.
  - right; left; reflexivity.
Defined.

Lemma split_newline_app (a b : string) :
  split_newline (a ++ String newline b)%string
  = split_newline a ++ split_newline b.
Proof.
  induction a as [|c a IH]; simpl.
  - reflexivity.
  - destruct (Ascii.eqb c newline); [rewrite IH; reflexivity|].
    rewrite IH.
    destruct (split_newline a) as [|p ps] eqn:E;
      [exfalso; exact (split_newline_not_nil a E)|reflexivity].
Qed.

Lemma clean_list_app (a b : string) :
  clean_list (a ++ String newline b)%string = clean_list a ++ clean_list b.
Proof.
  unfold clean_list, remove_all_empty.
  rewrite split_newline_app, map_app, filter_app; reflexivity.
Qed.

(** X3: parsing two texts joined by a newline.  The non-empty lines are those
    of the first text followed by those of the second; when they are at most
    5000 together, each list of the joined text is the list of the first text
    followed by the list of the second, and when they are more the joined
    text is rejected. *)
Theorem file_parse_of_joined_texts (a b : string) :
  clean_list (a ++ line_break ++ b)%string = clean_list a ++ clean_list b
  /\ (len (clean_list a) + len (clean_list b) <= 5000 ->
      exists ia ha ib hb,
        file_parse a = (PyList ia, PyList ha)
        /\ file_parse b = (PyList ib, PyList hb)
        /\ file_parse (a ++ line_break ++ b)%string
           = (PyList (ia ++ ib), PyList (ha ++ hb)))
  /\ (5000 < len (clean_list a) + len (clean_list b) ->
      file_parse (a ++ line_break ++ b)%string = (PyFalse, PyFalse)).
Proof.
  assert (Hclean : clean_list (a ++ line_break ++ b)%string
                   = clean_list a ++ clean_list b)
    by apply clean_list_app.
  assert (Hlen : len (clean_list (a ++ line_break ++ b)%string)
                 = len (clean_list a) + len (clean_list b)).
  { rewrite Hclean; unfold len; rewrite length_app; lia. }
  split; [exact Hclean|]. split.
  - intros Hsmall.
    assert (Ha : 0 <= len (clean_list a)) by (unfold len; lia).
    assert (Hb : 0 <= len (clean_list b)) by (unfold len; lia).
    eexists _, _, _, _.
    split; [apply file_parse_small; lia|].
    split; [apply file_parse_small; lia|].
    rewrite file_parse_small by lia.
    rewrite Hclean, map_app, !filter_app; reflexivity.
  - intros Hbig; apply file_parse_large; lia.
Qed.

Lemma file_parse_of_joined_texts_witness :
  exists ia ha ib hb,
    file_parse "i-0abc.region" = (PyList ia, PyList ha)
    /\ file_parse "web01" = (PyList ib, PyList hb)
    /\ file_parse ("i-0abc.region" ++ line_break ++ "web01")%string
       = (PyList (ia ++ ib), PyList (ha ++ hb)).
Proof.
  apply (proj1 (proj2 (file_parse_of_joined_texts "i-0abc.region" "web01"))).
  vm_compute; intros H; discriminate H.
Defined.

(** *** [cs_query_devices] *)

Lemma task_call_is_search (t : task) : is_search (task_call t).
Proof. destruct t; eexists; reflexivity. Qed.

(** X4: under every schedule the resolver makes exactly one search per
    submitted name, each limited to 50 results and sorted by
    [last_seen.desc], and nothing else; the schedule only decides the order
    of the searches. *)
Theorem one_search_per_name (falcon : Hosts) (sched : schedule)
    (inames hnames : list string) (log : list call) :
  exists aid_list rows calls,
    cs_query_devices falcon sched (PyList inames) (PyList hnames) log
    = (Returned (aid_list, rows), log ++ calls)
    /\ Permutation calls (map task_call (submitted inames hnames))
    /\ List.length calls = (List.length inames + List.length hnames)%nat
    /\ Forall is_search calls.
Proof.
  eexists _, _, _; split; [apply cs_query_devices_returns|].
  pose proof (finishing_order_perm sched inames hnames) as Hperm.
  split; [apply Permutation_map, Hperm|]. split.
  - rewrite length_map, (Permutation_length Hperm).
    unfold submitted; rewrite length_app, !length_map; reflexivity.
  - apply Forall_forall; intros c Hc.
    apply in_map_iff in Hc; destruct Hc as [t [<- _]].
    apply task_call_is_search.
Qed.

Lemma rows_of_reply_length (falcon : Hosts) (t : task) :
  List.length (rows_of_reply t (reply falcon t))
  = if unmatched falcon t then 1%nat else 0%nat.
Proof.
  unfold rows_of_reply, unmatched, matched.
  destruct (status_code (reply falcon t) =? 200); [|reflexivity].
  destruct (resources (reply falcon t)); reflexivity.
Qed.

Lemma unmatched_rows_length (falcon : Hosts) (ts : list task) :
  List.length (flat_map (fun t => rows_of_reply t (reply falcon t)) ts)
  = List.length (filter (unmatched falcon) ts).
Proof.
  induction ts as [|t ts IH]; simpl; [reflexivity|].
  rewrite length_app, IH, rows_of_reply_length.
  destruct (unmatched falcon t); reflexivity.
Qed.

Lemma filter_perm_length {A : Type} (f : A -> bool) (l l' : list A) :
  Permutation l l' ->
  List.length (filter f l) = List.length (filter f l').
Proof.
  induction 1 as [|x l l' _ IH|x y l|l l' l'' _ IH1 _ IH2]; simpl.
  - reflexivity.
  - destruct (f x); simpl; rewrite IH; reflexivity.
  - destruct (f x), (f y); reflexivity.
  - rewrite IH1; exact IH2.
Qed.

Lemma unmatched_rows (falcon : Hosts) (ts : list task) :
  flat_map (fun t => rows_of_reply t (reply falcon t)) ts
  = map (unmatched_row falcon) (filter (unmatched falcon) ts).
Proof.
  induction ts as [|t ts IH]; cbn [flat_map filter]; [reflexivity|].
  assert (Hrow : rows_of_reply t (reply falcon t)
                 = if unmatched falcon t then [unmatched_row falcon t]
                   else []).
  { unfold rows_of_reply, unmatched, matched, unmatched_row.
    destruct (status_code (reply falcon t) =? 200); [|reflexivity].
    destruct (resources (reply falcon t)); reflexivity. }
  rewrite IH, Hrow; destruct (unmatched falcon t); reflexivity.
Qed.

(** X5: two runs of the resolver on the same names against the same remote
    side, under two schedules, return the same rows up to their order; there
    is one row for each name whose search failed or matched nothing, the
    advice to try again or the name with [False], and none for the
    others. *)
Theorem rows_do_not_depend_on_schedule (falcon : Hosts)
    (sched sched' : schedule) (inames hnames : list string)
    (log log' : list call) :
  exists aid_list rows calls aid_list' rows' calls',
    cs_query_devices falcon sched (PyList inames) (PyList hnames) log
    = (Returned (aid_list, rows), calls)
    /\ cs_query_devices falcon sched' (PyList inames) (PyList hnames) log'
       = (Returned (aid_list', rows'), calls')
    /\ Permutation rows rows'
    /\ List.length rows
       = List.length (filter (unmatched falcon) (submitted inames hnames))
    /\ Permutation rows
         (map (unmatched_row falcon)
            (filter (unmatched falcon) (submitted inames hnames))).
Proof.
  eexists _, _, _, _, _, _.
  split; [apply cs_query_devices_returns|].
  split; [apply cs_query_devices_returns|].
  pose proof (finishing_order_perm sched inames hnames) as Hperm.
  pose proof (finishing_order_perm sched' inames hnames) as Hperm'.
  split; [|split].
  - apply Permutation_flat_map.
    apply (Permutation_trans Hperm (Permutation_sym Hperm')).
  - rewrite unmatched_rows_length; apply filter_perm_length, Hperm.
  - rewrite <- unmatched_rows; apply Permutation_flat_map, Hperm.
Qed.

(** X6: the resolver raises [TypeError] exactly when one of its two
    arguments is [False] instead of a list.  When the first is, nothing has
    been searched; when only the second is, every instance id has been
    searched before the error surfaces. *)
Theorem cs_query_devices_type_error (falcon : Hosts) (sched : schedule)
    (inames : list string) (other : pyvalue) (log : list call) :
  cs_query_devices falcon sched PyFalse other log = (Raised TypeError, log)
  /\ (exists calls,
         cs_query_devices falcon sched (PyList inames) PyFalse log
         = (Raised TypeError, log ++ calls)
         /\ Permutation calls (map task_call (map InameTask inames)))
  /\ (forall hnames,
         fst (cs_query_devices falcon sched (PyList inames) (PyList hnames)
                log)
         <> Raised TypeError).
Proof.
  split; [reflexivity|]. split.
  - eexists; split.
    + unfold cs_query_devices; rewrite run_tasks_calls; reflexivity.
    + apply Permutation_map, completion_order_perm.
  - intros hnames; rewrite cs_query_devices_returns; discriminate.
Qed.

(** *** [cs_detail_search] *)

(** The calls of the detail search: none, or the one fetch of the list it
    was given. *)
Lemma cs_detail_search_cases (falcon : Hosts)
    (aid_list : list aid_item) (rows : list string) (log : list call) :
  exists calls,
    snd (cs_detail_search falcon aid_list rows log) = log ++ calls
    /\ (calls = [] \/ calls = [GetDeviceDetails aid_list]).
Proof.
  destruct aid_list as [|a aid_list];
    [exists []; split; [symmetry; apply app_nil_r|left; reflexivity]|].
  destruct (Z.le_gt_cases (len (a :: aid_list)) 5000) as [Hle|Hgt].
  - exists [GetDeviceDetails (a :: aid_list)]; split; [|right; reflexivity].
    apply cs_detail_search_in_range; split; [|exact Hle].
    unfold len; simpl List.length; lia.
  - exists []; split; [|left; reflexivity].
    rewrite cs_detail_search_above by lia.
    symmetry; apply app_nil_r.
Qed.

(** X7: when [cs_detail_search] raises.  It raises [AttributeError] exactly
    for the empty list, before any call.  It raises [KeyError] exactly when
    the list has 1 to 5000 items and a detail returned lacks [hostname],
    [device_id], [agent_version], [last_seen], [first_seen] or [cid], and
    then the fetch has been made; a detail without [instance_id] or [tags]
    does not make it raise. *)
Theorem cs_detail_search_raises (falcon : Hosts)
    (aid_list : list aid_item) (rows : list string) (log : list call) :
  let run := cs_detail_search falcon aid_list rows log in
  (fst run = Raised AttributeError <-> aid_list = [])
  /\ (fst run = Raised KeyError
      <-> 1 <= len aid_list <= 5000
          /\ Exists lacks_key (get_device_details falcon aid_list))
  /\ (fst run = Raised AttributeError -> snd run = log)
  /\ (fst run = Raised KeyError ->
      snd run = log ++ [GetDeviceDetails aid_list]).
Proof.
  cbv zeta.
  destruct aid_list as [|a aid_list].
  - cbn; repeat split; try discriminate; try reflexivity.
    intros [[H _] _]; exfalso; apply H; reflexivity.
  - assert (Hpos : 1 <= len (a :: aid_list))
      by (unfold len; simpl List.length; lia).
    destruct (Z.le_gt_cases (len (a :: aid_list)) 5000) as [Hle|Hgt].
    + destruct (cs_detail_search_in_range falcon (a :: aid_list) rows log
                  (conj Hpos Hle))
        as [Hlog [[added [Hrun Hall]]|[Hrun Hex]]]; rewrite Hrun, Hlog.
      * pose proof (records_have_keys _ _ Hall) as Hkeys.
        repeat split; try discriminate; try reflexivity.
        intros [_ Hex]; contradiction.
      * repeat split; try discriminate; auto.
    + rewrite cs_detail_search_above by lia; cbn [fst snd].
      repeat split; try discriminate.
      intros [[_ H] _]; lia.
Qed.

Lemma count_char_app (c : ascii) (a b : string) :
  count_char c (a ++ b)%string = (count_char c a + count_char c b)%nat.
Proof.
  induction a as [|c' a IH]; simpl; [reflexivity|].
  rewrite IH; lia.
Qed.

Lemma no_comma_join (items : list string) :
  Forall no_comma items -> no_comma (join ";" items).
Proof.
  unfold no_comma, join.
  induction items as [|x [|y items] IH]; intros Hall; simpl.
  - reflexivity.
  - inversion Hall; assumption.
  - inversion Hall as [|? ? Hx Hrest]; subst.
    rewrite !count_char_app, Hx; simpl.
    apply (IH Hrest).
Qed.

Lemma no_comma_cid_name (cid : string) :
  no_comma (dict_get cid_dict cid "Name not found").
Proof.
  unfold cid_dict, dict_get.
  repeat match goal with
         | |- context [String.eqb ?a cid] => destruct (String.eqb a cid)
         end; reflexivity.
Qed.

(** X8: the row built from a detail that has the six indexed keys, and none
    of whose fields contains a comma, has exactly eight commas, so it splits
    into the nine columns of the page: joining the tags with [;] and naming
    the tenant from the table add none. *)
Theorem device_details_has_nine_columns (d : detail) (h i a l f c : string)
    (log : list call) :
  hostname d = Some h ->
  device_id d = Some i ->
  agent_version d = Some a ->
  last_seen d = Some l ->
  first_seen d = Some f ->
  cid d = Some c ->
  no_comma h ->
  no_comma a ->
  no_comma l ->
  no_comma f ->
  (forall ts, tags d = Some ts -> Forall no_comma ts) ->
  no_comma c ->
  (forall inst, instance_id d = Some inst -> no_comma inst) ->
  no_comma i ->
  exists row,
    device_details d log = (Returned row, log)
    /\ count_char "," row = 8%nat.
Proof.
  unfold no_comma; intros Eh Ei Ea El Ef Ec Hh Ha Hl Hf Ht Hc Hi Hd.
  destruct (device_details_outcome d log) as [[row [Hrun Hrec]]|[_ Hlack]].
  2:{ exfalso; unfold lacks_key in Hlack; intuition congruence. }
  exists row; split; [exact Hrun|].
  destruct Hrec
    as [h' [i' [a' [l' [f' [c' [Eh' [Ei' [Ea' [El' [Ef' [Ec' ->]]]]]]]]]]]].
  assert (h' = h) by congruence; assert (i' = i) by congruence.
  assert (a' = a) by congruence; assert (l' = l) by congruence.
  assert (f' = f) by congruence; assert (c' = c) by congruence.
  subst h' i' a' l' f' c'.
  assert (Htags : count_char "," (tags_column d) = 0%nat).
  { unfold tags_column; destruct (tags d) as [ts|]; [|reflexivity].
    apply no_comma_join, Ht; reflexivity. }
  assert (Hinst : count_char "," (instance_column d) = 0%nat).
  { unfold instance_column; destruct (instance_id d) as [inst|];
      [|reflexivity].
    apply Hi; reflexivity. }
  unfold join, tenant; cbn [String.concat].
  rewrite !count_char_app, Hh, Ha, Hl, Hf, Htags, Hinst, Hc, Hd.
  rewrite (no_comma_cid_name c); reflexivity.
Qed.

Lemma device_details_has_nine_columns_witness :
  exists row,
    device_details plain_detail [] = (Returned row, [])
    /\ count_char "," row = 8%nat.
Proof.
  apply (device_details_has_nine_columns plain_detail "db07" "aid-7" "7.04"
           "2024-03-01T00:00:00Z" "2022-03-01T00:00:00Z" "unlisted");
    try reflexivity.
  - intros ts H; injection H as <-; repeat constructor.
  - intros inst H; injection H as <-; reflexivity.
Defined.

(** *** [upload_file] *)

Lemma guard_is_false (submitted_list : string) :
  truthy (fst (file_parse submitted_list))
  && eq_False (snd (file_parse submitted_list)) = false.
Proof.
  unfold file_parse.
  destruct (5000 <? len (clean_list submitted_list)); [reflexivity|].
  destruct (fold_left classify (clean_list submitted_list) ([], []))
    as [inames hnames]; simpl.
  apply andb_false_r.
Qed.

(** X9: the test of line 213 is false for every submitted text, so the branch
    that would answer with the too-many-names row is never taken:
    [upload_file] always goes on to the resolver and the detail search. *)
Theorem advisory_branch_is_unreachable (falcon : Hosts) (sched : schedule)
    (submitted_list : string) (log : list call) :
  truthy (fst (file_parse submitted_list))
  && eq_False (snd (file_parse submitted_list)) = false
  /\ upload_file_rows falcon sched submitted_list log
     = bind
         (cs_query_devices falcon sched (fst (file_parse submitted_list))
            (snd (file_parse submitted_list)))
         (fun found => cs_detail_search falcon (fst found) (snd found)) log.
Proof.
  pose proof (guard_is_false submitted_list) as Hguard.
  split; [exact Hguard|].
  unfold upload_file_rows.
  destruct (file_parse submitted_list) as [iname_list hname_list].
  simpl in Hguard |- *; rewrite Hguard; unfold bind.
  destruct (cs_query_devices falcon sched iname_list hname_list log)
    as [[[aid_list rows]|e] log']; reflexivity.
Qed.

(** X10: for a submitted text with at most 5000 non-empty lines,
    [upload_file] makes one search per token, in the order the schedule
    gives, and after them at most one detail fetch; it makes no other
    call. *)
Theorem upload_file_calls (falcon : Hosts) (sched : schedule)
    (submitted_list : string) :
  len (clean_list submitted_list) <= 5000 ->
  exists searches fetch,
    snd (upload_file falcon sched submitted_list []) = searches ++ fetch
    /\ Permutation searches (map task_call (tasks_of submitted_list))
    /\ Forall is_search searches
    /\ (fetch = [] \/ exists ids, fetch = [GetDeviceDetails ids]).
Proof.
  intros Hsmall.
  exists (map task_call
            (finishing_order sched
               (filter match_i_dash
                  (map sub_dot_rest (clean_list submitted_list)))
               (filter (fun t => negb (match_i_dash t))
                  (map sub_dot_rest (clean_list submitted_list))))).
  unfold upload_file, upload_file_rows, bind.
  rewrite (file_parse_small _ Hsmall); cbn [eq_False].
  rewrite andb_false_r, cs_query_devices_returns; cbv zeta.
  match goal with
  | |- context [cs_detail_search falcon ?a ?r ?l] =>
      destruct (cs_detail_search_cases falcon a r l)
        as [calls [Hlog Hcalls]];
      destruct (cs_detail_search falcon a r l) as [[rows|e] log']
  end; cbn [fst snd] in Hlog |- *; subst log'.
  - exists calls.
    split; [reflexivity|].
    split; [apply Permutation_map, finishing_order_perm|].
    split.
    + apply Forall_forall; intros c Hc.
      apply in_map_iff in Hc; destruct Hc as [t [<- _]].
      apply task_call_is_search.
    + destruct Hcalls as [->| ->]; [left; reflexivity|right; eexists].
      reflexivity.
  - exists calls.
    split; [reflexivity|].
    split; [apply Permutation_map, finishing_order_perm|].
    split.
    + apply Forall_forall; intros c Hc.
      apply in_map_iff in Hc; destruct Hc as [t [<- _]].
      apply task_call_is_search.
    + destruct Hcalls as [->| ->]; [left; reflexivity|right; eexists].
      reflexivity.
Qed.

Lemma upload_file_calls_witness :
  exists searches fetch,
    snd (upload_file falcon_one lookups_first "web01" []) = searches ++ fetch
    /\ Permutation searches (map task_call (tasks_of "web01")).
Proof.
  assert (Hsmall : len (clean_list "web01") <= 5000)
    by (vm_compute; intros H; discriminate H).
  destruct (upload_file_calls falcon_one lookups_first "web01" Hsmall)
    as [searches [fetch [Hlog [Hperm _]]]].
  exists searches, fetch; split; [exact Hlog|exact Hperm].
Defined.

End HostSearchMore.

(** ** Further facts about [get_version_map] *)

Module SensorDownloadMore.
Import Py SensorDownload SensorDownloadSpec SensorScript SensorMoreSpec.
Import SensorDownloadFacts.

Lemma known_or_unknown (v : installer) :
  known_platform v \/ unknown_platform v.
Proof.
  unfold known_platform, unknown_platform.
  destruct (truthy_str (platform v) && truthy_str (os v));
    [|left; discriminate].
  destruct (in_dec string_dec (fmt (platform v)) platforms) as [Hin|Hnot];
    [left; auto|right; auto].
Qed.

Lemma known_not_unknown (v : installer) :
  known_platform v -> unknown_platform v -> False.
Proof. intros Hk [Ht Hn]; exact (Hn (Hk Ht)). Qed.

Lemma track_raises (version_map : dict (dict os_detail)) (v : installer) :
  keys version_map = platforms ->
  unknown_platform v ->
  track version_map v = Raised KeyError.
Proof.
  intros Hkeys [Htruthy Hnot]; unfold track; rewrite Htruthy.
  rewrite <- Hkeys in Hnot.
  rewrite (get_absent _ _ Hnot); simpl.
  rewrite (get_absent _ _ Hnot); reflexivity.
Qed.

Lemma track_all_outcome (rest : list installer) :
  forall version_map done,
    tracked_so_far version_map done ->
    (Forall known_platform rest
     /\ exists version_map', track_all version_map rest = Returned version_map')
    \/ (Exists unknown_platform rest
        /\ track_all version_map rest = Raised KeyError).
Proof.
  induction rest as [|v rest IH]; intros vm done Hinv; simpl.
  - left; split; [constructor|eexists; reflexivity].
  - destruct (known_or_unknown v) as [Hknown|Hunknown].
    + destruct (track_returns vm v (proj1 Hinv) Hknown) as [vm1 Hstep].
      rewrite Hstep.
      destruct (IH vm1 (done ++ [v])
                  (track_keeps_invariant vm vm1 done v Hinv Hstep))
        as [[Hall Hret]|[Hex Hraise]].
      * left; split; [constructor; assumption|exact Hret].
      * right; split; [apply Exists_cons_tl, Hex|exact Hraise].
    + right; split; [apply Exists_cons_hd, Hunknown|].
      rewrite (track_raises vm v (proj1 Hinv) Hunknown); reflexivity.
Qed.

Lemma all_known_none_unknown (vs : list installer) :
  Forall known_platform vs -> Exists unknown_platform vs -> False.
Proof.
  intros Hall Hex; apply Exists_exists in Hex.
  destruct Hex as [v [Hin Hunknown]].
  rewrite Forall_forall in Hall.
  exact (known_not_unknown v (Hall v Hin) Hunknown).
Qed.

Lemma get_version_map_raises_iff_lemma (sensor_versions : list installer) :
  (Forall known_platform sensor_versions
   <-> exists version_map,
         get_version_map sensor_versions = Returned version_map)
  /\ (Exists unknown_platform sensor_versions
      <-> get_version_map sensor_versions = Raised KeyError).
Proof.
  unfold get_version_map.
  destruct (track_all_outcome sensor_versions _ [] initial_map_tracked)
    as [[Hall [vm Hret]]|[Hex Hraise]].
  - split; split; intros H.
    + exists vm; exact Hret.
    + exact Hall.
    + exfalso; exact (all_known_none_unknown _ Hall H).
    + rewrite Hret in H; discriminate H.
  - split; split; intros H.
    + exfalso; exact (all_known_none_unknown _ H Hex).
    + destruct H as [vm H]; rewrite Hraise in H; discriminate H.
    + exact Hraise.
    + exact Hex.
Qed.

(** X11: [get_version_map] returns a map exactly when every installer with a
    platform and an OS name is on one of the platforms [windows], [mac] and
    [linux]; otherwise, and only then, it raises [KeyError]. *)
Theorem get_version_map_raises_iff (sensor_versions : list installer) :
  (Forall known_platform sensor_versions
   <-> exists version_map,
         get_version_map sensor_versions = Returned version_map)
  /\ (Exists unknown_platform sensor_versions
      <-> get_version_map sensor_versions = Raised KeyError).
Proof. apply get_version_map_raises_iff_lemma. Qed.

Lemma returned_map_tracked (sensor_versions : list installer)
    (version_map : dict (dict os_detail)) :
  get_version_map sensor_versions = Returned version_map ->
  tracked_so_far version_map sensor_versions.
Proof.
  intros Hrun.
  exact (track_all_keeps_invariant sensor_versions _ _ []
           initial_map_tracked Hrun).
Qed.

Lemma bucket_is_lineage (sensor_versions : list installer)
    (version_map : dict (dict os_detail)) (plat key : string) :
  get_version_map sensor_versions = Returned version_map ->
  In plat platforms ->
  bucket version_map plat key
  = lineage_of (feeding plat key sensor_versions).
Proof.
  intros Hrun Hplat.
  destruct (returned_map_tracked _ _ Hrun) as [Hkeys Hinv].
  unfold bucket.
  destruct (get version_map plat) as [buckets|] eqn:Hget.
  - apply (Hinv plat buckets Hget).
  - exfalso; rewrite <- Hkeys in Hplat.
    exact (get_present _ _ Hplat Hget).
Qed.

Lemma lineage_slots (es : list entry) (d : os_detail) :
  lineage_of es = Some d -> slots_filled d = Nat.min 3 (List.length es).
Proof.
  destruct es as [|e1 [|e2 [|e3 es]]]; simpl; try discriminate;
    intros H; injection H as <-; reflexivity.
Qed.

(** X12: the map that [get_version_map] returns has the three platform keys
    and no other.  Under a platform it has a bucket for a key exactly when
    some installer of the list counts for that platform and key, and the
    bucket then holds as many entries as there are such installers, up to
    three. *)
Theorem buckets_are_the_fed_ones (sensor_versions : list installer)
    (version_map : dict (dict os_detail)) :
  get_version_map sensor_versions = Returned version_map ->
  keys version_map = platforms
  /\ (forall plat key,
         ~ In plat platforms -> bucket version_map plat key = None)
  /\ (forall plat key,
         In plat platforms ->
         (bucket version_map plat key <> None
          <-> exists v, In v sensor_versions /\ feeds plat key v = true))
  /\ (forall plat key d,
         bucket version_map plat key = Some d ->
         slots_filled d
         = Nat.min 3 (List.length (filter (feeds plat key) sensor_versions))).
Proof.
  intros Hrun.
  destruct (returned_map_tracked _ _ Hrun) as [Hkeys Hinv].
  split; [exact Hkeys|]. split; [|split].
  - intros plat key Hnot; unfold bucket.
    rewrite <- Hkeys in Hnot; rewrite (get_absent _ _ Hnot); reflexivity.
  - intros plat key Hplat.
    rewrite (bucket_is_lineage _ _ plat key Hrun Hplat).
    unfold feeding; split.
    + destruct (filter (feeds plat key) sensor_versions) as [|v l] eqn:E;
        [intros H; exfalso; apply H; reflexivity|intros _].
      assert (Hv : In v (filter (feeds plat key) sensor_versions))
        by (rewrite E; left; reflexivity).
      apply filter_In in Hv; exists v; exact Hv.
    + intros [v Hv]; apply filter_In in Hv.
      destruct (filter (feeds plat key) sensor_versions); [destruct Hv|].
      discriminate.
  - intros plat key d Hd.
    destruct (in_dec string_dec plat platforms) as [Hplat|Hnot].
    + rewrite (bucket_is_lineage _ _ plat key Hrun Hplat) in Hd.
      rewrite (lineage_slots _ _ Hd); unfold feeding.
      rewrite length_map; reflexivity.
    + unfold bucket in Hd; rewrite <- Hkeys in Hnot.
      rewrite (get_absent _ _ Hnot) in Hd; discriminate Hd.
Qed.

Lemma buckets_are_the_fed_ones_witness :
  exists version_map,
    get_version_map [rhel9 "a"; rhel9 "b"; rhel9 "c"; rhel9 "d"]
    = Returned version_map
    /\ keys version_map = platforms.
Proof.
  eexists; split; [vm_compute; reflexivity|].
  apply (buckets_are_the_fed_ones
           [rhel9 "a"; rhel9 "b"; rhel9 "c"; rhel9 "d"]).
  vm_compute; reflexivity.
Defined.

Lemma track_all_app (first rest : list installer) :
  forall version_map,
    track_all version_map (first ++ rest)
    = match track_all version_map first with
      | Returned version_map' => track_all version_map' rest
      | Raised e => Raised e
      end.
Proof.
  induction first as [|v first IH]; intros vm; simpl; [reflexivity|].
  destruct (track vm v); [apply IH|reflexivity].
Qed.

Lemma feeding_app (plat key : string) (first rest : list installer) :
  feeding plat key (first ++ rest)
  = feeding plat key first ++ feeding plat key rest.
Proof. unfold feeding; rewrite filter_app, map_app; reflexivity. Qed.

Lemma lineage_of_app (es more : list entry) (d : os_detail) :
  lineage_of es = Some d ->
  exists d',
    lineage_of (es ++ more) = Some d'
    /\ current d' = current d
    /\ (previous d <> None -> previous d' = previous d)
    /\ (oldest d <> None -> oldest d' = oldest d).
Proof.
  destruct es as [|e1 es]; simpl; [discriminate|].
  intros H; injection H as <-; eexists; split; [reflexivity|]; simpl.
  split; [reflexivity|]. split; intros Hsome.
  - destruct es as [|e2 es]; [contradiction|reflexivity].
  - destruct es as [|e2 [|e3 es]]; try contradiction; reflexivity.
Qed.

(** X13: [get_version_map] never replaces an entry.  When the list is
    extended at its end, every bucket of the first map is still in the second
    with the same [current] entry, and the same [previous] and [oldest]
    entries where it had them. *)
Theorem entries_are_never_replaced (sensor_versions more : list installer)
    (version_map version_map' : dict (dict os_detail))
    (plat key : string) (d : os_detail) :
  get_version_map sensor_versions = Returned version_map ->
  get_version_map (sensor_versions ++ more) = Returned version_map' ->
  bucket version_map plat key = Some d ->
  exists d',
    bucket version_map' plat key = Some d'
    /\ current d' = current d
    /\ (previous d <> None -> previous d' = previous d)
    /\ (oldest d <> None -> oldest d' = oldest d).
Proof.
  intros Hrun Hrun' Hd.
  destruct (in_dec string_dec plat platforms) as [Hplat|Hnot].
  - rewrite (bucket_is_lineage _ _ plat key Hrun Hplat) in Hd.
    rewrite (bucket_is_lineage _ _ plat key Hrun' Hplat), feeding_app.
    apply lineage_of_app, Hd.
  - exfalso; unfold bucket in Hd.
    destruct (returned_map_tracked _ _ Hrun) as [Hkeys _].
    rewrite <- Hkeys in Hnot.
    rewrite (get_absent _ _ Hnot) in Hd; discriminate Hd.
Qed.

Lemma entries_are_never_replaced_witness :
  exists d',
    bucket [("windows", []); ("mac", []);
            ("linux", [("RHEL 9",
                        {| current := Some (rhel9_entry "a");
                           previous := Some (rhel9_entry "b");
                           oldest := None |})])]
      "linux" "RHEL 9" = Some d'
    /\ current d' = Some (rhel9_entry "a").
Proof.
  destruct (entries_are_never_replaced [rhel9 "a"] [rhel9 "b"]
              [("windows", []); ("mac", []);
               ("linux", [("RHEL 9", fresh (rhel9_entry "a"))])]
              [("windows", []); ("mac", []);
               ("linux", [("RHEL 9",
                           {| current := Some (rhel9_entry "a");
                              previous := Some (rhel9_entry "b");
                              oldest := None |})])]
              "linux" "RHEL 9" (fresh (rhel9_entry "a"))
              eq_refl eq_refl eq_refl)
    as [d' [Hd' [Hcur _]]].
  exists d'; split; [exact Hd'|exact Hcur].
Defined.

Lemma set_same {V : Type} (d : dict V) (k : string) (x : V) :
  get d k = Some x -> set d k x = d.
Proof.
  induction d as [|[k0 y] d IH]; simpl; [discriminate|].
  destruct (String.eqb k0 k) eqn:E.
  - intros H; injection H as ->; reflexivity.
  - intros H; rewrite (IH H); reflexivity.
Qed.

Lemma track_uncounted (version_map : dict (dict os_detail)) (v : installer) :
  truthy_str (platform v) && truthy_str (os v) = false ->
  track version_map v = Returned version_map.
Proof. intros H; unfold track; rewrite H; reflexivity. Qed.

Lemma track_full_bucket (version_map : dict (dict os_detail))
    (done : list installer) (v : installer) :
  tracked_so_far version_map done ->
  In (fmt (platform v)) platforms ->
  truthy_str (platform v) && truthy_str (os v) = true ->
  (3 <= List.length
          (feeding (fmt (platform v))
             (bucket_key (os v) (os_version v)) done))%nat ->
  track version_map v = Returned version_map.
Proof.
  intros [Hkeys Hinv] Hplat Htruthy Hfull; unfold track; rewrite Htruthy.
  rewrite <- Hkeys in Hplat.
  destruct (get version_map (fmt (platform v))) as [buckets|] eqn:HgetP;
    [|exfalso; exact (get_present _ _ Hplat HgetP)].
  destruct (Hinv _ buckets HgetP) as [Hnd Hb].
  specialize (Hb (bucket_key (os v) (os_version v))).
  destruct (feeding (fmt (platform v)) (bucket_key (os v) (os_version v))
              done) as [|e1 [|e2 [|e3 es]]]; simpl in Hfull; try lia.
  simpl in Hb.
  destruct (visit_items_present _ (entry_of v) _ buckets Hnd Hb)
    as [fl [Hvisit Hfl]].
  rewrite Hvisit, Hfl.
  unfold fill; simpl; rewrite (set_same _ _ _ Hb), (set_same _ _ _ HgetP).
  reflexivity.
Qed.

(** X14: an installer added at the end of the list changes nothing in the
    returned map when it has no platform or no OS name, or when three
    installers of the list already count for its platform and key: a bucket
    keeps the three newest installers of a list sorted newest first and
    ignores the rest. *)
Theorem lineage_stops_at_three (sensor_versions : list installer)
    (version_map : dict (dict os_detail)) (v : installer) :
  get_version_map sensor_versions = Returned version_map ->
  truthy_str (platform v) && truthy_str (os v) = false
  \/ (3 <= List.length
             (filter (feeds (fmt (platform v))
                        (bucket_key (os v) (os_version v)))
                sensor_versions))%nat ->
  get_version_map (sensor_versions ++ [v]) = Returned version_map.
Proof.
  intros Hrun Hcase.
  unfold get_version_map in *; rewrite track_all_app, Hrun; simpl.
  destruct Hcase as [Hnone|Hfull];
    [rewrite (track_uncounted _ _ Hnone); reflexivity|].
  destruct (truthy_str (platform v) && truthy_str (os v)) eqn:Htruthy;
    [|rewrite (track_uncounted _ _ Htruthy); reflexivity].
  pose proof (track_all_keeps_invariant sensor_versions _ _ []
                initial_map_tracked Hrun) as Hinv.
  assert (Hplat : In (fmt (platform v)) platforms).
  { destruct (filter (feeds (fmt (platform v))
                        (bucket_key (os v) (os_version v)))
                sensor_versions) as [|v0 l] eqn:E; [simpl in Hfull; lia|].
    assert (Hv0 : In v0 (filter (feeds (fmt (platform v))
                                   (bucket_key (os v) (os_version v)))
                           sensor_versions))
      by (rewrite E; left; reflexivity).
    apply filter_In in Hv0; destruct Hv0 as [Hin0 Hfeeds].
    unfold feeds in Hfeeds.
    apply andb_prop in Hfeeds; destruct Hfeeds as [Hfeeds _].
    apply andb_prop in Hfeeds; destruct Hfeeds as [Ht0 Hp0].
    apply String.eqb_eq in Hp0; rewrite <- Hp0.
    destruct (track_all_outcome sensor_versions _ [] initial_map_tracked)
      as [[Hall _]|[_ Hraise]];
      [|rewrite Hraise in Hrun; discriminate Hrun].
    rewrite Forall_forall in Hall; exact (Hall v0 Hin0 Ht0). }
  rewrite (track_full_bucket _ sensor_versions v Hinv Hplat Htruthy);
    [reflexivity|].
  unfold feeding; rewrite length_map; exact Hfull.
Qed.

Lemma lineage_stops_at_three_witness :
  get_version_map ([rhel9 "a"; rhel9 "b"; rhel9 "c"] ++ [rhel9 "d"])
  = Returned
      [("windows", []); ("mac", []);
       ("linux", [("RHEL 9",
                   {| current := Some (rhel9_entry "a");
                      previous := Some (rhel9_entry "b");
                      oldest := Some (rhel9_entry "c") |})])].
Proof.
  apply (lineage_stops_at_three [rhel9 "a"; rhel9 "b"; rhel9 "c"]).
  - vm_compute; reflexivity.
  - right; vm_compute; lia.
Defined.

End SensorDownloadMore.

(** ** Facts about the command line and the script body of
    [sensor_download.py] *)

Module SensorScriptFacts.
Import Py SensorDownload SensorDownloadSpec SensorScript SensorMoreSpec.
Import SensorDownloadFacts SensorDownloadMore.

(** *** [create_constants] *)

Lemma is_empty_lower (s : string) : is_empty (lower s) = is_empty s.
Proof. destruct s; reflexivity. Qed.

Lemma os_name_of_shape (given : string) :
  os_name_of given = EmptyString \/ In (os_name_of given) os_names.
Proof.
  unfold os_name_of.
  destruct (negb (is_empty given)); [|left; reflexivity].
  repeat match goal with
         | |- context [str_in ?a ?l] => destruct (str_in a l)
         end;
    first [left; reflexivity | right; simpl; tauto].
Qed.

Lemma os_name_of_lower (given given' : string) :
  lower given = lower given' -> os_name_of given = os_name_of given'.
Proof.
  intros H; unfold os_name_of.
  rewrite <- (is_empty_lower given), <- (is_empty_lower given'), H.
  reflexivity.
Qed.

Lemma str_in_In (x : string) (l : list string) :
  str_in x l = true <-> In x l.
Proof.
  unfold str_in; rewrite existsb_exists; split.
  - intros [y [Hin Heq]]; apply String.eqb_eq in Heq; subst y; exact Hin.
  - intros Hin; exists x; split; [exact Hin|apply String.eqb_refl].
Qed.

Lemma os_name_of_recognised (given : string) :
  os_name_of given <> EmptyString <-> In (lower given) spellings.
Proof.
  split.
  - unfold os_name_of.
    destruct (negb (is_empty given)); [|intros H; contradiction].
    repeat match goal with
           | |- context [str_in ?a ?l] =>
               let E := fresh "E" in
               destruct (str_in a l) eqn:E;
               [apply str_in_In in E|clear E]
           end;
      intros Hne; try contradiction;
      unfold spellings; simpl in *; tauto.
  - intros Hin; unfold os_name_of.
    rewrite <- (is_empty_lower given).
    unfold spellings in Hin; simpl in Hin.
    repeat destruct Hin as [Hin|Hin]; try contradiction;
      rewrite <- Hin; vm_compute; discriminate.
Qed.

(** X15: the filter that [create_constants] builds is either empty or
    [os:'N'] for one of eight fixed names [N].  It depends on the [--os]
    argument only up to letter case, and it is empty, which selects every
    OS, exactly when the argument in lower case is none of the recognised
    spellings. *)
Theorem os_filter_is_one_of_nine (args : arguments) :
  (OS_FILTER (create_constants args) = EmptyString
   \/ exists n,
        In n os_names
        /\ OS_FILTER (create_constants args) = ("os:'" ++ n ++ "'")%string)
  /\ (forall args',
         lower (args_os args) = lower (args_os args') ->
         OS_FILTER (create_constants args')
         = OS_FILTER (create_constants args))
  /\ (OS_FILTER (create_constants args) = EmptyString
      <-> ~ In (lower (args_os args)) spellings).
Proof.
  unfold create_constants; cbn [OS_FILTER]; split; [|split].
  - destruct (os_name_of_shape (args_os args)) as [Hnone|Hin].
    + left; rewrite Hnone; reflexivity.
    + right; exists (os_name_of (args_os args)); split; [exact Hin|].
      destruct (os_name_of (args_os args)); [|reflexivity].
      simpl in Hin; repeat destruct Hin as [Hin|Hin]; try discriminate Hin.
      destruct Hin.
  - intros args' H; rewrite (os_name_of_lower _ _ H); reflexivity.
  - rewrite <- os_name_of_recognised.
    destruct (os_name_of (args_os args)); simpl; split; intros H.
    + intros Hne; apply Hne; reflexivity.
    + reflexivity.
    + discriminate H.
    + exfalso; apply H; discriminate.
Qed.

(** *** Which command runs *)

Lemma prefix_spec (needle : string) :
  forall hay,
    String.prefix needle hay = true
    <-> exists after, hay = (needle ++ after)%string.
Proof.
  induction needle as [|a needle IH]; intros hay.
  - split; [intros _; exists hay; reflexivity|].
    intros _; destruct hay; reflexivity.
  - destruct hay as [|b hay]; simpl.
    + split; [discriminate|intros [after H]; discriminate H].
    + destruct (ascii_dec a b) as [->|Hne].
      * rewrite IH; split; intros [after H]; exists after; congruence.
      * split; [discriminate|intros [after H]; congruence].
Qed.

Lemma contains_spec (needle : string) :
  forall hay, contains hay needle = true <-> occurs_in needle hay.
Proof.
  unfold occurs_in; induction hay as [|c hay IH]; cbn [contains].
  - rewrite orb_false_r, prefix_spec; split.
    + intros [after H]; exists EmptyString, after; exact H.
    + intros [[|c before] [after H]]; [exists after; exact H|].
      discriminate H.
  - rewrite orb_true_iff, prefix_spec, IH; split.
    + intros [[after H]|[before [after H]]].
      * exists EmptyString, after; exact H.
      * exists (String c before), after; simpl; congruence.
    + intros [[|c' before] [after H]].
      * left; exists after; exact H.
      * right; exists before, after; simpl in H; congruence.
Qed.

(** X16: which command the script runs after fetching the installer list.
    It lists when [CMD] occurs in ["list"] as a run of consecutive characters
    (the empty command included), downloads when it does not but occurs in
    ["download"], and answers [Stop mumbling!] otherwise; with [--download]
    given it downloads whatever [--command] says. *)
Theorem script_dispatch (args : arguments) (falcon : Falcon)
    (cwd : list string)
    (done : list action) :
  let c := create_constants args in
  let sensors := installers falcon (OS_FILTER c) in
  let fetched :=
    done ++ [GetCombinedSensorInstallersByQuery (OS_FILTER c)
               "release_date.desc"] in
  (occurs_in (CMD c) "list" ->
   script args falcon cwd done = list_command c sensors fetched)
  /\ (~ occurs_in (CMD c) "list" -> occurs_in (CMD c) "download" ->
      script args falcon cwd done
      = download_command c sensors falcon cwd fetched)
  /\ (~ occurs_in (CMD c) "list" -> ~ occurs_in (CMD c) "download" ->
      script args falcon cwd done
      = (Returned tt, fetched ++ [print "Stop mumbling!"]))
  /\ (args_download args = true ->
      script args falcon cwd done
      = download_command c sensors falcon cwd fetched).
Proof.
  intros c sensors fetched.
  assert (Hscript : script args falcon cwd done
                    = if contains "list" (CMD c) then
                        list_command c sensors fetched
                      else if contains "download" (CMD c) then
                        download_command c sensors falcon cwd fetched
                      else (Returned tt, fetched ++ [print "Stop mumbling!"])).
  { unfold script, io_bind, perform; fold c; fold sensors; fold fetched.
    destruct (contains "list" (CMD c)); [reflexivity|].
    destruct (contains "download" (CMD c)); reflexivity. }
  rewrite Hscript; clear Hscript.
  pose proof (contains_spec (CMD c) "list") as Hlist.
  pose proof (contains_spec (CMD c) "download") as Hdown.
  repeat split.
  - intros H; apply Hlist in H; rewrite H; reflexivity.
  - intros Hn H.
    destruct (contains "list" (CMD c));
      [exfalso; apply Hn, Hlist; reflexivity|].
    apply Hdown in H; rewrite H; reflexivity.
  - intros Hn Hn'.
    destruct (contains "list" (CMD c));
      [exfalso; apply Hn, Hlist; reflexivity|].
    destruct (contains "download" (CMD c));
      [exfalso; apply Hn', Hdown; reflexivity|reflexivity].
  - intros Hflag; subst c; unfold create_constants; cbn [CMD].
    rewrite Hflag; reflexivity.
Qed.

Lemma script_dispatch_witness :
  script
    {| args_key := "id"; args_secret := "secret"; args_all := true;
       args_download := true; args_nminus := None; args_command := "list";
       args_os := ""; args_osver := ""; args_filename := "";
       args_table_format := "fancy_grid" |} cloud [] []
  = download_command download_all catalogue cloud []
      [GetCombinedSensorInstallersByQuery "" "release_date.desc"].
Proof.
  exact (proj2 (proj2 (proj2
           (script_dispatch
              {| args_key := "id"; args_secret := "secret"; args_all := true;
                 args_download := true; args_nminus := None;
                 args_command := "list"; args_os := ""; args_osver := "";
                 args_filename := ""; args_table_format := "fancy_grid" |}
              cloud [] []))) eq_refl).
Defined.

(** *** The [list] command *)

Lemma get_remove_other {V : Type} (d : dict V) (k k' : string) :
  k' <> k -> get (remove d k) k' = get d k'.
Proof.
  intros Hne; induction d as [|[k0 x] d IH]; simpl; [reflexivity|].
  destruct (String.eqb k0 k) eqn:E; simpl.
  - apply String.eqb_eq in E; subst k0.
    destruct (String.eqb k k') eqn:E'; [|reflexivity].
    apply String.eqb_eq in E'; congruence.
  - rewrite IH; reflexivity.
Qed.

Lemma keys_remove_subset {V : Type} (d : dict V) (k k' : string) :
  In k' (keys (remove d k)) -> In k' (keys d).
Proof.
  induction d as [|[k0 x] d IH]; simpl; [tauto|].
  destruct (String.eqb k0 k); simpl; tauto.
Qed.

Lemma NoDup_keys_remove {V : Type} (d : dict V) (k : string) :
  NoDup (keys d) -> NoDup (keys (remove d k)).
Proof.
  induction d as [|[k0 x] d IH]; simpl; intros Hnd; [constructor|].
  inversion Hnd as [|? ? Hnot Hnd']; subst.
  destruct (String.eqb k0 k); [exact Hnd'|].
  simpl; constructor; [|apply IH, Hnd'].
  intros Hin; apply Hnot, (keys_remove_subset d k), Hin.
Qed.

Lemma get_remove_same {V : Type} (d : dict V) (k : string) :
  NoDup (keys d) -> get (remove d k) k = None.
Proof.
  induction d as [|[k0 x] d IH]; simpl; intros Hnd; [reflexivity|].
  inversion Hnd as [|? ? Hnot Hnd']; subst.
  destruct (String.eqb k0 k) eqn:E; simpl.
  - apply String.eqb_eq in E; subst k0; apply get_absent, Hnot.
  - rewrite E; apply IH, Hnd'.
Qed.

Lemma pop_each_without {V : Type} (columns : list string) :
  forall d : dict V,
    NoDup columns ->
    (forall k, In k columns -> get d k <> None) ->
    pop_each d columns = Returned (without columns d).
Proof.
  unfold without.
  induction columns as [|k columns IH]; intros d Hnd Hall; simpl;
    [reflexivity|].
  inversion Hnd as [|? ? Hnot Hnd']; subst.
  unfold pop.
  destruct (get d k) eqn:E; [|exfalso; exact (Hall k (or_introl eq_refl) E)].
  apply IH; [exact Hnd'|].
  intros k' Hk'; rewrite get_remove_other; [apply Hall; right; exact Hk'|].
  intros ->; contradiction.
Qed.

Lemma without_get {V : Type} (columns : list string) :
  forall (d : dict V) (k : string),
    NoDup (keys d) ->
    get (without columns d) k = if str_in k columns then None else get d k.
Proof.
  unfold without.
  induction columns as [|k0 columns IH]; intros d k Hnd; simpl;
    [reflexivity|].
  rewrite IH by (apply NoDup_keys_remove, Hnd).
  destruct (String.eqb k k0) eqn:E; simpl.
  - apply String.eqb_eq in E; subst k0.
    rewrite get_remove_same by exact Hnd.
    destruct (str_in k columns); reflexivity.
  - rewrite get_remove_other; [reflexivity|].
    intros ->; rewrite String.eqb_refl in E; discriminate E.
Qed.

Lemma item_get_or_none (s : sensor) (key : string) :
  has_key s key -> item s key = Returned (get_or_none s key).
Proof.
  unfold has_key, item, get_or_none.
  destruct (get s key); [reflexivity|contradiction].
Qed.

Lemma collect_rows_selected (c : constants) (resources : list sensor) :
  forall data,
    Forall (fun s => has_key s "os_version") resources ->
    (SHOW_ALL c = false ->
     Forall (fun s => forall k, In k hidden_columns -> has_key s k)
       resources) ->
    collect_rows c resources data
    = Returned
        (data
           ++ map (fun s => if SHOW_ALL c then s
                            else without hidden_columns s)
                (selected c resources)).
Proof.
  unfold selected.
  induction resources as [|s rest IH]; intros data Hver Hcols;
    cbn [collect_rows filter].
  - cbn [map]; rewrite app_nil_r; reflexivity.
  - inversion Hver as [|? ? Hs Hrest]; subst.
    rewrite (item_get_or_none s "os_version" Hs).
    assert (Hcols' : SHOW_ALL c = false ->
                     Forall (fun s => forall k, In k hidden_columns ->
                                                has_key s k) rest).
    { intros Hmode; specialize (Hcols Hmode).
      inversion Hcols; assumption. }
    destruct (version_selected (OSVER c) (get_or_none s "os_version"));
      [|apply IH; assumption].
    destruct (SHOW_ALL c) eqn:Hmode; cbn [negb map].
    + rewrite IH by assumption; rewrite <- app_assoc; reflexivity.
    + specialize (Hcols eq_refl); inversion Hcols as [|? ? Hk _]; subst.
      rewrite pop_each_without;
        [|repeat constructor; simpl; intuition discriminate|exact Hk].
      rewrite IH by assumption; rewrite <- app_assoc; reflexivity.
Qed.

(** X17: the [list] command on installers that all have the key
    [os_version] and, unless [--all] is given, the five hidden columns.  It
    shows the installers whose OS version is [OSVER], all of them when
    [OSVER] is empty, in the order received, and prints the no-results
    message exactly when there is none; unless [--all] is given each row has
    lost the five hidden columns and kept the value of every other key. *)
Theorem list_command_shows_selected (c : constants)
    (resources : list sensor) (done : list action) :
  Forall (fun s => has_key s "os_version") resources ->
  (SHOW_ALL c = false ->
   Forall (fun s => forall k, In k hidden_columns -> has_key s k) resources) ->
  let rows :=
    map (fun s => if SHOW_ALL c then s else without hidden_columns s)
      (selected c resources) in
  let headers :=
    if SHOW_ALL c then all_headers else without hidden_columns all_headers in
  list_command c resources done
  = (Returned tt,
     done ++ [match selected c resources with
              | [] =>
                  print
                    "No results, check your filter and try your query again."
              | _ :: _ => print_table rows headers (FORMAT c)
              end])
  /\ (forall (s : sensor) k,
         SHOW_ALL c = false -> NoDup (keys s) ->
         get (without hidden_columns s) k
         = if str_in k hidden_columns then None else get s k).
Proof.
  intros Hver Hcols rows headers; split.
  - unfold list_command, io_bind, eval, perform.
    assert (Hheaders : (if negb (SHOW_ALL c)
                        then pop_each all_headers hidden_columns
                        else Returned all_headers) = Returned headers).
    { subst headers; destruct (SHOW_ALL c); reflexivity. }
    rewrite Hheaders, (collect_rows_selected c resources [] Hver Hcols).
    cbn [app]; fold rows; subst rows.
    destruct (selected c resources) as [|s l]; reflexivity.
  - intros s k _ Hnd; apply without_get, Hnd.
Qed.

Lemma list_command_shows_selected_witness :
  list_command download_first catalogue []
  = (Returned tt,
     [print_table
        (map (without hidden_columns) catalogue)
        (without hidden_columns all_headers) "fancy_grid"]).
Proof.
  assert (Hver : Forall (fun s => has_key s "os_version") catalogue)
    by (repeat constructor; discriminate).
  assert (Hcols : SHOW_ALL download_first = false ->
                  Forall (fun s => forall k, In k hidden_columns ->
                                             has_key s k) catalogue).
  { intros _; repeat constructor; intros k Hk; simpl in Hk;
      repeat destruct Hk as [<-|Hk]; try discriminate; destruct Hk. }
  rewrite (proj1 (list_command_shows_selected download_first catalogue []
                    Hver Hcols)).
  vm_compute; reflexivity.
Defined.

(** *** File names *)

Lemma length_append (a b : string) :
  String.length (a ++ b)%string = (String.length a + String.length b)%nat.
Proof. induction a as [|c a IH]; simpl; [reflexivity|rewrite IH; reflexivity]. Qed.

Lemma length_replace_char (old new : ascii) (s : string) :
  String.length (replace_char old new s) = String.length s.
Proof. induction s as [|c s IH]; simpl; [reflexivity|rewrite IH; reflexivity]. Qed.

Lemma take_drop (n : nat) :
  forall s, (take n s ++ drop n s)%string = s.
Proof.
  induction n as [|n IH]; intros [|c s]; simpl; try reflexivity.
  rewrite IH; reflexivity.
Qed.

Lemma length_drop (n : nat) :
  forall s, String.length (drop n s) = (String.length s - n)%nat.
Proof.
  induction n as [|n IH]; intros [|c s]; simpl; try reflexivity.
  apply IH.
Qed.

Lemma take_zero (s : string) : take 0 s = EmptyString.
Proof. destruct s; reflexivity. Qed.

(** X18: the file name given to a Windows or macOS installer.  For a name of
    at least four characters the version is inserted, after an underscore,
    in front of the last four characters, so that the extension stays at the
    end.  For a shorter name nothing is in front of the underscore, and what
    follows the version is the name without its first [2n - 4] characters,
    [n] being its length: the whole name up to two characters, only the last
    one for three. *)
Theorem versioned_name_keeps_extension (fname : string)
    (dl_ver : option string) :
  ((4 <= String.length fname)%nat ->
   exists stem extension,
     fname = (stem ++ extension)%string
     /\ String.length extension = 4%nat
     /\ versioned_name fname dl_ver
        = (stem ++ "_" ++ fmt dl_ver ++ extension)%string)
  /\ ((String.length fname < 4)%nat ->
      versioned_name fname dl_ver
      = ("_" ++ fmt dl_ver ++ drop (2 * String.length fname - 4) fname)
        %string).
Proof.
  unfold versioned_name, slice_to, slice_from, slice_index.
  assert (Hto : Z.to_nat (Z.max (Z.of_nat (String.length fname) + -4) 0)
                = (String.length fname - 4)%nat) by lia.
  change (-4 <? 0) with true; cbv iota; rewrite Hto; split; intros Hlen.
  - exists (take (String.length fname - 4) fname),
      (drop (String.length fname - 4) fname).
    split; [symmetry; apply take_drop|].
    split; [rewrite length_drop; lia|].
    destruct (Z.of_nat (String.length fname) - 4 <? 0) eqn:E;
      [apply Z.ltb_lt in E; lia|].
    replace (Z.to_nat (Z.min (Z.of_nat (String.length fname) - 4)
                         (Z.of_nat (String.length fname))))
      with (String.length fname - 4)%nat by lia.
    reflexivity.
  - replace (String.length fname - 4)%nat with 0%nat by lia.
    rewrite take_zero.
    destruct (Z.of_nat (String.length fname) - 4 <? 0) eqn:E;
      [|apply Z.ltb_ge in E; lia].
    replace (Z.to_nat (Z.max (Z.of_nat (String.length fname)
                              + (Z.of_nat (String.length fname) - 4)) 0))
      with (2 * String.length fname - 4)%nat by lia.
    reflexivity.
Qed.

Lemma versioned_name_keeps_extension_witness :
  exists stem extension,
    "WindowsSensor.exe" = (stem ++ extension)%string
    /\ String.length extension = 4%nat
    /\ versioned_name "WindowsSensor.exe" (Some "7.11")
       = (stem ++ "_" ++ "7.11" ++ extension)%string.
Proof.
  apply (proj1 (versioned_name_keeps_extension "WindowsSensor.exe"
                  (Some "7.11"))).
  vm_compute; lia.
Defined.

(** *** The [download] command *)

Lemma downloads_app (a b : list action) :
  downloads (a ++ b) = downloads a ++ downloads b.
Proof.
  induction a as [|x a IH]; simpl; [reflexivity|].
  destruct x; simpl; rewrite IH; reflexivity.
Qed.

Lemma writes_app (a b : list action) :
  writes (a ++ b) = writes a ++ writes b.
Proof.
  induction a as [|x a IH]; simpl; [reflexivity|].
  destruct x; simpl; rewrite IH; reflexivity.
Qed.

Lemma get_or_none_some (s : sensor) (key : string) (v : option string) :
  get s key = Some v -> get_or_none s key = v.
Proof. unfold get_or_none; intros ->; reflexivity. Qed.

Lemma makedirs_if_missing_outcome (cwd : list string) (dir_name : string)
    (done : list action) :
  exists made,
    makedirs_if_missing cwd dir_name done = (Returned tt, done ++ made)
    /\ made = (if path_exists cwd done dir_name then []
               else [makedirs dir_name])
    /\ downloads made = [] /\ writes made = [].
Proof.
  unfold makedirs_if_missing.
  destruct (path_exists cwd done dir_name); cbn [negb].
  - exists []; rewrite app_nil_r; repeat split.
  - exists [makedirs dir_name]; repeat split.
Qed.

Lemma save_file_outcome (cwd : list string) (dir_name fname content : string)
    (done : list action) :
  (path_exists cwd done dir_name = true
   /\ save_file cwd dir_name fname content done
      = (Returned tt, done ++ [write_file dir_name fname content]))
  \/ (path_exists cwd done dir_name = false
      /\ save_file cwd dir_name fname content done
         = (Raised FileNotFoundError, done)).
Proof.
  unfold save_file; destruct (path_exists cwd done dir_name); auto.
Qed.

(** The end of a turn that has requested an installer: the file is saved
    and the bucket marked complete, or [open] raises. *)
Ltac save_step Hfetch Hturn Hmd Hmw e :=
  match goal with
  | |- context [save_file ?cwd ?dir_name ?fname ?content ?done] =>
      let Hsave := fresh "Hsave" in
      destruct (save_file_outcome cwd dir_name fname content done)
        as [[_ Hsave]|[_ Hsave]]; rewrite Hsave
  end;
  rewrite <- !app_assoc; apply (Hfetch _ _ e), Hturn;
  [ rewrite downloads_app, Hmd; reflexivity
  | right; eexists _, _; split;
    [rewrite writes_app, Hmw; reflexivity|reflexivity]
  | rewrite downloads_app, Hmd; reflexivity
  | left; split; [right; reflexivity|rewrite writes_app, Hmw; reflexivity] ].

(** What one turn of the loop can do. *)
Lemma download_one_outcomes (c : constants) (NMVER : string)
    (version_detail : dict (dict os_detail)) (falcon : Falcon)
    (cwd : list string)
    (st : progress) (s : sensor) (done : list action) :
  exists added,
    snd (download_one c NMVER version_detail falcon cwd st s done)
    = done ++ added
    /\ (quiet_turn st s
          (fst (download_one c NMVER version_detail falcon cwd st s done)) added
        \/ exists e,
             fetching_turn c NMVER version_detail st s
               (fst (download_one c NMVER version_detail falcon cwd st s done))
               added e).
Proof.
  assert (Hquiet : forall (o : outcome progress) (added : list action),
             quiet_turn st s o added ->
             exists added0,
               snd (o, done ++ added) = done ++ added0
               /\ (quiet_turn st s (fst (o, done ++ added)) added0
                   \/ exists e,
                        fetching_turn c NMVER version_detail st s
                          (fst (o, done ++ added)) added0 e)).
  { intros o added H; exists added; split; [reflexivity|left; exact H]. }
  assert (Hfetch : forall (o : outcome progress) (added : list action) e,
             fetching_turn c NMVER version_detail st s o added e ->
             exists added0,
               snd (o, done ++ added) = done ++ added0
               /\ (quiet_turn st s (fst (o, done ++ added)) added0
                   \/ exists e0,
                        fetching_turn c NMVER version_detail st s
                          (fst (o, done ++ added)) added0 e0)).
  { intros o added e H; exists added; split; [reflexivity|].
    right; exists e; exact H. }
  assert (Hquiet0 : forall o : outcome progress,
             quiet_turn st s o [] ->
             exists added0,
               snd (o, done) = done ++ added0
               /\ (quiet_turn st s (fst (o, done)) added0
                   \/ exists e,
                        fetching_turn c NMVER version_detail st s
                          (fst (o, done)) added0 e)).
  { intros o H; exists []; split; [symmetry; apply app_nil_r|].
    left; exact H. }
  unfold download_one, io_bind, eval, perform, io_ret, io_raise, item.
  destruct (get s "os") as [os_value|] eqn:Hos.
  2:{ apply Hquiet0.
      unfold quiet_turn, has_key; repeat split; try discriminate.
      intros _ [H _]; exact (H Hos). }
  destruct (get s "os_version") as [ver|] eqn:Hver.
  2:{ apply Hquiet0.
      unfold quiet_turn, has_key; repeat split; try discriminate.
      intros _ [_ [H _]]; exact (H Hver). }
  assert (Hname : full_name_of s
                  = strip (fmt os_value ++ " " ++ fmt ver)%string).
  { unfold full_name_of, bucket_key.
    rewrite (get_or_none_some _ _ _ Hos), (get_or_none_some _ _ _ Hver).
    reflexivity. }
  rewrite <- Hname.
  destruct (version_selected (OSVER c) ver) eqn:Hsel.
  2:{ apply Hquiet0.
      unfold quiet_turn; repeat split; try discriminate.
      intros st' H; injection H as <-; reflexivity. }
  destruct (DO_DOWNLOAD st && negb (str_in (full_name_of s) (dl_complete st)))
    eqn:Hgo.
  2:{ apply Hquiet0.
      unfold quiet_turn; repeat split; try discriminate.
      intros st' H; injection H as <-; reflexivity. }
  apply andb_prop in Hgo; destruct Hgo as [Hdo Hnew].
  apply negb_true_iff in Hnew.
  assert (Hnot : ~ In (full_name_of s) (dl_complete st)).
  { intros Hin; apply str_in_In in Hin; congruence. }
  destruct (get s "platform") as [plat|] eqn:Hplat.
  2:{ apply Hquiet0.
      unfold quiet_turn, has_key; repeat split; try discriminate.
      intros _ [_ [_ H]]; exact (H Hplat). }
  destruct (truthy_str plat).
  2:{ apply Hquiet0.
      unfold quiet_turn; repeat split; try discriminate.
      intros st' H; injection H as <-; reflexivity. }
  destruct (lineage_entry version_detail (fmt plat) (full_name_of s) NMVER)
    as [e|] eqn:Hentry.
  2:{ apply Hquiet.
      unfold quiet_turn; repeat split; try discriminate.
      intros st' H; injection H as <-; reflexivity. }
  assert (Hmode : (if negb (SHOW_ALL c) then false else DO_DOWNLOAD st)
                  = SHOW_ALL c)
    by (rewrite Hdo; destruct (SHOW_ALL c); reflexivity).
  rewrite Hmode.
  assert (Hturn : forall o added,
             downloads added = [entry_sha256 e] ->
             ((o = Raised TypeError \/ o = Raised FileNotFoundError)
              /\ writes added = []
              \/ exists dir_name fname,
                   writes added = [(dir_name, fname)]
                   /\ o = Returned
                            {| dl_complete :=
                                 dl_complete st ++ [full_name_of s];
                               DO_DOWNLOAD := SHOW_ALL c |}) ->
             fetching_turn c NMVER version_detail st s o added e).
  { intros o added H1 H2; unfold fetching_turn.
    rewrite (get_or_none_some _ _ _ Hplat), (get_or_none_some _ _ _ Hver).
    repeat split; auto. }
  destruct (makedirs_if_missing_outcome cwd
              (replace_char "/" " " (fmt os_value ++ " " ++ fmt ver)%string)
              done) as [made [Hmade [_ [Hmd Hmw]]]].
  rewrite Hmade.
  destruct (is_empty (FILENAME c)).
  - destruct (value_in os_value ["Windows"; "macOS"]).
    + destruct (entry_name e) as [f|].
      * save_step Hfetch Hturn Hmd Hmw e.
      * apply Hquiet; unfold quiet_turn; repeat split;
          try discriminate; assumption.
    + destruct (entry_name e) as [f|].
      * save_step Hfetch Hturn Hmd Hmw e.
      * rewrite <- !app_assoc; apply (Hfetch _ _ e), Hturn.
        -- rewrite downloads_app, Hmd; reflexivity.
        -- left; split; [left; reflexivity|].
           rewrite writes_app, Hmw; reflexivity.
  - save_step Hfetch Hturn Hmd Hmw e.
Qed.

Lemma named_by_lineage_cons (c : constants) (NMVER : string)
    (version_detail : dict (dict os_detail)) (s : sensor)
    (rest : list sensor) (ids : list (option string)) :
  Forall (named_by_lineage c NMVER version_detail rest) ids ->
  Forall (named_by_lineage c NMVER version_detail (s :: rest)) ids.
Proof.
  apply Forall_impl; intros id [s0 [e [Hin H]]].
  exists s0, e; split; [right; exact Hin|exact H].
Qed.

(** What the whole loop does, from any state whose completed names are
    distinct. *)
Lemma download_each_summary (c : constants) (NMVER : string)
    (version_detail : dict (dict os_detail)) (falcon : Falcon)
    (cwd : list string)
    (resources : list sensor) :
  forall st done,
    NoDup (dl_complete st) ->
    exists added,
      snd (download_each c NMVER version_detail falcon cwd resources st done)
      = done ++ added
      /\ loop_summary c NMVER version_detail resources st
           (fst (download_each c NMVER version_detail falcon cwd resources st
                   done)) added.
Proof.
  induction resources as [|s rest IH]; intros st done Hnd.
  - exists []; split; [symmetry; apply app_nil_r|].
    unfold loop_summary; cbn [download_each io_ret fst downloads writes
                                List.length].
    split; [lia|]. split; [reflexivity|]. split; [lia|].
    split.
    { intros st2 H; injection H as <-.
      split; [exact Hnd|split; [lia|reflexivity]]. }
    split; [discriminate|]. split; [discriminate|constructor].
  - cbn [download_each]; unfold io_bind.
    destruct (download_one_outcomes c NMVER version_detail falcon cwd st s done)
      as [added1 [Hlog1 Hturn]].
    destruct (download_one c NMVER version_detail falcon cwd st s done)
      as [[st1|ex] done1]; simpl in Hlog1, Hturn; subst done1.
    + (* the turn ended normally *)
      assert (Hnd1 : NoDup (dl_complete st1)).
      { destruct Hturn as [[_ [_ [Hsame _]]]|[e [_ [_ [_ [Hnot [_ Hw]]]]]]].
        - rewrite (Hsame st1 eq_refl); exact Hnd.
        - destruct Hw as [[[H|H] _]|[d [f [_ H]]]];
            [discriminate H|discriminate H|].
          injection H as ->; simpl.
          apply NoDup_app; [exact Hnd|repeat constructor; simpl; tauto|].
          intros x Hx [<-|[]]; exact (Hnot Hx). }
      destruct (IH st1 (done ++ added1) Hnd1) as [added2 [Hlog2 Hrest]].
      exists (added1 ++ added2); split;
        [rewrite Hlog2, app_assoc; reflexivity|].
      destruct Hrest as [Hwd [Hoff [Hone [Hret [Hkey [Hattr Hids]]]]]].
      unfold loop_summary; rewrite !downloads_app, !writes_app, !length_app.
      destruct Hturn as [[Hd [Hw [Hsame _]]]
                        |[e [Hentry [Hsel [Hdo [Hnot [Hd Hw]]]]]]].
      * (* a quiet turn *)
        pose proof (Hsame st1 eq_refl) as ->.
        rewrite Hd, Hw; cbn [app List.length Nat.add].
        split; [exact Hwd|]. split; [exact Hoff|]. split; [exact Hone|].
        split; [exact Hret|].
        split; [intros Hall; inversion Hall; auto|].
        split; [exact Hattr|].
        apply named_by_lineage_cons, Hids.
      * (* a turn that fetched an installer *)
        destruct Hw as [[[H|H] _]|[d [f [Hw H]]]];
          [discriminate H|discriminate H|].
        injection H as ->; cbn [dl_complete DO_DOWNLOAD] in *.
        rewrite Hd, Hw; cbn [app List.length].
        split; [lia|]. split; [intros H; congruence|].
        split; [intros Hmode; rewrite (Hoff Hmode); simpl; lia|].
        split.
        { intros st2 H; destruct (Hret st2 H) as [Hnd2 [Hlen Hlen']].
          split; [exact Hnd2|].
          rewrite Hlen, length_app; simpl; lia. }
        split; [intros Hall; inversion Hall; auto|].
        split; [exact Hattr|].
        constructor; [|apply named_by_lineage_cons, Hids].
        exists s, e; repeat split; auto; left; reflexivity.
    + (* the turn raised *)
      exists added1; split; [reflexivity|].
      unfold loop_summary; cbn [fst].
      destruct Hturn as [[Hd [Hw [_ [Hkey Hattr]]]]
                        |[e [Hentry [Hsel [Hdo [Hnot [Hd Hw]]]]]]].
      * rewrite Hd, Hw; cbn [List.length].
        split; [lia|]. split; [reflexivity|]. split; [lia|].
        split; [intros st2 H; discriminate H|].
        split.
        { intros Hall Hex; inversion Hall as [|? ? Hs _]; subst.
          exact (Hkey Hex Hs). }
        split; [exact Hattr|constructor].
      * destruct Hw as [[H Hw]|[d [f [_ H]]]]; [|discriminate H].
        rewrite Hd, Hw; cbn [List.length].
        split; [lia|]. split; [intros Hoff; congruence|]. split; [lia|].
        split; [intros st2 H2; destruct H as [H|H]; congruence|].
        split; [intros _; destruct H as [H|H]; rewrite H; discriminate|].
        split; [destruct H as [H|H]; rewrite H; discriminate|].
        constructor; [|constructor].
        exists s, e; repeat split; auto; left; reflexivity.
Qed.

Lemma get_version_map_outcome (vs : list installer) :
  (exists version_detail, get_version_map vs = Returned version_detail)
  \/ get_version_map vs = Raised KeyError.
Proof.
  unfold get_version_map.
  destruct (track_all_outcome vs _ [] initial_map_tracked)
    as [[_ H]|[_ H]]; [left; exact H|right; exact H].
Qed.

(** The [download] command as a whole: either the version map cannot be
    built, or the loop runs from its initial state. *)
Lemma download_command_summary (c : constants) (resources : list sensor)
    (falcon : Falcon) (cwd : list string) (done : list action) :
  (get_version_map (map installer_of resources) = Raised KeyError
   /\ download_command c resources falcon cwd done = (Raised KeyError, done))
  \/ exists version_detail added o,
       get_version_map (map installer_of resources) = Returned version_detail
       /\ download_each c (NMVER_of (NMINUS c)) version_detail falcon cwd
            resources start done = (o, done ++ added)
       /\ loop_summary c (NMVER_of (NMINUS c)) version_detail resources start
            o added
       /\ download_command c resources falcon cwd done
          = (match o with
             | Returned _ => Returned tt
             | Raised e => Raised e
             end, done ++ added).
Proof.
  unfold download_command, io_bind, eval, io_ret.
  destruct (get_version_map_outcome (map installer_of resources))
    as [[vd Hvd]|Hraise]; [|left; rewrite Hraise; auto].
  right; rewrite Hvd.
  destruct (download_each_summary c (NMVER_of (NMINUS c)) vd falcon cwd
              resources start done (NoDup_nil _)) as [added [Hlog Hsum]].
  fold start.
  destruct (download_each c (NMVER_of (NMINUS c)) vd falcon cwd resources start
              done) as [o done'] eqn:Hrun.
  simpl in Hlog, Hsum; subst done'.
  exists vd, added, o.
  split; [reflexivity|]. split; [exact Hrun|]. split; [exact Hsum|].
  destruct o; reflexivity.
Qed.

(** X19: without [--all] the [download] command requests at most one
    installer and writes at most one file, whatever the list holds and
    however the run ends. *)
Theorem download_at_most_one (c : constants) (resources : list sensor)
    (falcon : Falcon) (cwd : list string) (done : list action) :
  SHOW_ALL c = false ->
  exists added,
    snd (download_command c resources falcon cwd done) = done ++ added
    /\ (List.length (downloads added) <= 1)%nat
    /\ (List.length (writes added) <= 1)%nat.
Proof.
  intros Hmode.
  destruct (download_command_summary c resources falcon cwd done)
    as [[_ Hrun]|[vd [added [o [_ [_ [Hsum Hrun]]]]]]]; rewrite Hrun.
  - exists []; simpl; rewrite app_nil_r; repeat split; lia.
  - exists added; split; [reflexivity|].
    destruct Hsum as [Hwd [_ [Hone _]]].
    specialize (Hone Hmode); lia.
Qed.

Lemma download_at_most_one_witness :
  exists added,
    snd (download_command download_first catalogue cloud [] []) = [] ++ added
    /\ (List.length (downloads added) <= 1)%nat
    /\ (List.length (writes added) <= 1)%nat.
Proof.
  exact (download_at_most_one download_first catalogue cloud [] [] eq_refl).
Defined.

(** X20: when the download loop ends normally, the names it has marked
    complete are all different, and it has requested one installer and
    written one file for each of them: no bucket is downloaded twice in a
    run. *)
Theorem download_once_per_bucket (c : constants) (NMVER : string)
    (version_detail : dict (dict os_detail)) (falcon : Falcon)
    (cwd : list string)
    (resources : list sensor) (done done' : list action) (st' : progress) :
  download_each c NMVER version_detail falcon cwd resources start done
  = (Returned st', done') ->
  exists added,
    done' = done ++ added
    /\ NoDup (dl_complete st')
    /\ List.length (downloads added) = List.length (dl_complete st')
    /\ List.length (writes added) = List.length (dl_complete st').
Proof.
  intros Hrun.
  destruct (download_each_summary c NMVER version_detail falcon cwd resources
              start done (NoDup_nil _)) as [added [Hlog Hsum]].
  rewrite Hrun in Hlog, Hsum; simpl in Hlog, Hsum.
  exists added; split; [exact Hlog|].
  destruct Hsum as [_ [_ [_ [Hret _]]]].
  destruct (Hret st' eq_refl) as [Hnd [Hlen Hlen']].
  simpl in Hlen; repeat split; [exact Hnd|lia|lia].
Qed.

Lemma download_once_per_bucket_witness :
  exists st' done' added,
    get_version_map (map installer_of catalogue) = Returned catalogue_map
    /\ download_each download_all "current" catalogue_map cloud ["Windows"]
         catalogue start [] = (Returned st', done')
    /\ done' = [] ++ added
    /\ dl_complete st' = ["RHEL/Oracle 9"; "Windows"; "SLES 15"]
    /\ NoDup (dl_complete st')
    /\ List.length (downloads added) = List.length (dl_complete st').
Proof.
  eexists _, _.
  assert (Hrun : download_each download_all "current" catalogue_map cloud
                   ["Windows"] catalogue start []
                 = (Returned
                      {| dl_complete := ["RHEL/Oracle 9"; "Windows"; "SLES 15"];
                         DO_DOWNLOAD := true |},
                    snd (download_each download_all "current" catalogue_map
                           cloud ["Windows"] catalogue start [])))
    by (vm_compute; reflexivity).
  destruct (download_once_per_bucket _ _ _ _ _ _ _ _ _ Hrun)
    as [added [Hlog [Hnd [Hlen _]]]].
  exists added; split; [vm_compute; reflexivity|].
  split; [exact Hrun|]. split; [exact Hlog|].
  split; [reflexivity|]. split; [exact Hnd|exact Hlen].
Defined.

(** X21: the documented repair.  A sensor that would be downloaded, but for
    whose platform and bucket the version map has no entry of the wanted
    lineage, makes the loop print the note and go on with the remaining
    sensors, its two variables unchanged. *)
Theorem missing_lineage_is_skipped (c : constants) (NMVER : string)
    (version_detail : dict (dict os_detail)) (falcon : Falcon)
    (cwd : list string)
    (st : progress) (s : sensor) (rest : list sensor) (done : list action)
    (os_value os_version_value plat : option string) :
  get s "os" = Some os_value ->
  get s "os_version" = Some os_version_value ->
  get s "platform" = Some plat ->
  version_selected (OSVER c) os_version_value = true ->
  DO_DOWNLOAD st = true ->
  ~ In (full_name_of s) (dl_complete st) ->
  truthy_str plat = true ->
  lineage_entry version_detail (fmt plat) (full_name_of s) NMVER = None ->
  download_each c NMVER version_detail falcon cwd (s :: rest) st done
  = download_each c NMVER version_detail falcon cwd rest st
      (done ++ [print (NMVER ++ " version not available for "
                         ++ full_name_of s
                         ++ ". The OS grouping label likely was recently "
                         ++ "changed.")%string]).
Proof.
  intros Hos Hver Hplat Hsel Hdo Hnot Htruthy Hentry.
  assert (Hname : full_name_of s
                  = strip (fmt os_value ++ " " ++ fmt os_version_value)
                      %string).
  { unfold full_name_of, bucket_key.
    rewrite (get_or_none_some _ _ _ Hos), (get_or_none_some _ _ _ Hver).
    reflexivity. }
  cbn [download_each].
  unfold download_one, io_bind, eval, perform, io_ret, item.
  rewrite Hos, Hver, Hplat, <- Hname, Hsel, Hdo, Htruthy, Hentry.
  destruct (str_in (full_name_of s) (dl_complete st)) eqn:E;
    [apply str_in_In in E; contradiction|].
  reflexivity.
Qed.

Lemma missing_lineage_is_skipped_witness :
  download_each download_all "oldest"
    [("windows", []); ("mac", []); ("linux", [])] cloud []
    (installer_row "linux" "SLES" "15" "falcon-sles.rpm" :: []) start []
  = download_each download_all "oldest"
      [("windows", []); ("mac", []); ("linux", [])] cloud [] [] start
      ([] ++ [print ("oldest" ++ " version not available for "
                       ++ full_name_of
                            (installer_row "linux" "SLES" "15"
                               "falcon-sles.rpm")
                       ++ ". The OS grouping label likely was recently "
                       ++ "changed.")%string]).
Proof.
  apply (missing_lineage_is_skipped download_all "oldest" _ cloud [] start
           (installer_row "linux" "SLES" "15" "falcon-sles.rpm") [] []
           (Some "SLES") (Some "15") (Some "linux"));
    try reflexivity.
  intros H; destruct H.
Defined.

(** X22: which [KeyError]s can end the [download] command.  On sensors that
    all have the keys [os], [os_version] and [platform], it ends with
    [KeyError] exactly when [get_version_map] does, that is when some sensor
    with a platform and an OS name is on a platform other than [windows],
    [mac] and [linux]; a missing lineage entry never does, and then nothing
    has been downloaded. *)
Theorem download_key_error (c : constants) (resources : list sensor)
    (falcon : Falcon) (cwd : list string) (done : list action) :
  Forall indexable resources ->
  (fst (download_command c resources falcon cwd done) = Raised KeyError
   <-> Exists unknown_platform (map installer_of resources))
  /\ (fst (download_command c resources falcon cwd done) = Raised KeyError ->
      snd (download_command c resources falcon cwd done) = done).
Proof.
  intros Hkeys.
  pose proof (get_version_map_raises_iff_lemma (map installer_of resources))
    as [_ Hiff].
  destruct (download_command_summary c resources falcon cwd done)
    as [[Hvd Hrun]|[vd [added [o [Hvd [_ [Hsum Hrun]]]]]]]; rewrite Hrun.
  - split; [|reflexivity].
    split; [intros _; apply Hiff, Hvd|reflexivity].
  - destruct Hsum as [_ [_ [_ [_ [Hkey _]]]]]; specialize (Hkey Hkeys).
    assert (Hno : fst (match o with
                       | Returned _ => Returned tt
                       | Raised e => Raised e
                       end, done ++ added) <> Raised KeyError).
    { destruct o as [st'|e]; simpl; [discriminate|].
      intros H; injection H as ->; apply Hkey; reflexivity. }
    split; [|intros H; contradiction].
    split; [intros H; contradiction|].
    intros Hex; apply Hiff in Hex; rewrite Hex in Hvd; discriminate Hvd.
Qed.

Lemma catalogue_indexable : Forall indexable catalogue.
Proof. repeat constructor; discriminate. Qed.

Lemma download_key_error_witness :
  fst (download_command download_all catalogue cloud [] []) = Raised KeyError
  <-> Exists unknown_platform (map installer_of catalogue).
Proof.
  exact (proj1 (download_key_error download_all catalogue cloud [] []
                  catalogue_indexable)).
Defined.

Lemma NMVER_of_cases (n : option Z) :
  (n = Some 1 /\ NMVER_of n = "previous")
  \/ (n = Some 2 /\ NMVER_of n = "oldest")
  \/ (n <> Some 1 /\ n <> Some 2 /\ NMVER_of n = "current").
Proof.
  unfold NMVER_of; destruct n as [z|];
    [|right; right; repeat split; discriminate].
  destruct (z =? 1) eqn:E1; [apply Z.eqb_eq in E1; subst; auto|].
  destruct (z =? 2) eqn:E2; [apply Z.eqb_eq in E2; subst; auto|].
  apply Z.eqb_neq in E1, E2.
  right; right; repeat split; congruence.
Qed.

Lemma lineage_entry_is_nth (vs : list installer)
    (version_detail : dict (dict os_detail)) (plat key : string)
    (n : option Z) (e : entry) :
  get_version_map vs = Returned version_detail ->
  lineage_entry version_detail plat key (NMVER_of n) = Some e ->
  nth_error (feeding plat key vs) (lineage_index (NMVER_of n)) = Some e.
Proof.
  intros Hrun; unfold lineage_entry.
  destruct (returned_map_tracked _ _ Hrun) as [_ Hinv].
  destruct (get version_detail plat) as [buckets|] eqn:Hplat;
    [|discriminate].
  destruct (Hinv plat buckets Hplat) as [_ Hb].
  destruct (get buckets key) as [d|] eqn:Hkey; [|discriminate].
  rewrite Hb in Hkey.
  destruct (lineage_of_in_order _ _ Hkey) as [_ [Hc [Hp Ho]]].
  destruct (NMVER_of_cases n) as [[_ ->]|[[_ ->]|[_ [_ ->]]]].
  - change (slot d "previous") with (previous d).
    change (lineage_index "previous") with 1%nat; congruence.
  - change (slot d "oldest") with (oldest d).
    change (lineage_index "oldest") with 2%nat; congruence.
  - change (slot d "current") with (current d).
    change (lineage_index "current") with 0%nat; congruence.
Qed.

(** X23: what the [download] command fetches.  Every installer it requests
    is, for some selected sensor of the list, the installer that comes first
    (with no [--nminus], or one that is neither 1 nor 2), second (with 1) or
    third (with 2) among the installers of the list that count for that
    sensor's platform and bucket: the list being sorted newest first, the
    newest, the one before it, or the one before that. *)
Theorem downloads_follow_lineage (c : constants) (resources : list sensor)
    (falcon : Falcon) (cwd : list string) (done : list action) :
  let position := lineage_index (NMVER_of (NMINUS c)) in
  (exists added,
      snd (download_command c resources falcon cwd done) = done ++ added
      /\ forall id,
           In id (downloads added) ->
           exists s e,
             In s resources
             /\ version_selected (OSVER c) (get_or_none s "os_version") = true
             /\ nth_error
                  (feeding (fmt (get_or_none s "platform")) (full_name_of s)
                     (map installer_of resources)) position = Some e
             /\ id = entry_sha256 e)
  /\ (NMINUS c = Some 1 -> position = 1%nat)
  /\ (NMINUS c = Some 2 -> position = 2%nat)
  /\ (NMINUS c <> Some 1 -> NMINUS c <> Some 2 -> position = 0%nat).
Proof.
  intros position; split.
  - destruct (download_command_summary c resources falcon cwd done)
      as [[_ Hrun]|[vd [added [o [Hvd [_ [Hsum Hrun]]]]]]]; rewrite Hrun.
    + exists []; simpl; rewrite app_nil_r; split; [reflexivity|].
      intros id [].
    + exists added; split; [reflexivity|].
      destruct Hsum as [_ [_ [_ [_ [_ [_ Hids]]]]]].
      rewrite Forall_forall in Hids; intros id Hid.
      destruct (Hids id Hid) as [s [e [Hin [Hsel [Hentry ->]]]]].
      exists s, e; repeat split; auto.
      apply (lineage_entry_is_nth _ vd); assumption.
  - subst position.
    destruct (NMVER_of_cases (NMINUS c)) as [[H ->]|[[H ->]|[H1 [H2 ->]]]];
      repeat split; intros; try reflexivity; congruence.
Qed.

Lemma path_exists_app (cwd : list string) (done added : list action)
    (dir_name : string) :
  path_exists cwd (done ++ added) dir_name
  = path_exists cwd done dir_name || existsb (makes dir_name) added.
Proof.
  unfold path_exists; rewrite existsb_app, orb_assoc; reflexivity.
Qed.

(** X24: where a Windows or macOS installer is written.  When no
    [--filename] is given and the sensor's OS is [Windows] or [macOS], the
    turn makes sure that the directory named after the OS and its version
    exists, requests the installer, and then opens the file, under its
    versioned name, in the directory named after the OS alone, which is
    never the same directory.  Where that directory is not there, as in a
    fresh working directory, the turn ends with [FileNotFoundError] once the
    installer has been requested, and nothing is written; where it is
    there, the file is written into it. *)
Theorem os_directory_is_not_the_one_prepared (c : constants)
    (NMVER : string) (version_detail : dict (dict os_detail))
    (falcon : Falcon) (cwd : list string) (st : progress) (s : sensor)
    (done : list action) (os_name plat fname : string)
    (os_version_value : option string) (e : entry) :
  get s "os" = Some (Some os_name) ->
  In os_name ["Windows"; "macOS"] ->
  get s "os_version" = Some os_version_value ->
  get s "platform" = Some (Some plat) ->
  plat <> EmptyString ->
  version_selected (OSVER c) os_version_value = true ->
  DO_DOWNLOAD st = true ->
  ~ In (full_name_of s) (dl_complete st) ->
  FILENAME c = EmptyString ->
  lineage_entry version_detail plat (full_name_of s) NMVER = Some e ->
  entry_name e = Some fname ->
  let prepared :=
    replace_char "/" " " (os_name ++ " " ++ fmt os_version_value)%string in
  let requested :=
    done
      ++ (if path_exists cwd done prepared then [] else [makedirs prepared])
      ++ [print ("Downloading " ++ fmt (entry_description e) ++ " version "
                   ++ fmt (entry_version e))%string;
          DownloadSensorInstallerById (entry_sha256 e)] in
  prepared <> os_name
  /\ path_exists cwd requested os_name = path_exists cwd done os_name
  /\ (path_exists cwd done os_name = false ->
      download_one c NMVER version_detail falcon cwd st s done
      = (Raised FileNotFoundError, requested))
  /\ (path_exists cwd done os_name = true ->
      download_one c NMVER version_detail falcon cwd st s done
      = (Returned {| dl_complete := dl_complete st ++ [full_name_of s];
                     DO_DOWNLOAD := SHOW_ALL c |},
         requested
           ++ [write_file os_name (versioned_name fname (entry_version e))
                 (installer_file falcon (entry_sha256 e))])).
Proof.
  intros Hos Hwin Hver Hplat Hne Hsel Hdo Hnot Hfile Hentry Hname prepared
    requested.
  assert (Hfull : full_name_of s
                  = strip (os_name ++ " " ++ fmt os_version_value)%string).
  { unfold full_name_of, bucket_key.
    rewrite (get_or_none_some _ _ _ Hos), (get_or_none_some _ _ _ Hver).
    reflexivity. }
  assert (Hdiff : prepared <> os_name).
  { intros Heq; apply (f_equal String.length) in Heq.
    subst prepared; rewrite length_replace_char, length_append in Heq.
    simpl in Heq; lia. }
  assert (Hthere : path_exists cwd requested os_name
                   = path_exists cwd done os_name).
  { subst requested; rewrite path_exists_app, existsb_app.
    destruct (path_exists cwd done prepared); cbn [existsb makes orb].
    - apply orb_false_r.
    - apply String.eqb_neq in Hdiff; rewrite Hdiff; apply orb_false_r. }
  split; [exact Hdiff|]. split; [exact Hthere|].
  assert (Hrun : download_one c NMVER version_detail falcon cwd st s done
                 = match
                     save_file cwd os_name
                       (versioned_name fname (entry_version e))
                       (installer_file falcon (entry_sha256 e)) requested
                   with
                   | (Returned _, done') =>
                       (Returned
                          {| dl_complete := dl_complete st ++ [full_name_of s];
                             DO_DOWNLOAD := SHOW_ALL c |}, done')
                   | (Raised ex, done') => (Raised ex, done')
                   end).
  { unfold download_one, io_bind, eval, perform, io_ret, item.
    rewrite Hos, Hver, Hplat; cbn [fmt]; rewrite <- Hfull, Hsel, Hdo.
    destruct (str_in (full_name_of s) (dl_complete st)) eqn:E;
      [apply str_in_In in E; contradiction|].
    cbn [negb andb].
    assert (Htruthy : truthy_str (Some plat) = true)
      by (destruct plat; [contradiction|reflexivity]).
    rewrite Htruthy, Hentry, Hfile, Hname; cbn [is_empty].
    assert (Hin : value_in (Some os_name) ["Windows"; "macOS"] = true)
      by (apply str_in_In, Hwin).
    rewrite Hin; fold prepared.
    unfold makedirs_if_missing; subst requested.
    destruct (path_exists cwd done prepared); cbn [negb app];
      rewrite <- ?app_assoc; cbn [app];
      destruct (save_file cwd os_name _ _ _) as [[u|ex] done'];
      try reflexivity; destruct (SHOW_ALL c); reflexivity. }
  rewrite Hrun; unfold save_file; rewrite Hthere.
  split; intros H; rewrite H; reflexivity.
Qed.

Lemma os_directory_is_not_the_one_prepared_witness :
  download_one download_all "current" catalogue_map cloud [] start
    (installer_row "windows" "Windows" "" "WindowsSensor.exe") []
  = (Raised FileNotFoundError,
     [makedirs "Windows ";
      print "Downloading Falcon sensor version 7.11";
      DownloadSensorInstallerById (Some "sha-WindowsSensor.exe")])
  /\ download_one download_all "current" catalogue_map cloud ["Windows"]
       start (installer_row "windows" "Windows" "" "WindowsSensor.exe") []
     = (Returned {| dl_complete := ["Windows"]; DO_DOWNLOAD := true |},
        [makedirs "Windows ";
         print "Downloading Falcon sensor version 7.11";
         DownloadSensorInstallerById (Some "sha-WindowsSensor.exe");
         write_file "Windows" "WindowsSensor_7.11.exe"
           "content of sha-WindowsSensor.exe"]).
Proof.
  assert (Hnot : ~ In (full_name_of
                         (installer_row "windows" "Windows" ""
                            "WindowsSensor.exe")) (dl_complete start))
    by (intros H; destruct H).
  assert (Hplat : "windows" <> EmptyString) by discriminate.
  assert (Hentry : lineage_entry catalogue_map "windows"
                     (full_name_of
                        (installer_row "windows" "Windows" ""
                           "WindowsSensor.exe")) "current"
                   = Some {| entry_name := Some "WindowsSensor.exe";
                             entry_description := Some "Falcon sensor";
                             entry_version := Some "7.11";
                             entry_sha256 := Some "sha-WindowsSensor.exe" |})
    by (vm_compute; reflexivity).
  split.
  - rewrite (proj1 (proj2 (proj2
               (os_directory_is_not_the_one_prepared download_all "current"
                  catalogue_map cloud [] start
                  (installer_row "windows" "Windows" "" "WindowsSensor.exe")
                  [] "Windows" "windows" "WindowsSensor.exe" (Some "") _
                  eq_refl (or_introl eq_refl) eq_refl eq_refl Hplat
                  eq_refl eq_refl Hnot eq_refl Hentry eq_refl))) eq_refl).
    vm_compute; reflexivity.
  - rewrite (proj2 (proj2 (proj2
               (os_directory_is_not_the_one_prepared download_all "current"
                  catalogue_map cloud ["Windows"] start
                  (installer_row "windows" "Windows" "" "WindowsSensor.exe")
                  [] "Windows" "windows" "WindowsSensor.exe" (Some "") _
                  eq_refl (or_introl eq_refl) eq_refl eq_refl Hplat
                  eq_refl eq_refl Hnot eq_refl Hentry eq_refl))) eq_refl).
    vm_compute; reflexivity.
Defined.

(** *** The [list] command on incomplete installers *)

Lemma pop_each_missing {V : Type} (columns : list string) :
  forall d : dict V,
    (exists k, In k columns /\ get d k = None) ->
    pop_each d columns = Raised KeyError.
Proof.
  induction columns as [|k0 columns IH]; intros d [k [Hin Hk]];
    [destruct Hin|].
  cbn [pop_each]; unfold pop.
  destruct (get d k0) eqn:E0; [|reflexivity].
  apply IH; exists k; destruct Hin as [->|Hin]; [congruence|].
  split; [exact Hin|].
  destruct (string_dec k k0) as [->|Hne]; [congruence|].
  rewrite get_remove_other; assumption.
Qed.

Lemma pop_each_raises {V : Type} (columns : list string) :
  forall (d : dict V) (e : exn),
    pop_each d columns = Raised e -> e = KeyError.
Proof.
  induction columns as [|k columns IH]; intros d e; cbn [pop_each];
    [discriminate|].
  unfold pop; destruct (get d k); [apply IH|].
  intros H; injection H as <-; reflexivity.
Qed.

(** X25: the [list] command on an installer that lacks a key.  Without
    [--all], a selected installer that lacks one of the five hidden columns
    ends the command with [KeyError] before anything is printed; with or
    without [--all], so does an installer without the key [os_version]. *)
Theorem list_command_key_error (c : constants) (before : list sensor)
    (s : sensor) (after : list sensor) (done : list action) :
  get s "os_version" = None
  \/ (SHOW_ALL c = false
      /\ version_selected (OSVER c) (get_or_none s "os_version") = true
      /\ exists k, In k hidden_columns /\ get s k = None) ->
  list_command c (before ++ s :: after) done = (Raised KeyError, done).
Proof.
  intros Hbad.
  assert (Hrows : forall data,
             collect_rows c (before ++ s :: after) data = Raised KeyError).
  { clear done; induction before as [|s0 before IH]; intros data.
    - cbn [app collect_rows]; unfold item.
      destruct Hbad as [Hnone|[Hmode [Hsel Hmissing]]];
        [rewrite Hnone; reflexivity|].
      destruct (get s "os_version") as [value|] eqn:E; [|reflexivity].
      rewrite (get_or_none_some _ _ _ E) in Hsel.
      rewrite Hsel, Hmode; cbn [negb].
      rewrite (pop_each_missing _ _ Hmissing); reflexivity.
    - cbn [app collect_rows]; unfold item.
      destruct (get s0 "os_version") as [value|]; [|reflexivity].
      destruct (version_selected (OSVER c) value); [|apply IH].
      destruct (negb (SHOW_ALL c)); [|apply IH].
      destruct (pop_each s0 hidden_columns) as [s0'|e] eqn:E; [apply IH|].
      rewrite (pop_each_raises _ _ _ E); reflexivity. }
  unfold list_command, io_bind, eval.
  rewrite Hrows.
  destruct (SHOW_ALL c); reflexivity.
Qed.

Lemma list_command_key_error_witness :
  list_command download_first
    ([installer_row "linux" "SLES" "15" "falcon-sles.rpm"]
       ++ [("name", Some "falcon.rpm"); ("os_version", Some "9")] :: []) []
  = (Raised KeyError, []).
Proof.
  apply list_command_key_error.
  right; split; [reflexivity|]; split; [reflexivity|].
  exists "description"; split; [left; reflexivity|reflexivity].
Defined.

End SensorScriptFacts.
